(** * The streaming-event client of the stock-scanner dashboard

    A shallow embedding of [app/static/js/main.js] (and of the functions of
    the older [app/static/main.js] that differ from it): the push-channel
    manager, the event router, the narrative accumulator, the view
    reconciler and the submission guards.

    The page is a finite map from element ids to elements, the script's
    globals are fields of a state record, and every handler is a function
    from states to outcomes that either completes or throws, keeping the
    changes made before the throw, as a JavaScript handler does. *)

From Stdlib Require Import Ascii QArith_base.
From stdpp Require Import gmap strings list fin_maps pretty.

Set Warnings "-register-all".

Close Scope Q_scope.

(** ** JavaScript values *)

(** Numbers: the finite ones are rationals (the doubles are among them, and
    arithmetic rounds to a double, see [roundDouble]); how a number prints
    is left to the runtime (see [Runtime] below). *)
Inductive JSNum : Type :=
| NaN
| Inf (negative : bool)
| Fin (q : Q).

(** The values [JSON.parse] produces, with [undefined] for absent
    properties.  Arrays are left out: no handler below reads one. *)
Inductive JSValue : Type :=
| VUndefined
| VNull
| VBool (b : bool)
| VNum (n : JSNum)
| VStr (s : string)
| VObj (fields : list (string * JSValue)).

Fixpoint assoc (k : string) (fields : list (string * JSValue)) : JSValue :=
  match fields with
  | [] => VUndefined
  | (k', v) :: rest => if decide (k' = k) then v else assoc k rest
  end.

(** [v[k]] for a [v] that is neither [null] nor [undefined]. *)
Definition getProp (v : JSValue) (k : string) : JSValue :=
  match v with
  | VObj fields => assoc k fields
  | _ => VUndefined
  end.

Definition nullish (v : JSValue) : bool :=
  match v with
  | VUndefined | VNull => true
  | _ => false
  end.

(** [v?.k] *)
Definition optMember (v : JSValue) (k : string) : JSValue :=
  if nullish v then VUndefined else getProp v k.

Definition numTruthy (n : JSNum) : bool :=
  match n with
  | NaN => false
  | Inf _ => true
  | Fin q => negb (Qnum q =? 0)%Z
  end.

Definition truthy (v : JSValue) : bool :=
  match v with
  | VUndefined | VNull => false
  | VBool b => b
  | VNum n => numTruthy n
  | VStr s => negb (String.eqb s "")
  | VObj _ => true
  end.

(** [v || d] *)
Definition orElse (v d : JSValue) : JSValue := if truthy v then v else d.

(** [n > 0] *)
Definition positiveNum (n : JSNum) : bool :=
  match n with
  | NaN => false
  | Inf negative => negb negative
  | Fin q => (0 <? Qnum q)%Z
  end.

(** [a / b] rounded to the nearest integer, a tie to the even one
    ([0 <= a], [0 < b]). *)
Definition nearest (a b : Z) : Z :=
  let q := (a / b)%Z in
  let r := (a mod b)%Z in
  if (2 * r <? b)%Z then q
  else if (b <? 2 * r)%Z then (q + 1)%Z
  else if Z.even q then q else (q + 1)%Z.

(** The fraction [n / d] in lowest terms ([0 < d]). *)
Definition fraction (n d : Z) : Q :=
  let g := Z.gcd n d in Qmake (n / g) (Z.to_pos (d / g)).

(** The number a JavaScript operation returns for the exact result [q]:
    the nearest double (IEEE 754 binary64, ties to even), which has 53
    significant bits and a last bit of weight [2^e] with [e] from -1074 to
    971; past the largest double the result is an infinity. *)
Definition roundDouble (q : Q) : JSNum :=
  let a := Z.abs (Qnum q) in
  let b := Z.pos (Qden q) in
  if (a =? 0)%Z then Fin (Qmake 0 1)
  else
    let k := (Z.log2 a - Z.log2 b)%Z in
    (* 2^p <= a / b < 2^(p + 1) *)
    let p := if (if (0 <=? k)%Z then (b * 2 ^ k <=? a)%Z else (b <=? a * 2 ^ (- k))%Z)
             then k else (k - 1)%Z in
    let e := Z.max (p - 52) (-1074) in
    let m := if (0 <=? e)%Z then nearest a (b * 2 ^ e) else nearest (a * 2 ^ (- e)) b in
    if (971 <? e)%Z || ((e =? 971)%Z && (m =? 2 ^ 53)%Z) then Inf (Qnum q <? 0)%Z
    else
      let s := if (Qnum q <? 0)%Z then (- m)%Z else m in
      Fin (if (0 <=? e)%Z then Qmake (s * 2 ^ e) 1 else fraction s (2 ^ (- e))).

(** [n * 100] *)
Definition timesHundred (n : JSNum) : JSNum :=
  match n with
  | NaN => NaN
  | Inf negative => Inf negative
  | Fin q => roundDouble (Qmult q (Qmake 100 1))
  end.

(** ** Strings

    A text of the script is held as its UTF-8 bytes, which is how the
    literals of this file are read. *)

Definition bytes (l : list nat) : string :=
  foldr (λ n s, String (ascii_of_nat n) s) EmptyString l.

(** The white space and the line terminators of the language, which
    [trim] removes: U+0009 to U+000D, U+0020, U+00A0, U+1680, U+2000 to
    U+200A, U+2028, U+2029, U+202F, U+205F, U+3000 and U+FEFF. *)
Definition whiteSpace : list string :=
  bytes <$> [[9]; [10]; [11]; [12]; [13]; [32]; [194; 160]; [225; 154; 128];
             [226; 128; 128]; [226; 128; 129]; [226; 128; 130];
             [226; 128; 131]; [226; 128; 132]; [226; 128; 133];
             [226; 128; 134]; [226; 128; 135]; [226; 128; 136];
             [226; 128; 137]; [226; 128; 138]; [226; 128; 168];
             [226; 128; 169]; [226; 128; 175]; [226; 129; 159];
             [227; 128; 128]; [239; 187; 191]]%nat.

(** What follows [w] in [s], when [s] starts with [w]. *)
Fixpoint dropPrefix (w s : string) : option string :=
  match w, s with
  | EmptyString, _ => Some s
  | String a w', String b s' => if Ascii.eqb a b then dropPrefix w' s' else None
  | String _ _, EmptyString => None
  end.

(** [s] without the first of [codes] it starts with. *)
Fixpoint stripOne (codes : list string) (s : string) : option string :=
  match codes with
  | [] => None
  | w :: rest =>
      match dropPrefix w s with
      | Some s' => Some s'
      | None => stripOne rest s
      end
  end.

Fixpoint stripAll (fuel : nat) (codes : list string) (s : string) : string :=
  match fuel with
  | O => s
  | S fuel' =>
      match stripOne codes s with
      | Some s' => stripAll fuel' codes s'
      | None => s
      end
  end.

Definition trimStart (s : string) : string :=
  stripAll (String.length s) whiteSpace s.

(** The bytes of a character of [whiteSpace] end no other character, so
    the end of the text is read from its last byte backwards. *)
Definition trimEnd (s : string) : string :=
  String.rev (stripAll (String.length s) (String.rev <$> whiteSpace) (String.rev s)).

(** [s.trim()] *)
Definition trim (s : string) : string := trimEnd (trimStart s).

(** [s.trim()] read as a condition: the text has a character that is no
    white space. *)
Definition blank (s : string) : bool := String.eqb (trim s) "".

(** The bytes of the character whose first byte is [lead]. *)
Definition charSize (lead : nat) : nat :=
  if (lead <? 192)%nat then 1 else if (lead <? 224)%nat then 2
  else if (lead <? 240)%nat then 3 else 4.

Definition byteAt (i : nat) (s : string) : nat :=
  match String.get i s with
  | Some a => nat_of_ascii a
  | None => 0
  end.

(** The first half of the pair of UTF-16 units that stands for the
    character of four bytes that starts with [b0 b1 b2], as the three bytes
    of generalised UTF-8. *)
Definition highSurrogate (b0 b1 b2 : nat) : string :=
  let h := ((b0 mod 8) * 256 + (b1 mod 64) * 4 + (b2 mod 64) / 16 - 64)%nat in
  bytes [237; 160 + h / 64; 128 + h mod 64]%nat.

(** [s.substring(0, n)]: the first [n] UTF-16 units of the text.  A
    character of four bytes has two units, any other has one; [skip]
    counts the bytes that are left of the character being copied. *)
Fixpoint firstUnits (n skip : nat) (s : string) : string :=
  match s with
  | EmptyString => EmptyString
  | String a rest =>
      match skip with
      | S skip' => String a (firstUnits n skip' rest)
      | O =>
          match n with
          | O => EmptyString
          | S n' =>
              let lead := nat_of_ascii a in
              if (lead <? 240)%nat
              then String a (firstUnits n' (charSize lead - 1) rest)
              else match n' with
                   | O => highSurrogate lead (byteAt 0 rest) (byteAt 1 rest)
                   | S n'' => String a (firstUnits n'' 3 rest)
                   end
          end
      end
  end.

(** [s.split('\n')] *)
Fixpoint splitLines (s : string) : list string :=
  match s with
  | EmptyString => [EmptyString]
  | String a rest =>
      if Nat.eqb (nat_of_ascii a) 10 then EmptyString :: splitLines rest
      else match splitLines rest with
           | line :: lines => String a line :: lines
           | [] => [String a EmptyString]
           end
  end.

(** ** The runtime the script runs on

    The markdown renderer ([marked.parse], or [simpleMarkdownParse] when
    the library is not loaded), the browser's reading of the text inside an
    HTML fragment and of its first element of a given tag, its reading of
    a style declaration and the number conversions of the language are
    collaborators of the script; the handlers are stated over any choice
    of them. *)
Class Runtime : Type := {
  (** [parseMarkdown(text)] on a string *)
  render : string → string;
  (** [parseMarkdown(v)] on a value that is not a string; [None] when the
      renderer throws *)
  renderOther : JSValue → option string;
  (** [textContent] of the nodes an HTML fragment parses to *)
  textOf : string → string;
  (** [fragment.querySelector(tag).innerHTML = inner]: the fragment with the
      inside of its first [tag] element replaced, [None] when it has none *)
  setFirst : string → string → string → option string;
  (** [String(q)] for a number that is not a small integer *)
  fracToString : Q → string;
  (** [n.toFixed(digits)] *)
  toFixedNum : nat → JSNum → string;
  (** [Number(s)] *)
  strToNum : string → JSNum;
  (** [parseFloat(s)] *)
  parseFloat : string → JSNum;
  (** [style.width] after [style.width = w], for a [w] that is no plain
      percentage: [None] when the browser drops the declaration *)
  otherWidth : string → option string;
}.

(** ** The page *)

(** The children of an element, as the script wrote them: a text node
    ([textContent = s]), a parsed HTML fragment ([innerHTML = h],
    [insertAdjacentHTML]) or a log line appended by [addLog]. *)
Inductive Node : Type :=
| TextNode (s : string)
| Markup (h : string)
| LogEntry (type message : string).

Record Element : Type := mkElement {
  content : list Node;
  (** the inside of the [h3] that precedes the element in its parent *)
  heading : option string;
  classList : list string;
  style : gmap string string;
  (** [style.width] of the [.progress-bar-fill] child, when there is one *)
  fill : option string;
  disabled : bool;
  value : string;
  checked : bool;
  (** the ids of the elements this one is inside of *)
  inside : list string;
}.

Definition withContent (c : list Node) (e : Element) : Element :=
  mkElement c (heading e) (classList e) (style e) (fill e) (disabled e)
            (value e) (checked e) (inside e).
Definition withHeading (h : option string) (e : Element) : Element :=
  mkElement (content e) h (classList e) (style e) (fill e) (disabled e)
            (value e) (checked e) (inside e).
Definition withClassList (c : list string) (e : Element) : Element :=
  mkElement (content e) (heading e) c (style e) (fill e) (disabled e)
            (value e) (checked e) (inside e).
Definition withStyle (k v : string) (e : Element) : Element :=
  mkElement (content e) (heading e) (classList e) (<[k := v]> (style e))
            (fill e) (disabled e) (value e) (checked e) (inside e).
Definition withFill (w : option string) (e : Element) : Element :=
  mkElement (content e) (heading e) (classList e) (style e) w (disabled e)
            (value e) (checked e) (inside e).
Definition withDisabled (b : bool) (e : Element) : Element :=
  mkElement (content e) (heading e) (classList e) (style e) (fill e) b
            (value e) (checked e) (inside e).
Definition withInside (l : list string) (e : Element) : Element :=
  mkElement (content e) (heading e) (classList e) (style e) (fill e)
            (disabled e) (value e) (checked e) l.

(** A freshly parsed element. *)
Definition blankElement : Element :=
  mkElement [] None [] ∅ None false "" false [].

(** [classList.add] and [classList.remove] *)
Definition addClass (c : string) (e : Element) : Element :=
  if decide (c ∈ classList e) then e else withClassList (classList e ++ [c]) e.
Definition removeClass (c : string) (e : Element) : Element :=
  withClassList (filter (λ c', c' ≠ c) (classList e)) e.

(** ** The script's state *)

Inductive ReadyState : Type := CONNECTING | OPEN | CLOSED.

Record EventSource : Type := mkEventSource {
  url : string;
  readyState : ReadyState;
}.

(** The requests of the script: the results skeleton
    ([GET /static/html/result_content.html]), one job
    ([POST /analyze/streaming]) and a batch ([POST /analyze/batch_streaming]),
    the last two with the fields of their JSON body. *)
Inductive Request : Type :=
| GetAsset (path : string)
| PostSingle (stock_code : string) (positionPercent avgPrice : JSValue)
             (enable_streaming : bool) (client_id : option string)
| PostBatch (stock_codes : list string) (client_id : option string).

Record State : Type := mkState {
  dom : gmap string Element;
  isAnalyzing : bool;
  sseConnection : option EventSource;
  currentClientId : option string;
  (** the instants (ms) at which the pending [setTimeout] callbacks of
      [initSSE] are due *)
  timers : list nat;
  (** the [fetch] calls issued so far *)
  outbox : list Request;
}.

Definition withDom (d : gmap string Element) (st : State) : State :=
  mkState d (isAnalyzing st) (sseConnection st) (currentClientId st)
          (timers st) (outbox st).
Definition withAnalyzing (b : bool) (st : State) : State :=
  mkState (dom st) b (sseConnection st) (currentClientId st)
          (timers st) (outbox st).
Definition withConnection (c : option EventSource) (st : State) : State :=
  mkState (dom st) (isAnalyzing st) c (currentClientId st)
          (timers st) (outbox st).
Definition withClientId (c : option string) (st : State) : State :=
  mkState (dom st) (isAnalyzing st) (sseConnection st) c
          (timers st) (outbox st).
Definition withTimers (t : list nat) (st : State) : State :=
  mkState (dom st) (isAnalyzing st) (sseConnection st) (currentClientId st)
          t (outbox st).
Definition withOutbox (o : list Request) (st : State) : State :=
  mkState (dom st) (isAnalyzing st) (sseConnection st) (currentClientId st)
          (timers st) o.

(** ** Handlers: state passing with exceptions *)

Inductive Outcome (A : Type) : Type :=
| Done (a : A) (st : State)
| Threw (err : string) (st : State).
Arguments Done {A} a st.
Arguments Threw {A} err st.

Definition Handler (A : Type) : Type := State → Outcome A.

Definition pure {A} (a : A) : Handler A := λ st, Done a st.
Definition andThen {A B} (m : Handler A) (k : A → Handler B) : Handler B :=
  λ st, match m st with
        | Done a st' => k a st'
        | Threw err st' => Threw err st'
        end.
Definition throw {A} (err : string) : Handler A := λ st, Threw err st.

Notation "'let!' x ':=' m 'in' k" := (andThen m (λ x, k))
  (at level 10, x name, m at level 100, k at level 200).
Notation "m ';;' k" := (andThen m (λ _, k))
  (at level 100, k at level 200, right associativity).

Definition finalState {A} (o : Outcome A) : State :=
  match o with
  | Done _ st => st
  | Threw _ st => st
  end.

Definition completed {A} (o : Outcome A) : bool :=
  match o with
  | Done _ _ => true
  | Threw _ _ => false
  end.

(** The error of reading or writing a property of [null] or [undefined],
    and of calling what is not a function. *)
Definition TypeError : string := "TypeError".

Definition when (b : bool) (m : Handler unit) : Handler unit :=
  if b then m else pure ().

(** ** Conversions *)

Section Script.
Context {rt : Runtime}.

(** [String(n)]: an integer below 10^21 prints its decimal digits. *)
Definition numToString (n : JSNum) : string :=
  match n with
  | NaN => "NaN"
  | Inf negative => if negative then "-Infinity" else "Infinity"
  | Fin q =>
      if decide (Qden q = 1%positive ∧ (Z.abs (Qnum q) < 10 ^ 21)%Z)
      then pretty (Qnum q) else fracToString q
  end.

(** [String(v)], as a template literal or a string concatenation applies
    it. *)
Definition toStr (v : JSValue) : string :=
  match v with
  | VUndefined => "undefined"
  | VNull => "null"
  | VBool b => if b then "true" else "false"
  | VNum n => numToString n
  | VStr s => s
  | VObj _ => "[object Object]"
  end.

(** [Number(v)], as [*] applies it. *)
Definition toNumber (v : JSValue) : JSNum :=
  match v with
  | VUndefined => NaN
  | VNull => Fin (Qmake 0 1)
  | VBool b => Fin (Qmake (if b then 1 else 0) 1)
  | VNum n => n
  | VStr s => strToNum s
  | VObj _ => NaN
  end.

(** [v + 1] *)
Definition plusOne (v : JSValue) : JSValue :=
  match v with
  | VStr s => VStr (s +:+ "1")
  | VObj _ => VStr "[object Object]1"
  | _ => VNum (match toNumber v with
               | Fin q => roundDouble (Qplus q (Qmake 1 1))
               | n => n
               end)
  end.

(** [v.k]: throws on [null] and [undefined]. *)
Definition member (v : JSValue) (k : string) : Handler JSValue :=
  if nullish v then throw TypeError else pure (getProp v k).

(** [v.toFixed(digits)]: only numbers have the method. *)
Definition toFixed (digits : nat) (v : JSValue) : Handler string :=
  match v with
  | VNum n => pure (toFixedNum digits n)
  | _ => throw TypeError
  end.

(** [parseMarkdown(v)] *)
Definition parseMarkdown (v : JSValue) : Handler string :=
  match v with
  | VStr s => pure (render s)
  | _ => match renderOther v with
         | Some h => pure h
         | None => throw "Error"
         end
  end.

(** ** Reading and writing the page *)

Definition getElementById (id : string) : Handler (option Element) :=
  λ st, Done (dom st !! id) st.

(** [document.getElementById(id).p = ...] for a property [p] that is no
    content: throws when there is no such element. *)
Definition update (id : string) (f : Element → Element) : Handler unit :=
  λ st, match dom st !! id with
        | Some e => Done () (withDom (<[id := f e]> (dom st)) st)
        | None => Threw TypeError st
        end.

(** What is left of the page when the children of [id] are dropped. *)
Definition detach (id : string) (d : gmap string Element)
  : gmap string Element :=
  filter (λ kv, id ∉ inside kv.2) d.

(** The elements with an id that a parsed fragment brings into [host]. *)
Definition declare (id : string) (host : Element)
    (declared : list (string * Element)) (d : gmap string Element)
  : gmap string Element :=
  foldr (λ kv acc, <[kv.1 := withInside (inside kv.2 ++ id :: inside host) kv.2]> acc)
        d declared.

(** [textContent = ...] and [innerHTML = ...]: the children of the
    element are replaced, and the elements that were inside it leave the
    document. *)
Definition setChildren (id : string) (children : Element → list Node)
    (declared : list (string * Element)) : Handler unit :=
  λ st, match dom st !! id with
        | Some e =>
            Done () (withDom (declare id e declared
                       (<[id := withContent (children e) e]> (detach id (dom st)))) st)
        | None => Threw TypeError st
        end.

Definition setText (id : string) (s : string) : Handler unit :=
  setChildren id (λ _, [TextNode s]) [].

Definition setInnerHTML (id : string) (h : string)
    (declared : list (string * Element)) : Handler unit :=
  setChildren id (λ _, [Markup h]) declared.

(** [insertAdjacentHTML('beforeend', h)] *)
Definition insertAdjacentHTML (id : string) (h : string)
    (declared : list (string * Element)) : Handler unit :=
  λ st, match dom st !! id with
        | Some e =>
            Done () (withDom (declare id e declared
                       (<[id := withContent (content e ++ [Markup h]) e]> (dom st))) st)
        | None => Threw TypeError st
        end.

(** The text of a node; the time stamp of a log line is left out. *)
Definition nodeText (n : Node) : string :=
  match n with
  | TextNode s => s
  | Markup h => textOf h
  | LogEntry _ message => textOf message
  end.

(** [e.textContent] *)
Definition textContent (e : Element) : string :=
  foldr (λ n acc, nodeText n +:+ acc) "" (content e).

(** [querySelector(tag).innerHTML = inner] over the children: the first
    fragment that has such an element is rewritten. *)
Fixpoint setFirstIn (tag inner : string) (nodes : list Node) : list Node :=
  match nodes with
  | [] => []
  | Markup h :: rest =>
      match setFirst tag inner h with
      | Some h' => Markup h' :: rest
      | None => Markup h :: setFirstIn tag inner rest
      end
  | n :: rest => n :: setFirstIn tag inner rest
  end.

Definition inputValue (id : string) : Handler string :=
  λ st, match dom st !! id with
        | Some e => Done (value e) st
        | None => Threw TypeError st
        end.

Definition inputChecked (id : string) : Handler bool :=
  λ st, match dom st !! id with
        | Some e => Done (checked e) st
        | None => Threw TypeError st
        end.

(** [fetch(...)]: the request leaves; its answer is a later event. *)
Definition fetch (r : Request) : Handler unit :=
  λ st, Done () (withOutbox (outbox st ++ [r]) st).

(** [try { m } catch (error) { h(error.message) }] *)
Definition tryCatch (m : Handler unit) (h : string → Handler unit)
  : Handler unit :=
  λ st, match m st with
        | Done a st' => Done a st'
        | Threw err st' => h err st'
        end.

(** ** Logging and progress (js/main.js 202-241) *)

(** [addLog(message, type)]: a line is appended to [#logDisplay]. *)
Definition addLog (message type : string) : Handler unit :=
  λ st, match dom st !! "logDisplay" with
        | Some e =>
            Done () (withDom (<["logDisplay" :=
                       withContent (content e ++ [LogEntry type message]) e]> (dom st)) st)
        | None => Threw TypeError st
        end.

(** A percentage of one to six digits, which the browser keeps as a
    width. *)
Fixpoint percentage (acc : N) (count : nat) (s : string) : option N :=
  match s with
  | EmptyString => None
  | String a rest =>
      let n := nat_of_ascii a in
      if (48 <=? n)%nat && (n <=? 57)%nat
      then percentage (10 * acc + N.of_nat (n - 48))%N (S count) rest
      else if (n =? 37)%nat && String.eqb rest "" && (0 <? count)%nat && (count <=? 6)%nat
           then Some acc else None
  end.

(** [style.width] after [style.width = w]: [None] when [w] is no width,
    and the browser drops the declaration. *)
Definition cssWidth (w : string) : option string :=
  match percentage 0 0 w with
  | Some n => Some (pretty n +:+ "%")
  | None => otherWidth w
  end.

(** [fill.style.width = w]: a text that is no width leaves the width as
    it was. *)
Definition setWidth (w : string) (e : Element) : Element :=
  match cssWidth w with
  | Some w' => withFill (Some w') e
  | None => e
  end.

(** [document.getElementById(id).querySelector('.progress-bar-fill')
    .style.width = w] *)
Definition setFillWidth (id : string) (w : string) : Handler unit :=
  λ st, match dom st !! id with
        | Some e =>
            match fill e with
            | Some _ => Done () (withDom (<[id := setWidth w e]> (dom st)) st)
            | None => Threw TypeError st
            end
        | None => Threw TypeError st
        end.

Definition showProgress (elementId : string) (show : bool) : Handler unit :=
  update elementId (withStyle "display" (if show then "block" else "none")) ;;
  when (negb show) (setFillWidth elementId "0%").

Definition updateProgress (elementId percent : JSValue) : Handler unit :=
  setFillWidth (toStr elementId) (toStr percent +:+ "%").

(** The completeness label is cut to two UTF-16 units; a label that is
    no text has no [substring]. *)
Definition updateDataQuality (data : JSValue) : Handler unit :=
  let! financial := member data "financial_indicators_count" in
  setText "financialCount" (toStr (orElse financial (VNum (Fin (Qmake 0 1))))) ;;
  let! news := member data "total_news_count" in
  setText "newsCount" (toStr (orElse news (VNum (Fin (Qmake 0 1))))) ;;
  let! completeness := member data "analysis_completeness" in
  match orElse completeness (VStr "部分") with
  | VStr s => setText "completeness" (firstUnits 2 0 s)
  | _ => throw TypeError
  end ;;
  update "dataQuality" (withStyle "display" "grid").

(** ** The narrative accumulator (js/main.js 148-184) *)

(** The temporary display area [handleAIStream] appends to the results
    container; inline styles and the white space between tags are left out
    of the templates of this file, and attribute values are written with
    single quotes. *)
Definition streamArea : string :=
  "<div><h2>📈 实时分析进行中...<span>🌊 AI流式生成中</span></h2>" +:+
  "<div><h3>🤖 AI 深度分析 - 实时生成中...</h3>" +:+
  "<div id='aiStreamContent'></div></div></div>".

Definition streamElement : Element :=
  mkElement [] (Some "🤖 AI 深度分析 - 实时生成中...") []
            {["white-space" := "pre-wrap"]} None false "" false [].

Definition handleAIStream (data : JSValue) : Handler unit :=
  let! aiStreamDiv := getElementById "aiStreamContent" in
  match aiStreamDiv with
  | None =>
      insertAdjacentHTML "resultsContent" streamArea
                         [("aiStreamContent", streamElement)]
  | Some _ => pure ()
  end ;;
  let! fragment := member data "content" in
  when (truthy fragment)
       (setChildren "aiStreamContent"
          (λ e, [TextNode (textContent e +:+ toStr fragment)]) []).

(** ** The view reconciler for one job (js/main.js 304-378) *)

Definition displayPartialResults (data : JSValue) : Handler unit :=
  let! type := member data "type" in
  match type with
  | VStr "basic_info" =>
      let! code := member data "stock_code" in
      setText "stockCodeDisplay" ("股票代码: " +:+ toStr code) ;;
      let! price := member data "current_price" in
      let! priceText := toFixed 2 (orElse price (VNum (Fin (Qmake 0 1)))) in
      setText "currentPriceDisplay" ("当前价格: ¥" +:+ priceText) ;;
      let! change := member data "price_change" in
      let! changeText := toFixed 2 (orElse change (VNum (Fin (Qmake 0 1)))) in
      setText "priceChangeDisplay" ("涨跌幅: " +:+ changeText +:+ "%") ;;
      let! tech := getElementById "progressTech" in
      when (bool_decide (is_Some tech))
           (setText "progressTech" "🔄 技术指标获取中...") ;;
      let! finance := getElementById "progressFinance" in
      when (bool_decide (is_Some finance))
           (setText "progressFinance" "⏳ 财务数据分析中...") ;;
      let! news := getElementById "progressNews" in
      when (bool_decide (is_Some news))
           (setText "progressNews" "🌊 新闻情绪处理中...")
  | _ => pure ()
  end.

Definition zero : JSValue := VNum (Fin (Qmake 0 1)).

Definition updateNonAIContent (report : JSValue) : Handler unit :=
  let! statusEl := getElementById "analysisStatus" in
  when (bool_decide (is_Some statusEl))
       (setText "analysisStatus" "✅ 流式分析完成") ;;
  (* basic information *)
  let! code := member report "stock_code" in
  setText "stockCodeDisplay" ("股票代码: " +:+ toStr code) ;;
  let! priceInfo := member report "price_info" in
  let! price := toFixed 2 (orElse (optMember priceInfo "current_price") zero) in
  setText "currentPriceDisplay" ("当前价格: ¥" +:+ price) ;;
  let! change := toFixed 2 (orElse (optMember priceInfo "price_change") zero) in
  setText "priceChangeDisplay" ("涨跌幅: " +:+ change +:+ "%") ;;
  (* technical indicators *)
  let! technical := member report "technical_analysis" in
  let! rsi := toFixed 1 (orElse (optMember technical "rsi") zero) in
  setText "rsiDisplay" ("RSI: " +:+ rsi) ;;
  setText "trendDisplay"
          ("趋势: " +:+ toStr (orElse (optMember technical "ma_trend") (VStr "未知"))) ;;
  setText "macdDisplay"
          ("MACD: " +:+ toStr (orElse (optMember technical "macd_signal") (VStr "未知"))) ;;
  (* market sentiment *)
  let! sentiment := member report "sentiment_analysis" in
  setText "sentimentTrendDisplay"
          ("情绪趋势: " +:+
           toStr (orElse (optMember sentiment "sentiment_trend") (VStr "中性"))) ;;
  setText "newsCountDisplay"
          ("新闻数量: " +:+
           toStr (orElse (optMember sentiment "total_analyzed") zero) +:+ " 条") ;;
  setText "confidenceDisplay"
          ("置信度: " +:+
           toFixedNum 1 (timesHundred
             (toNumber (orElse (optMember sentiment "confidence_score") zero))) +:+ "%") ;;
  (* the narrative of the report *)
  let! aiContent := member report "ai_content" in
  when (truthy aiContent) (setText "aiStreamContent" (toStr aiContent)).

Definition doneTitle : string :=
  "🤖 AI 深度分析 <span>✅ 生成完成</span>".

(** The [h3] found from the parent of the narrative container: the title
    that precedes the container, or else the first one inside it. *)
Definition retitle (e : Element) : Element :=
  match heading e with
  | Some _ => withHeading (Some doneTitle) e
  | None => withContent (setFirstIn "h3" doneTitle (content e)) e
  end.

(** [closest('div')] of the container is the container itself. *)
Definition retitleReport (e : Element) : Element :=
  withContent (setFirstIn "h2" "LLM 深度分析报告" (content e)) e.

Definition displayResults (report : JSValue) : Handler unit :=
  let! existingAIStream := getElementById "aiStreamContent" in
  match existingAIStream with
  | Some e =>
      if blank (textContent e) then pure ()
      else
        update "aiStreamContent" retitle ;;
        update "aiStreamContent" retitleReport ;;
        setChildren "aiStreamContent" (λ e', [Markup (render (textContent e'))]) [] ;;
        update "aiStreamContent" (addClass "ai-analysis-content") ;;
        update "aiStreamContent" (withStyle "white-space" "normal") ;;
        updateNonAIContent report
  | None => pure ()
  end.

(** ** Prompt display and loading (js/main.js 254-292) *)

Definition setPromptContent (elementId llmPrompt : JSValue) : Handler unit :=
  let! promptTab := getElementById (toStr elementId) in
  match promptTab with
  | None => throw TypeError
  | Some _ =>
      let! html := parseMarkdown llmPrompt in
      setInnerHTML (toStr elementId) html [] ;;
      update (toStr elementId) (addClass "ai-analysis-content")
  end.

(** [showLoading()] asks for the results skeleton; the skeleton replaces
    the inside of the results container when the answer arrives. *)
Definition showLoading : Handler unit :=
  fetch (GetAsset "/static/html/result_content.html").

(** The answer to [showLoading]: [html] is the text of the asset and
    [declared] the elements with an id that it holds. *)
Definition resultContentLoaded (html : string)
    (declared : list (string * Element)) : Handler unit :=
  setInnerHTML "resultsContent" html declared.

(** ** The job lifecycle (js/main.js 399-430) *)

Definition onAnalysisComplete (data : JSValue) : Handler unit :=
  (λ st, Done () (withAnalyzing false st)) ;;
  update "analyzeBtn" (withDisabled false) ;;
  update "batchAnalyzeBtn" (withDisabled false) ;;
  update "systemStatus" (withClassList ["status-indicator"; "status-ready"]) ;;
  setText "systemStatus" "系统就绪" ;;
  showProgress "singleProgress" false ;;
  showProgress "batchProgress" false ;;
  update "currentStock" (withStyle "display" "none") ;;
  addLog "✅ 分析完成" "success".

Definition errorPanel (message : string) : string :=
  "<div class='empty-state'><h3>❌ 分析失败</h3><p>" +:+ message +:+ "</p></div>".

Definition onAnalysisError (data : JSValue) : Handler unit :=
  (λ st, Done () (withAnalyzing false st)) ;;
  update "analyzeBtn" (withDisabled false) ;;
  update "batchAnalyzeBtn" (withDisabled false) ;;
  update "systemStatus" (withClassList ["status-indicator"; "status-error"]) ;;
  setText "systemStatus" "分析失败" ;;
  showProgress "singleProgress" false ;;
  showProgress "batchProgress" false ;;
  update "currentStock" (withStyle "display" "none") ;;
  let! error := member data "error" in
  setInnerHTML "resultsContent"
               (errorPanel (toStr (orElse error (VStr "未知错误")))) [] ;;
  addLog ("❌ 分析失败: " +:+ toStr error) "error".

(** ** Submissions (js/main.js 433-557) *)

(** What the script learns when a submission request settles. *)
Inductive Settlement : Type :=
| Failed (message : string)
| HttpStatus (status statusText : string)
| Answer (result : JSValue).

Definition errorEvent (message : string) : JSValue :=
  VObj [("error", VStr message)].

(** The part of a submission after [await fetch(...)]. *)
Definition settled (fallback : string) (s : Settlement) : Handler unit :=
  match s with
  | Failed message => onAnalysisError (errorEvent message)
  | HttpStatus status statusText =>
      onAnalysisError (errorEvent ("HTTP " +:+ status +:+ ": " +:+ statusText))
  | Answer result =>
      tryCatch
        (let! success := member result "success" in
         if truthy success then pure ()
         else let! error := member result "error" in
              throw (toStr (orElse error (VStr fallback))))
        (λ message, onAnalysisError (errorEvent message))
  end.

Definition number (z : Z) : JSValue := VNum (Fin (Qmake z 1)).

(** From the busy guard to the request. *)
Definition startSingle (stockCode : string) (positionPercent avgPrice : JSValue)
  : Handler unit :=
  λ st,
    if isAnalyzing st then addLog "分析正在进行中，请稍候" "warning" st
    else
      ((λ st', Done () (withAnalyzing true st')) ;;
       update "analyzeBtn" (withDisabled true) ;;
       update "systemStatus" (withClassList ["status-indicator"; "status-analyzing"]) ;;
       setText "systemStatus" "分析中" ;;
       addLog ("🚀 开始流式分析股票: " +:+ stockCode) "header" ;;
       showLoading ;;
       showProgress "singleProgress" true ;;
       tryCatch
         (let! streaming := inputChecked "enableStreaming" in
          λ st', fetch (PostSingle stockCode positionPercent avgPrice streaming
                                   (currentClientId st')) st')
         (λ message, onAnalysisError (errorEvent message))) st.

Definition analyzeSingleStock : Handler unit :=
  let! code := inputValue "stockCode" in
  let stockCode := trim code in
  let! percent := inputValue "positionPercent" in
  let positionPercent := parseFloat percent in
  let! price := inputValue "avgPrice" in
  let avgPrice := parseFloat price in
  if String.eqb stockCode "" then addLog "请输入股票代码" "warning"
  else if negb (numTruthy positionPercent) then
    addLog "默认未买入" "info" ;;
    startSingle stockCode (number 0) (number (-1))
  else if positiveNum positionPercent && negb (numTruthy avgPrice) then
    addLog "请输入持仓均价" "warning"
  else startSingle stockCode (VNum positionPercent) (VNum avgPrice).

Definition slotId (prefix : string) (index : JSValue) : string :=
  prefix +:+ toStr index.

(** [stockListText.split('\n').map(s => s.trim()).filter(s => s)], from the
    text of the list input. *)
Definition stockCodes (text : string) : list string :=
  filter (λ s, s ≠ "") (trim <$> splitLines (trim text)).

(** [for (let i = 0; i < 10; i++)]: every slot container that exists is
    hidden. *)
Fixpoint hideSlots (count : nat) (from : Z) : Handler unit :=
  match count with
  | O => pure ()
  | S count' =>
      let! slot := getElementById (slotId "batchSlot" (number from)) in
      when (bool_decide (is_Some slot))
           (update (slotId "batchSlot" (number from)) (addClass "hidden")) ;;
      hideSlots count' (from + 1)%Z
  end.

Definition analyzeBatchStocks : Handler unit :=
  let! text := inputValue "stockList" in
  let stockListText := trim text in
  if String.eqb stockListText "" then addLog "请输入股票代码列表" "warning"
  else λ st,
    if isAnalyzing st then addLog "分析正在进行中，请稍候" "warning" st
    else
      let stockList := stockCodes text in
      match stockList with
      | [] => addLog "股票代码列表为空" "warning" st
      | _ =>
        (hideSlots 10 0 ;;
         (λ st', Done () (withAnalyzing true st')) ;;
         update "batchAnalyzeBtn" (withDisabled true) ;;
         update "systemStatus" (withClassList ["status-indicator"; "status-analyzing"]) ;;
         setText "systemStatus" "批量分析中" ;;
         addLog ("📊 开始流式批量分析 " +:+ pretty (length stockList) +:+ " 只股票")
                "header" ;;
         showLoading ;;
         showProgress "batchProgress" true ;;
         update "currentStock" (withStyle "display" "block") ;;
         λ st', fetch (PostBatch stockList (currentClientId st')) st') st
      end.

(** ** The view reconciler for a batch slot (js/main.js 596-685) *)

(** The ids of the elements of the page that make up slot [index]. *)
Definition slotIds (index : JSValue) : list string :=
  [slotId "batchSlot" index; slotId "slotTitle" index;
   slotId "financialCountBatch" index; slotId "newsCountBatch" index;
   slotId "completenessBatch" index; slotId "batchResultsContent" index].

(** The ids of the elements the slot template brings. *)
Definition tabIds (index : JSValue) : list string :=
  [slotId "tabContainer" index; slotId "value-prompt-" index;
   slotId "llm-prompt-" index; slotId "llm-results-" index].

Definition slotTemplate (index : string)
    (code price change rsi trend macd mood news confidence : string)
    (valuePrompt prompt analysis : string) : string :=
  "<div><div><h4>基本信息</h4><p>股票代码: " +:+ code +:+
  "</p><p>当前价格: " +:+ price +:+ "</p><p>涨跌幅: " +:+ change +:+
  "</p></div><div><h4>技术指标</h4><p>RSI: " +:+ rsi +:+
  "</p><p>趋势: " +:+ trend +:+ "</p><p>MACD: " +:+ macd +:+
  "</p></div><div><h4>市场情绪</h4><p>情绪趋势: " +:+ mood +:+
  "</p><p>新闻数量: " +:+ news +:+ "</p><p>置信度: " +:+ confidence +:+
  "</p></div></div><div class='tab-container' id='tabContainer" +:+ index +:+
  "'><div class='tab-buttons'>" +:+
  "<button class='tab-btn active' data-tab='value-prompt-" +:+ index +:+
  "'>价值分析 Prompt 查看</button>" +:+
  "<button class='tab-btn' data-tab='llm-prompt-" +:+ index +:+
  "'>总结 Prompt 查看</button>" +:+
  "<button class='tab-btn' data-tab='llm-results-" +:+ index +:+
  "'>LLM 总结</button></div>" +:+
  "<div class='llm-tab-content active' id='value-prompt-" +:+ index +:+
  "'><div class='ai-analysis-content'>" +:+ valuePrompt +:+ "</div></div>" +:+
  "<div class='llm-tab-content' id='llm-prompt-" +:+ index +:+
  "'><div class='ai-analysis-content'>" +:+ prompt +:+ "</div></div>" +:+
  "<div class='llm-tab-content' id='llm-results-" +:+ index +:+
  "'><h3>🤖 AI 深度分析</h3><div class='ai-analysis-content'>" +:+
  analysis +:+ "</div></div></div>".

Definition tabElement (classes : list string) (within : list string) : Element :=
  mkElement [] None classes ∅ None false "" false within.

Definition slotDeclared (index : JSValue) : list (string * Element) :=
  [(slotId "tabContainer" index, tabElement ["tab-container"] []);
   (slotId "value-prompt-" index,
    tabElement ["llm-tab-content"; "active"] [slotId "tabContainer" index]);
   (slotId "llm-prompt-" index,
    tabElement ["llm-tab-content"] [slotId "tabContainer" index]);
   (slotId "llm-results-" index,
    tabElement ["llm-tab-content"] [slotId "tabContainer" index])].

(** The six elements of the slot are looked up where they are written,
    which is what the references taken in the first lines give on a page
    where no element of a slot is inside another one.  The listeners the
    last lines attach to the three tab buttons only change the slot's own
    tabs when a button is clicked; they are not part of the model. *)
Definition showBatchSlot (eventData : JSValue) : Handler unit :=
  let! index := member eventData "index" in
  let! report := member eventData "report" in
  (* the title *)
  let! name := member report "stock_name" in
  setText (slotId "slotTitle" index)
          (toStr (plusOne index) +:+ ". " +:+ toStr name) ;;
  (* the slot becomes visible *)
  update (slotId "batchSlot" index) (removeClass "hidden") ;;
  (* the counts *)
  let! quality := member report "data_quality" in
  let! financial := member quality "financial_indicators_count" in
  setText (slotId "financialCountBatch" index) (toStr (orElse financial (VStr "--"))) ;;
  let! news := member quality "total_news_count" in
  setText (slotId "newsCountBatch" index) (toStr (orElse news (VStr "--"))) ;;
  let! completeness := member quality "analysis_completeness" in
  setText (slotId "completenessBatch" index) (toStr (orElse completeness (VStr "--"))) ;;
  (* the body of the slot *)
  let! code := member report "stock_code" in
  let! priceInfo := member report "price_info" in
  let! price := member priceInfo "current_price" in
  let! change := member priceInfo "price_change" in
  let! technical := member report "technical_analysis" in
  let! rsi := member technical "rsi" in
  let! trend := member technical "ma_trend" in
  let! macd := member technical "macd_signal" in
  let! sentiment := member report "sentiment_analysis" in
  let! valuePrompt := member report "value_prompt" in
  let! valueHtml := parseMarkdown valuePrompt in
  let! prompt := member report "prompt" in
  let! promptHtml := parseMarkdown prompt in
  let! analysis := member report "ai_analysis" in
  let! analysisHtml := parseMarkdown analysis in
  setInnerHTML (slotId "batchResultsContent" index)
    (slotTemplate (toStr index) (toStr code) (toStr price) (toStr change)
       (toStr rsi) (toStr trend) (toStr macd)
       (toStr (optMember sentiment "sentiment_trend"))
       (toStr (optMember sentiment "total_analyzed"))
       (toStr (optMember sentiment "confidence_score"))
       valueHtml promptHtml analysisHtml)
    (slotDeclared index).

(** ** The connection manager (js/main.js 20-80) *)

(** [Math.random()] and [Date.now()] are given by the caller. *)
Definition generateClientId (random now : string) : string :=
  "client_" +:+ random +:+ "_" +:+ now.

Definition updateSSEStatus (connected : bool) : Handler unit :=
  if connected then
    update "sseIndicator" (addClass "connected") ;;
    setText "sseStatus" "SSE已连接"
  else
    update "sseIndicator" (removeClass "connected") ;;
    setText "sseStatus" "SSE断开".

(** [sseConnection.close()] when there is a connection. *)
Definition closeConnection : Handler unit :=
  λ st, match sseConnection st with
        | Some c => Done () (withConnection (Some (mkEventSource (url c) CLOSED)) st)
        | None => Done () st
        end.

Definition initSSE (random now : string) : Handler unit :=
  closeConnection ;;
  (λ st, Done () (withClientId (Some (generateClientId random now)) st)) ;;
  addLog "正在建立SSE连接..." "info" ;;
  (λ st, Done () (withConnection
     (Some (mkEventSource ("/sse/stream?client_id=" +:+ generateClientId random now)
                          CONNECTING)) st)).

Definition onopen : Handler unit :=
  addLog "SSE连接已建立" "success" ;;
  updateSSEStatus true.

(** The delay of the reconnect timer, in milliseconds. *)
Definition reconnectDelay : nat := 3000.

(** [onerror], run at the instant [now]: the last statement is the
    [setTimeout] call. *)
Definition onerror (now : nat) : Handler unit :=
  addLog "SSE连接错误" "error" ;;
  updateSSEStatus false ;;
  (λ st, Done () (withTimers (timers st ++ [now + reconnectDelay]) st)).

(** The callback given to [setTimeout]. *)
Definition reconnect (random now : string) : Handler unit :=
  λ st,
    match sseConnection st with
    | Some (mkEventSource _ CONNECTING) | Some (mkEventSource _ OPEN) => Done () st
    | _ => (addLog "尝试重新连接SSE..." "warning" ;; initSSE random now) st
    end.

Definition onclose : Handler unit :=
  addLog "SSE连接已关闭" "warning" ;;
  updateSSEStatus false.

(** The browser's side of the channel: it sets [readyState], then calls
    the handler; the oldest pending timer is the one that fires. *)
Definition setReadyState (r : ReadyState) : Handler unit :=
  λ st, match sseConnection st with
        | Some c => Done () (withConnection (Some (mkEventSource (url c) r)) st)
        | None => Done () st
        end.

Definition channelOpened : Handler unit := setReadyState OPEN ;; onopen.

Definition channelError (r : ReadyState) (now : nat) : Handler unit :=
  setReadyState r ;; onerror now.

Definition timerFired (random : string) (now : nat) : Handler unit :=
  λ st, match timers st with
        | [] => Done () st
        | due :: rest =>
            if (due <=? now)%nat
            then reconnect random (pretty now) (withTimers rest st)
            else Done () st
        end.

(** ** The event router (js/main.js 37-146) *)

Inductive Kind : Type :=
| KLog | KProgress | KDataQuality | KPartialResult | KFinalResult
| KBatchResult | KAnalysisComplete | KAnalysisError | KAiStream | KAiPrompt
| KError | KHeartbeat | KUnknown.

Definition kinds : list (string * Kind) :=
  [("log", KLog); ("progress", KProgress);
   ("data_quality_update", KDataQuality); ("partial_result", KPartialResult);
   ("final_result", KFinalResult); ("batch_result", KBatchResult);
   ("analysis_complete", KAnalysisComplete); ("analysis_error", KAnalysisError);
   ("ai_stream", KAiStream); ("ai_prompt", KAiPrompt); ("error", KError);
   ("heartbeat", KHeartbeat)].

Definition kindOf (eventType : JSValue) : Kind :=
  match eventType with
  | VStr s =>
      match list_find (λ kv, kv.1 = s) kinds with
      | Some (_, (_, k)) => k
      | None => KUnknown
      end
  | _ => KUnknown
  end.

Definition handleSSEMessage (data : JSValue) : Handler unit :=
  let! eventType := member data "event" in
  let! eventData := member data "data" in
  match kindOf eventType with
  | KLog =>
      let! message := member eventData "message" in
      let! type := member eventData "type" in
      addLog (toStr message) (toStr (orElse type (VStr "info")))
  | KProgress =>
      let! elementId := member eventData "element_id" in
      let! percent := member eventData "percent" in
      updateProgress elementId percent ;;
      let! message := member eventData "message" in
      when (truthy message) (addLog (toStr message) "progress") ;;
      let! current := member eventData "current_stock" in
      when (truthy current)
           (setText "currentStock" ("正在分析: " +:+ toStr current) ;;
            update "currentStock" (withStyle "display" "block"))
  | KDataQuality => updateDataQuality eventData
  | KPartialResult => displayPartialResults eventData
  | KFinalResult => displayResults eventData
  | KBatchResult => showBatchSlot eventData
  | KAnalysisComplete => onAnalysisComplete eventData
  | KAnalysisError => onAnalysisError eventData
  | KAiStream => handleAIStream eventData
  | KAiPrompt =>
      let! elementId := member eventData "element_id" in
      let! prompt := member eventData "content" in
      setPromptContent elementId prompt
  | KError =>
      let! error := member eventData "error" in
      addLog ("SSE错误: " +:+ toStr (orElse error (VStr "未知错误"))) "warning"
  | KHeartbeat => pure ()
  | KUnknown => pure ()
  end.

(** [onmessage], after [JSON.parse]: what a handler throws is caught and
    only reported on the console. *)
Definition onmessage (data : JSValue) : State → State :=
  λ st, finalState (handleSSEMessage data st).

(** The events of a channel, handled in the order of their arrival. *)
Definition deliver (events : list JSValue) (st : State) : State :=
  foldl (λ st' data, onmessage data st') st events.

Definition event (kind : string) (data : JSValue) : JSValue :=
  VObj [("event", VStr kind); ("data", data)].

(** ** The slot header and the teardown of the page (js/main.js 585-594) *)

(** [classList.toggle(c)] *)
Definition toggleClass (c : string) (e : Element) : Element :=
  if decide (c ∈ classList e) then removeClass c e
  else withClassList (classList e ++ [c]) e.

(** js/main.js 591-594 *)
Definition toggleSlot (index : JSValue) : Handler unit :=
  update (slotId "slotBody" index) (toggleClass "hidden").

(** The listener of [beforeunload] (js/main.js 585-589). *)
Definition beforeunload : Handler unit := closeConnection.

End Script.

(** ** The older script (static/main.js)

    [initSSE], [handleAIStream], [displayResults], [onAnalysisComplete] and
    [onAnalysisError] of the older script are those above, up to the texts
    of the log lines; its [updateNonAIContent] writes three more elements
    after the nine fields.  Its submission of one job differs: the inputs
    are compared as the strings they are, and the skeleton of the result is
    written at once. *)
Module Legacy.
Section Script.
Context {rt : Runtime}.

Definition field (text : string) (within : list string) : Element :=
  mkElement [TextNode text] None [] ∅ None false "" false within.

(** The elements of the skeleton [showLoading] writes (main.js 294-350). *)
Definition skeleton : list (string * Element) :=
  [("basicInfoContainer", mkElement [] None [] ∅ None false "" false []);
   ("stockCodeDisplay", field "股票代码: --" ["basicInfoContainer"]);
   ("currentPriceDisplay", field "当前价格: --" ["basicInfoContainer"]);
   ("priceChangeDisplay", field "涨跌幅: --" ["basicInfoContainer"]);
   ("rsiDisplay", field "RSI: --" ["basicInfoContainer"]);
   ("trendDisplay", field "趋势: --" ["basicInfoContainer"]);
   ("macdDisplay", field "MACD: --" ["basicInfoContainer"]);
   ("sentimentTrendDisplay", field "情绪趋势: --" ["basicInfoContainer"]);
   ("newsCountDisplay", field "新闻数量: --" ["basicInfoContainer"]);
   ("confidenceDisplay", field "置信度: --" ["basicInfoContainer"]);
   ("recommendationDisplay", field "暂无数据" ["basicInfoContainer"]);
   ("llm-results", mkElement [] None ["llm-tab-content"; "active"] ∅ None false "" false []);
   ("aiStreamContainer", mkElement [] None [] ∅ None false "" false ["llm-results"]);
   ("aiStreamContent",
    mkElement [] (Some "🤖 AI 深度分析 - 实时生成中...") []
              {["white-space" := "pre-wrap"]} None false "" false
              ["aiStreamContainer"; "llm-results"]);
   ("llm-prompt", mkElement [] None ["llm-tab-content"] ∅ None false "" false []);
   ("promptDisplay", field "Prompt 将在分析完成后显示" ["llm-prompt"])].

Definition showLoading : Handler unit :=
  setInnerHTML "resultsContent" "<div id='basicInfoContainer'>...</div>" skeleton.

Definition startSingle (stockCode : string) (positionPercent avgPrice : JSValue)
  : Handler unit :=
  λ st,
    if isAnalyzing st then addLog "分析正在进行中，请稍候" "warning" st
    else
      ((λ st', Done () (withAnalyzing true st')) ;;
       update "analyzeBtn" (withDisabled true) ;;
       update "systemStatus" (withClassList ["status-indicator"; "status-analyzing"]) ;;
       setText "systemStatus" "分析中" ;;
       addLog ("🚀 开始流式分析股票: " +:+ stockCode) "header" ;;
       showLoading ;;
       showProgress "singleProgress" true ;;
       tryCatch
         (let! streaming := inputChecked "enableStreaming" in
          λ st', fetch (PostSingle stockCode positionPercent avgPrice streaming
                                   (currentClientId st')) st')
         (λ message, onAnalysisError (errorEvent message))) st.

(** main.js 620-643 *)
Definition analyzeSingleStock : Handler unit :=
  let! code := inputValue "stockCode" in
  let stockCode := trim code in
  let! positionPercent := inputValue "positionPercent" in
  let! avgPrice := inputValue "avgPrice" in
  if String.eqb stockCode "" then addLog "请输入股票代码" "warning"
  else if String.eqb positionPercent "" then
    addLog "默认未买入" "info" ;;
    startSingle stockCode (number 0) (number (-1))
  else if positiveNum (strToNum positionPercent) && String.eqb avgPrice "" then
    addLog "请输入持仓均价" "warning"
  else startSingle stockCode (VStr positionPercent) (VStr avgPrice).

End Script.
End Legacy.

(** * The vocabulary of the properties *)

Section Vocabulary.
Context {rt : Runtime}.

(** [m] keeps [P]: whether it completes or throws. *)
Definition keeps {A} (P : State → Prop) (m : Handler A) : Prop :=
  ∀ st, P st → P (finalState (m st)).

(** The element [k] of the page is [e]. *)
Definition holds (k : string) (e : Element) (st : State) : Prop :=
  dom st !! k = Some e.

(** The state after [addLog] has appended [entries] to the log [l]:
    nothing else of the page, and nothing of the script's globals, has
    changed. *)
Definition appended (entries : list Node) (l : Element) (st : State) : State :=
  withDom (<["logDisplay" := withContent (content l ++ entries) l]> (dom st)) st.

(** [o] is a handler's outcome that completed and only logged [entries]. *)
Definition onlyLogged (entries : list Node) (st : State) (o : Outcome unit)
  : Prop :=
  ∃ l, dom st !! "logDisplay" = Some l ∧ o = Done () (appended entries l st) ∧
       outbox (finalState o) = outbox st ∧
       isAnalyzing (finalState o) = isAnalyzing st ∧
       ∀ id, id ≠ "logDisplay" → dom (finalState o) !! id = dom st !! id.

Definition busyWarning : Node := LogEntry "warning" "分析正在进行中，请稍候".

(** The checks of the inputs that stand before the busy guard of
    [analyzeSingleStock]. *)
Definition passesChecks (code percent price : string) : bool :=
  negb (String.eqb (trim code) "") &&
  (negb (numTruthy (parseFloat percent)) ||
   negb (positiveNum (parseFloat percent)) ||
   numTruthy (parseFloat price)).


(** The controls [onAnalysisError] writes to are on the page, outside of
    the status label and of the results container, whose insides the
    handler replaces, and the two progress bars have their fill. *)
Definition controlsPresent (st : State) : Prop :=
  (∀ id, id ∈ ["analyzeBtn"; "batchAnalyzeBtn"; "singleProgress"; "batchProgress";
               "currentStock"; "resultsContent"; "logDisplay"] →
     ∃ e, dom st !! id = Some e ∧
          ("systemStatus" ∉ inside e) ∧ ("resultsContent" ∉ inside e)) ∧
  is_Some (dom st !! "systemStatus") ∧
  (∀ id e, id ∈ ["singleProgress"; "batchProgress"] →
     dom st !! id = Some e → is_Some (fill e)).

(** The log and the two status elements are on the page, the log and the
    indicator outside of the status text. *)
Definition statusPresent (st : State) : Prop :=
  (∃ l, dom st !! "logDisplay" = Some l ∧ ("sseStatus" ∉ inside l)) ∧
  (∃ i, dom st !! "sseIndicator" = Some i ∧ ("sseStatus" ∉ inside i)) ∧
  is_Some (dom st !! "sseStatus").


(** The fragments of a narrative, put together in their order. *)
Definition joined (fragments : list string) : string :=
  foldr String.app "" fragments.

Definition streamEvent (fragment : string) : JSValue :=
  event "ai_stream" (VObj [("content", VStr fragment)]).

(** The elements [updateNonAIContent] writes a text to. *)
Definition displayFields : list string :=
  ["analysisStatus"; "stockCodeDisplay"; "currentPriceDisplay";
   "priceChangeDisplay"; "rsiDisplay"; "trendDisplay"; "macdDisplay";
   "sentimentTrendDisplay"; "newsCountDisplay"; "confidenceDisplay"].

Definition outsideFields (e : Element) : Prop :=
  ∀ f, f ∈ displayFields → f ∉ inside e.

(** The narrative container holds the raw text [text], and is not inside
    a display field. *)
Definition narrating (text : string) (st : State) : Prop :=
  ∃ e, dom st !! "aiStreamContent" = Some e ∧
       (content e = [TextNode text] ∨ (content e = [] ∧ text = "")) ∧
       outsideFields e.

(** A narrative can start: its container is there and empty, or there is
    a results container to put it in. *)
Definition freshNarrative (st : State) : Prop :=
  narrating "" st ∨
  (dom st !! "aiStreamContent" = None ∧
   ∃ r, dom st !! "resultsContent" = Some r ∧ outsideFields r).

(** The narrative container once [displayResults] has rendered it. *)
Definition finalized (e : Element) : Element :=
  let titled := retitleReport (retitle e) in
  withStyle "white-space" "normal"
    (addClass "ai-analysis-content"
       (withContent [Markup (render (textContent titled))] titled)).

(** The fragment with the titles [displayResults] rewrites: the first [h3]
    when the container has no title before it, and the first [h2]. *)
Definition retitled (title : option string) (h : string) : string :=
  let h' := match title with
            | Some _ => h
            | None => default h (setFirst "h3" doneTitle h)
            end
  in default h' (setFirst "h2" "LLM 深度分析报告" h').

(** ** The vocabulary of the further properties *)

(** The text is made of the words of [codes], one after another. *)
Inductive madeOf (codes : list string) : string → Prop :=
| madeOf_nil : madeOf codes ""
| madeOf_cons w s : w ∈ codes → madeOf codes s → madeOf codes (w +:+ s).

(** No word of [codes] is empty, and none starts another one. *)
Definition prefixFree (codes : list string) : Prop :=
  ∀ w w', w ∈ codes → w' ∈ codes → w ≠ "" ∧ (is_Some (dropPrefix w w') → w = w').

Definition lineBreak : ascii := ascii_of_nat 10.

Fixpoint hasChar (c : ascii) (s : string) : bool :=
  match s with
  | EmptyString => false
  | String a rest => bool_decide (a = c) || hasChar c rest
  end.

(** The lines of a text, put together again. *)
Fixpoint joinLines (lines : list string) : string :=
  match lines with
  | [] => ""
  | [line] => line
  | line :: rest => line +:+ String lineBreak (joinLines rest)
  end.

(** [m] writes to the page only: the script's globals are what they
    were, whether it completes or throws. *)
Definition pageOnly {A} (m : Handler A) : Prop :=
  ∀ st, ∃ d, finalState (m st) = withDom d st.

(** [m] writes to the page and to [isAnalyzing] only. *)
Definition viewOnly {A} (m : Handler A) : Prop :=
  ∀ st, ∃ d b, finalState (m st) = withAnalyzing b (withDom d st).

(** The kinds of event that end a job. *)
Definition endsJob (k : Kind) : bool :=
  match k with
  | KAnalysisComplete | KAnalysisError => true
  | _ => false
  end.

(** The elements [kept] are on the page, none of them inside an element
    of [written]: writing the children of the latter leaves them in the
    document. *)
Definition apart (written kept : list string) (d : gmap string Element) : Prop :=
  ∀ k, k ∈ kept → ∃ e, d !! k = Some e ∧ ∀ w, w ∈ written → w ∉ inside e.

(** The controls a submission of one job writes to are on the page,
    outside of the status label. *)
Definition submitControls (st : State) : Prop :=
  apart ["systemStatus"]
        ["analyzeBtn"; "logDisplay"; "singleProgress"; "enableStreaming"] (dom st) ∧
  is_Some (dom st !! "systemStatus").

(** The request of an accepted submission of one job. *)
Definition singleRequest (code percent price : string) (streaming : bool)
    (client : option string) : Request :=
  if numTruthy (parseFloat percent)
  then PostSingle (trim code) (VNum (parseFloat percent)) (VNum (parseFloat price))
                  streaming client
  else PostSingle (trim code) (number 0) (number (-1)) streaming client.



(** What is left of an element when the children of [id] are dropped. *)
Definition keep (id : string) (o : option Element) : option Element :=
  match o with
  | Some e => if decide (id ∉ inside e) then Some e else None
  | None => None
  end.

(** What [parseMarkdown(v)] returns, when it returns. *)
Definition rendering (v : JSValue) : option string :=
  match v with
  | VStr s => Some (render s)
  | _ => renderOther v
  end.



(** The client id the script sends with its submissions is the one the
    channel was opened with. *)
Definition channelMatches (st : State) : Prop :=
  ∀ c, sseConnection st = Some c →
       ∃ id, currentClientId st = Some id ∧ url c = "/sse/stream?client_id=" +:+ id.

(** [m] leaves the address of the channel and the client id alone. *)
Definition sameChannel {A} (m : Handler A) : Prop :=
  ∀ st, url <$> sseConnection (finalState (m st)) = url <$> sseConnection st ∧
        currentClientId (finalState (m st)) = currentClientId st.

End Vocabulary.

(** ** A runtime and a page for the examples *)

Module Example.

(** The fallback renderer [simpleMarkdownParse] on text that has no
    markdown syntax and no empty line: each line break becomes [<br>]. *)
Fixpoint breaks (s : string) : string :=
  match s with
  | EmptyString => EmptyString
  | String a rest =>
      if Nat.eqb (nat_of_ascii a) 10 then "<br>" +:+ breaks rest
      else String a (breaks rest)
  end.

(** The text of a fragment without character references: what is not
    inside a tag. *)
Fixpoint untagged (inTag : bool) (h : string) : string :=
  match h with
  | EmptyString => EmptyString
  | String a rest =>
      if Nat.eqb (nat_of_ascii a) 60 then untagged true rest
      else if Nat.eqb (nat_of_ascii a) 62 then
             if inTag then untagged false rest else String a (untagged false rest)
      else if inTag then untagged true rest
      else String a (untagged false rest)
  end.

(** [q.toFixed(digits)] on the exact value of [q], rounding half away
    from zero. *)
Definition fixed (digits : nat) (q : Q) : string :=
  let scale := (10 ^ Z.of_nat digits)%Z in
  let magnitude :=
    ((2 * Z.abs (Qnum q) * scale + Z.pos (Qden q)) / (2 * Z.pos (Qden q)))%Z in
  let whole := pretty (magnitude / scale)%Z in
  let part := pretty (scale + magnitude mod scale)%Z in
  (if (Qnum q <? 0)%Z && negb (magnitude =? 0)%Z then "-" else "") +:+ whole +:+
  (if Nat.eqb digits 0 then "" else "." +:+ String.substring 1 digits part).

(** Text made of decimal digits, read as a number. *)
Fixpoint digitsValue (acc : Z) (s : string) : option Z :=
  match s with
  | EmptyString => Some acc
  | String a rest =>
      let n := nat_of_ascii a in
      if (48 <=? n)%nat && (n <=? 57)%nat
      then digitsValue (10 * acc + Z.of_nat (n - 48))%Z rest
      else None
  end.

Definition digitsNumber (s : string) : JSNum :=
  match s with
  | EmptyString => NaN
  | _ => match digitsValue 0 s with
         | Some z => Fin (Qmake z 1)
         | None => NaN
         end
  end.

(** The runtime of the examples: the fallback renderer, fragments without
    headings, numbers written with digits only, and no width but the plain
    percentages. *)
Definition runtime : Runtime := {|
  render := breaks;
  renderOther := λ v, if truthy v then None else Some "";
  textOf := untagged false;
  setFirst := λ _ _ _, None;
  fracToString := λ q, fixed 2 q;
  toFixedNum := λ digits n,
    match n with
    | NaN => "NaN"
    | Inf negative => if negative then "-Infinity" else "Infinity"
    | Fin q => fixed digits q
    end;
  strToNum := digitsNumber;
  parseFloat := digitsNumber;
  otherWidth := λ _, None;
|}.

#[local] Existing Instance runtime.

Definition shown (text : string) (within : list string) : Element :=
  mkElement [TextNode text] None [] ∅ None false "" false within.

Definition input (text : string) : Element :=
  mkElement [] None [] ∅ None false text false [].

Definition bar : Element :=
  mkElement [] None [] ∅ (Some "0%") false "" false [].

(** The elements of one batch slot, hidden and empty. *)
Definition slotElements (i : Z) : list (string * Element) :=
  [(slotId "batchSlot" (number i),
    mkElement [] None ["batch-slot"; "hidden"] ∅ None false "" false []);
   (slotId "slotTitle" (number i), shown "" [slotId "batchSlot" (number i)]);
   (slotId "financialCountBatch" (number i), shown "--" [slotId "batchSlot" (number i)]);
   (slotId "newsCountBatch" (number i), shown "--" [slotId "batchSlot" (number i)]);
   (slotId "completenessBatch" (number i), shown "--" [slotId "batchSlot" (number i)]);
   (slotId "batchResultsContent" (number i), shown "" [slotId "batchSlot" (number i)])].

(** The controls of the page, an empty results container and ten batch
    slots. *)
Definition controls : list (string * Element) :=
  [("logDisplay", blankElement); ("resultsContent", blankElement);
   ("analyzeBtn", blankElement); ("batchAnalyzeBtn", blankElement);
   ("systemStatus", shown "系统就绪" []); ("currentStock", blankElement);
   ("singleProgress", bar); ("batchProgress", bar);
   ("sseIndicator", blankElement); ("sseStatus", blankElement);
   ("stockCode", input "000001"); ("positionPercent", input "");
   ("avgPrice", input ""); ("enableStreaming", input "");
   ("stockList", input "")].

Definition page : gmap string Element :=
  list_to_map (controls ++ mjoin (slotElements <$> [0; 1; 2; 3; 4; 5; 6; 7; 8; 9]%Z)).

(** The skeleton of a single result, as [showLoading] of the older script
    writes it: nine display fields and the narrative container. *)
Definition skeleton : list (string * Element) :=
  [("stockCodeDisplay", shown "股票代码: --" []);
   ("currentPriceDisplay", shown "当前价格: --" []);
   ("priceChangeDisplay", shown "涨跌幅: --" []);
   ("rsiDisplay", shown "RSI: --" []);
   ("trendDisplay", shown "趋势: --" []);
   ("macdDisplay", shown "MACD: --" []);
   ("sentimentTrendDisplay", shown "情绪趋势: --" []);
   ("newsCountDisplay", shown "新闻数量: --" []);
   ("confidenceDisplay", shown "置信度: --" []);
   ("aiStreamContent",
    mkElement [] (Some "🤖 AI 深度分析 - 实时生成中...") []
              {["white-space" := "pre-wrap"]} None false "" false [])].

Definition idle : State := mkState page false None None [] [].

(** The page once the skeleton has arrived. *)
Definition loaded : State :=
  finalState (resultContentLoaded "<div>...</div>" skeleton idle).

Definition newline : string := String (ascii_of_nat 10) "".

(** The report of the specification: a price, and no technical analysis. *)
Definition report : JSValue :=
  VObj [("stock_code", VStr "600000");
        ("price_info", VObj [("current_price", VNum (Fin (Qmake 21 2)));
                             ("price_change", VNum (Fin (Qmake (-123) 100)))])].

Definition final : JSValue := event "final_result" report.

(** An analysis is in flight and the stock code input is empty. *)
Definition busyNoCode : State :=
  mkState (<["stockCode" := input ""]> page) true None None [] [].

(** An analysis is in flight and the inputs are in order. *)
Definition busy : State := mkState page true None None [] [].

(** An analysis is in flight, and a code and a list of two codes are
    submitted. *)
Definition busyList : State :=
  mkState (<["stockList" := input ("600000" +:+ newline +:+ "000001")]> page)
          true None None [] [].

(** A position of 30 percent without an average price. *)
Definition holding : State :=
  mkState (<["positionPercent" := input "30"]> page) false None None [] [].

(** The channel has been opened once. *)
Definition connected : State :=
  finalState (initSSE "k3x9" "1700000000000" idle).

(** A batch report with a price and without a technical analysis. *)
Definition batchReport : JSValue :=
  VObj [("stock_name", VStr "浦发银行"); ("stock_code", VStr "600000");
        ("data_quality", VObj [("financial_indicators_count", number 12)]);
        ("price_info", VObj [("current_price", VNum (Fin (Qmake 21 2)));
                             ("price_change", VNum (Fin (Qmake (-123) 100)))])].

Definition batchEvent (i : Z) : JSValue :=
  VObj [("index", number i); ("report", batchReport)].

(** A narrative is being streamed into the skeleton. *)
Definition streaming : State := deliver [streamEvent "A"; streamEvent "B"] loaded.

(** A page with no element at all. *)
Definition bare : State := mkState ∅ false None None [] [].

(** A batch report with every part [showBatchSlot] reads. *)
Definition fullReport : JSValue :=
  VObj [("stock_name", VStr "浦发银行"); ("stock_code", VStr "600000");
        ("data_quality", VObj [("financial_indicators_count", number 12)]);
        ("price_info", VObj [("current_price", VNum (Fin (Qmake 21 2)));
                             ("price_change", VNum (Fin (Qmake (-123) 100)))]);
        ("technical_analysis", VObj [("rsi", number 55); ("ma_trend", VStr "多头排列");
                                     ("macd_signal", VStr "金叉")]);
        ("value_prompt", VStr "V"); ("prompt", VStr "P"); ("ai_analysis", VStr "R")].

Definition fullEvent : JSValue :=
  VObj [("index", number 0); ("report", fullReport)].

(** Slot 0 shows the complete report. *)
Definition slotShown : State := finalState (showBatchSlot fullEvent idle).

Definition promptEvent : JSValue :=
  VObj [("element_id", VStr "llm-prompt-0"); ("content", VStr "P2")].

(** The body of slot 0 is on the page, folded. *)
Definition folded : State :=
  mkState (<["slotBody0" := mkElement [] None ["slot-body"; "hidden"] ∅ None false ""
                                      false ["batchSlot0"]]> page)
          false None None [] [].

(** The page with the counts of the data quality. *)
Definition counted : State :=
  mkState (<["financialCount" := shown "--" ["dataQuality"]]>
           (<["newsCount" := shown "--" ["dataQuality"]]>
            (<["completeness" := shown "--" ["dataQuality"]]>
             (<["dataQuality" := blankElement]> page))))
          false None None [] [].

(** A fragment has arrived before the skeleton of the result. *)
Definition early : State := deliver [streamEvent "A"] idle.

(** Slot 0 shows a report, and a list of two codes is ready for the next
    batch. *)
Definition shownTwoCodes : State :=
  withDom (<["stockList" := input ("600000" +:+ newline +:+ "000001")]> (dom slotShown))
          slotShown.

(** The same on a page that has lost its submit button. *)
Definition shownNoButton : State :=
  withDom (delete "batchAnalyzeBtn" (dom shownTwoCodes)) shownTwoCodes.


Definition eleventhEvent : JSValue :=
  VObj [("index", number 10); ("report", fullReport)].


(** Characters of white space that are no ASCII: the no-break space and
    the ideographic space. *)
Definition nbsp : string := bytes [194; 160].
Definition wideSpace : string := bytes [227; 128; 128].

Definition halfWay : JSValue :=
  VObj [("element_id", VStr "singleProgress"); ("percent", number 50);
        ("message", VStr "正在获取数据")].

End Example.

Ltac listed := repeat first [apply list_elem_of_here | apply list_elem_of_further].
Ltac computed := vm_compute; reflexivity.

(** * Properties *)

(** ** What a handler keeps *)

Section Keeping.
Context {rt : Runtime}.

Lemma keeps_andThen {A B} P (m : Handler A) (k : A → Handler B) :
  keeps P m → (∀ a, keeps P (k a)) → keeps P (andThen m k).
Proof.
  intros Hm Hk st HP. unfold andThen.
  specialize (Hm st HP). destruct (m st) as [a st'|err st']; simpl in *.
  - by apply Hk.
  - done.
Qed.

Lemma keeps_member {B} P v key (k : JSValue → Handler B) :
  keeps P (k (getProp v key)) → keeps P (andThen (member v key) k).
Proof.
  intros Hk st HP. unfold andThen, member.
  destruct (nullish v); simpl; [done | by apply Hk].
Qed.

Lemma keeps_pure {A} P (a : A) : keeps P (pure a).
Proof. by intros st HP. Qed.

Lemma keeps_when P b m : keeps P m → keeps P (when b m).
Proof. intros Hm. destruct b; [done | apply keeps_pure]. Qed.

Lemma keeps_getElementById P id : keeps P (getElementById id).
Proof. by intros st HP. Qed.

Lemma keeps_toFixed P digits v : keeps P (toFixed digits v).
Proof. intros st HP. by destruct v. Qed.

Lemma keeps_parseMarkdown P v : keeps P (parseMarkdown v).
Proof.
  intros st HP. unfold parseMarkdown.
  destruct v; simpl; try done; by destruct (renderOther _).
Qed.

Lemma lookup_detach id (d : gmap string Element) k e :
  d !! k = Some e → id ∉ inside e → detach id d !! k = Some e.
Proof. intros Hk Hin. unfold detach. by apply map_lookup_filter_Some. Qed.

Lemma lookup_declare_ne id host declared (d : gmap string Element) k :
  k ∉ declared.*1 → declare id host declared d !! k = d !! k.
Proof.
  induction declared as [|[k' e'] declared IH]; simpl; [done|].
  intros Hk. apply not_elem_of_cons in Hk as [Hne Hk].
  rewrite lookup_insert_ne; [by apply IH | done].
Qed.

Lemma keeps_update k e id f :
  k ≠ id → keeps (holds k e) (update id f).
Proof.
  intros Hne st Hk. unfold update, holds in *.
  destruct (dom st !! id); simpl; [|done].
  by rewrite lookup_insert_ne.
Qed.

Lemma keeps_setChildren k e id children declared :
  k ≠ id → id ∉ inside e → k ∉ declared.*1 →
  keeps (holds k e) (setChildren id children declared).
Proof.
  intros Hne Hin Hdecl st Hk. unfold setChildren, holds in *.
  destruct (dom st !! id) as [host|]; simpl; [|done].
  rewrite lookup_declare_ne; [|done].
  rewrite lookup_insert_ne; [|done]. by apply lookup_detach.
Qed.

Lemma keeps_setText k e id text :
  k ≠ id → id ∉ inside e → keeps (holds k e) (setText id text).
Proof. intros. apply keeps_setChildren; [done..|]. by intros ?%elem_of_nil. Qed.

End Keeping.

(** ** Submission guards *)

Section Submissions.
Context {rt : Runtime}.

Lemma positiveNum_truthy n : positiveNum n = true → numTruthy n = true.
Proof.
  destruct n as [|negative|q]; simpl; [done..|].
  intros Hpos%Z.ltb_lt. apply negb_true_iff, Z.eqb_neq. lia.
Qed.

Lemma onlyLogged_appended entries l st :
  dom st !! "logDisplay" = Some l →
  onlyLogged entries st (Done () (appended entries l st)).
Proof.
  intros Hl. exists l. repeat split; [done|].
  intros id Hid. simpl. by rewrite lookup_insert_ne.
Qed.

Lemma addLog_appended message type l st :
  dom st !! "logDisplay" = Some l →
  addLog message type st = Done () (appended [LogEntry type message] l st).
Proof. intros Hl. unfold addLog. by rewrite Hl. Qed.

Lemma addLog_onlyLogged message type l st :
  dom st !! "logDisplay" = Some l →
  onlyLogged [LogEntry type message] st (addLog message type st).
Proof.
  intros Hl. rewrite (addLog_appended _ _ l); [|done].
  by apply onlyLogged_appended.
Qed.

(** C4, as the script has it.  While an analysis is in flight a submission,
    of one job or of a batch, completes without a request: it only adds
    lines to the log and leaves [isAnalyzing] and every other element as
    they were.  When the inputs pass the checks that stand before the guard
    the busy warning is the line logged, after the line that tells of the
    default position when no position is given; when a check fails the
    warning of that check is the only line, and the busy warning is not
    logged. *)
Theorem busy_submission_only_logs (st : State) (c p a s l : Element) :
  isAnalyzing st = true →
  dom st !! "stockCode" = Some c →
  dom st !! "positionPercent" = Some p →
  dom st !! "avgPrice" = Some a →
  dom st !! "stockList" = Some s →
  dom st !! "logDisplay" = Some l →
  (∃ entries,
     onlyLogged entries st (analyzeSingleStock st) ∧
     (passesChecks (value c) (value p) (value a) = true →
      entries = (if numTruthy (parseFloat (value p)) then []
                 else [LogEntry "info" "默认未买入"]) ++ [busyWarning]) ∧
     (trim (value c) = "" → entries = [LogEntry "warning" "请输入股票代码"]) ∧
     (trim (value c) ≠ "" → passesChecks (value c) (value p) (value a) = false →
      entries = [LogEntry "warning" "请输入持仓均价"])) ∧
  (∃ entries,
     onlyLogged entries st (analyzeBatchStocks st) ∧
     (trim (value s) ≠ "" → entries = [busyWarning]) ∧
     (trim (value s) = "" → entries = [LogEntry "warning" "请输入股票代码列表"])).
Proof.
  intros Hbusy Hc Hp Ha Hs Hl. split.
  - unfold analyzeSingleStock, passesChecks, andThen at 1 2 3, inputValue.
    rewrite Hc, Hp, Ha.
    destruct (String.eqb (trim (value c)) "") eqn:Hcode; simpl.
    { eexists. split; [by apply (addLog_onlyLogged _ _ l)|].
      apply String.eqb_eq in Hcode. split; [done|]. split; [done|].
      intros Hne. by destruct Hne. }
    apply String.eqb_neq in Hcode.
    destruct (numTruthy (parseFloat (value p))) eqn:Hpercent; simpl.
    2:{ exists [LogEntry "info" "默认未买入"; busyWarning].
        split; [|split; [done|split; [done|discriminate]]].
        unfold andThen. rewrite (addLog_appended _ _ l); [|done].
        unfold startSingle. simpl. rewrite Hbusy.
        unfold addLog. simpl. rewrite lookup_insert_eq. simpl.
        replace (withDom _ _) with (appended [LogEntry "info" "默认未买入"; busyWarning] l st).
        - by apply onlyLogged_appended.
        - unfold appended, withDom. simpl. by rewrite insert_insert_eq, <- app_assoc. }
    destruct (positiveNum (parseFloat (value p))) eqn:Hpos; simpl.
    + destruct (numTruthy (parseFloat (value a))) eqn:Hprice; simpl.
      * eexists. split.
        { unfold startSingle. rewrite Hbusy. by apply (addLog_onlyLogged _ _ l). }
        split; [done|]. split; [done|discriminate].
      * eexists. split; [by apply (addLog_onlyLogged _ _ l)|].
        split; [discriminate|]. split; done.
    + eexists. split.
      { unfold startSingle. rewrite Hbusy. by apply (addLog_onlyLogged _ _ l). }
      split; [done|]. split; [done|discriminate].
  - unfold analyzeBatchStocks, andThen, inputValue. rewrite Hs.
    destruct (String.eqb (trim (value s)) "") eqn:Hlist.
    + eexists. split; [by apply (addLog_onlyLogged _ _ l)|].
      apply String.eqb_eq in Hlist. split; done.
    + rewrite Hbusy. eexists. split; [by apply (addLog_onlyLogged _ _ l)|].
      apply String.eqb_neq in Hlist. split; done.
Qed.

(** C8. A submission of one job whose position percentage is greater than
    zero and whose average price input is empty is rejected before any
    request: the handler completes, one warning line is added to the log,
    no request leaves, [isAnalyzing] stays false and every other element
    (the submit button among them) stays as it was.  Both scripts do so:
    the current one reads the inputs with [parseFloat], which gives [NaN]
    on the empty text, the older one compares the texts themselves. *)
Theorem empty_price_rejected (st : State) (c p a l : Element) :
  isAnalyzing st = false →
  dom st !! "stockCode" = Some c →
  dom st !! "positionPercent" = Some p →
  dom st !! "avgPrice" = Some a →
  dom st !! "logDisplay" = Some l →
  parseFloat "" = NaN →
  value a = "" →
  (positiveNum (parseFloat (value p)) = true →
   ∃ message,
     onlyLogged [LogEntry "warning" message] st (analyzeSingleStock st) ∧
     isAnalyzing (finalState (analyzeSingleStock st)) = false ∧
     dom (finalState (analyzeSingleStock st)) !! "analyzeBtn"
     = dom st !! "analyzeBtn") ∧
  (value p ≠ "" → positiveNum (strToNum (value p)) = true →
   ∃ message,
     onlyLogged [LogEntry "warning" message] st (Legacy.analyzeSingleStock st) ∧
     isAnalyzing (finalState (Legacy.analyzeSingleStock st)) = false ∧
     dom (finalState (Legacy.analyzeSingleStock st)) !! "analyzeBtn"
     = dom st !! "analyzeBtn").
Proof.
  intros Hidle Hc Hp Ha Hl Hnan Hempty.
  assert (Hwarn : ∀ message,
    onlyLogged [LogEntry "warning" message] st (addLog message "warning" st) ∧
    isAnalyzing (finalState (addLog message "warning" st)) = false ∧
    dom (finalState (addLog message "warning" st)) !! "analyzeBtn"
    = dom st !! "analyzeBtn").
  { intros message. split; [by apply (addLog_onlyLogged _ _ l)|].
    rewrite (addLog_appended _ _ l); [|done]. simpl.
    split; [done|]. by rewrite lookup_insert_ne. }
  split.
  - intros Hpos. unfold analyzeSingleStock, andThen, inputValue.
    rewrite Hc, Hp, Ha, Hempty, Hnan.
    destruct (String.eqb (trim (value c)) "").
    + exists "请输入股票代码". apply Hwarn.
    + rewrite (positiveNum_truthy _ Hpos), Hpos. simpl.
      exists "请输入持仓均价". apply Hwarn.
  - intros Hne Hpos. unfold Legacy.analyzeSingleStock, andThen, inputValue.
    rewrite Hc, Hp, Ha, Hempty.
    destruct (String.eqb (trim (value c)) "").
    + exists "请输入股票代码". apply Hwarn.
    + apply String.eqb_neq in Hne. rewrite Hne, Hpos. simpl.
      exists "请输入持仓均价". apply Hwarn.
Qed.

End Submissions.

(** ** Running a handler step by step *)

Section Stepping.
Context {rt : Runtime}.

Lemma andThen_Done {A B} (m : Handler A) (k : A → Handler B) st a st' :
  m st = Done a st' → andThen m k st = k a st'.
Proof. intros Hm. unfold andThen. by rewrite Hm. Qed.

Lemma update_Done id f e st :
  dom st !! id = Some e →
  update id f st = Done () (withDom (<[id := f e]> (dom st)) st).
Proof. intros He. unfold update. by rewrite He. Qed.

Lemma setChildren_Done id children declared e st :
  dom st !! id = Some e →
  setChildren id children declared st
  = Done () (withDom (declare id e declared
               (<[id := withContent (children e) e]> (detach id (dom st)))) st).
Proof. intros He. unfold setChildren. by rewrite He. Qed.

Lemma setFillWidth_Done id w e w0 st :
  dom st !! id = Some e → fill e = Some w0 →
  setFillWidth id w st = Done () (withDom (<[id := setWidth w e]> (dom st)) st).
Proof. intros He Hw. unfold setFillWidth. by rewrite He, Hw. Qed.

Lemma member_Done v key st :
  nullish v = false → member v key st = Done (getProp v key) st.
Proof. intros Hv. unfold member. by rewrite Hv. Qed.

Lemma cssWidth_zero : cssWidth "0%" = Some "0%".
Proof. reflexivity. Qed.

Lemma setWidth_zero e : setWidth "0%" e = withFill (Some "0%") e.
Proof. unfold setWidth. by rewrite cssWidth_zero. Qed.

Lemma inside_setWidth w e : inside (setWidth w e) = inside e.
Proof. unfold setWidth. by destruct (cssWidth w). Qed.





End Stepping.


(** ** The error panel *)

Section Lifecycle.
Context {rt : Runtime}.


End Lifecycle.

(** ** The reconnect timers *)

Section Channel.
Context {rt : Runtime}.

Lemma onerror_schedules st now :
  statusPresent st →
  ∃ st', onerror now st = Done () st' ∧
         timers st' = (timers st ++ [now + reconnectDelay])%list ∧
         sseConnection st' = sseConnection st ∧
         statusPresent st'.
Proof.
  intros ((l & Hl & Hlout) & (i & Hi & Hiout) & [s Hs]).
  unfold onerror, updateSSEStatus.
  erewrite andThen_Done by (by apply addLog_appended).
  erewrite andThen_Done.
  2:{ erewrite andThen_Done.
      2:{ apply update_Done. simpl. by rewrite lookup_insert_ne. }
      apply setChildren_Done. simpl. by rewrite !lookup_insert_ne. }
  eexists. split; [reflexivity|]. split; [done|]. split; [done|].
  unfold statusPresent. simpl. split; [|split].
  - exists (withContent (content l ++ [LogEntry "error" "SSE连接错误"]) l).
    split; [|exact Hlout].
    rewrite lookup_insert_ne by done. apply lookup_detach; [|done].
    rewrite lookup_insert_ne by done. apply lookup_insert_eq.
  - exists (removeClass "connected" i). split; [|exact Hiout].
    rewrite lookup_insert_ne by done. apply lookup_detach; [|done].
    apply lookup_insert_eq.
  - eexists. apply lookup_insert_eq.
Qed.

Lemma channelError_schedules st r now :
  statusPresent st →
  ∃ st', channelError r now st = Done () st' ∧
         timers st' = (timers st ++ [now + reconnectDelay])%list ∧
         statusPresent st'.
Proof.
  intros Hst. unfold channelError, setReadyState, andThen.
  destruct (sseConnection st) as [c|].
  - destruct (onerror_schedules (withConnection (Some (mkEventSource (url c) r)) st) now Hst)
      as (st' & -> & Ht & _ & Hst').
    by exists st'.
  - destruct (onerror_schedules st now Hst) as (st' & -> & Ht & _ & Hst').
    by exists st'.
Qed.

(** C5, as the script has it.  Every channel error schedules a reconnect
    timer of its own, due 3000 ms after the event, whatever timers are
    already pending: two errors leave two timers.  A timer that fires
    re-initialises the channel only when there is no connection or the
    connection is CLOSED at that instant; when the connection is CONNECTING
    or OPEN the callback does nothing. *)
Theorem every_error_schedules_a_timer (st : State) (r1 r2 : ReadyState)
    (t1 t2 : nat) :
  statusPresent st →
  (∃ st1 st2,
     channelError r1 t1 st = Done () st1 ∧
     channelError r2 t2 st1 = Done () st2 ∧
     timers st2 = (timers st ++ [t1 + 3000; t2 + 3000])%list) ∧
  (∀ (due : nat) rest random (now : nat) c,
     timers st = due :: rest → (due ≤ now)%nat →
     sseConnection st = Some c → readyState c ≠ CLOSED →
     timerFired random now st = Done () (withTimers rest st)) ∧
  (∀ (due : nat) rest random (now : nat),
     timers st = due :: rest → (due ≤ now)%nat →
     (sseConnection st = None ∨
      ∃ c, sseConnection st = Some c ∧ readyState c = CLOSED) →
     ∃ st', timerFired random now st = Done () st' ∧
            timers st' = rest ∧
            sseConnection st'
            = Some (mkEventSource
                      ("/sse/stream?client_id=" +:+ generateClientId random (pretty now))
                      CONNECTING)).
Proof.
  intros Hst. split; [|split].
  - destruct (channelError_schedules st r1 t1 Hst) as (st1 & H1 & Ht1 & Hst1).
    destruct (channelError_schedules st1 r2 t2 Hst1) as (st2 & H2 & Ht2 & _).
    exists st1, st2. split; [done|]. split; [done|].
    rewrite Ht2, Ht1, <- app_assoc. done.
  - intros due rest random now c Ht Hdue Hc Hopen.
    unfold timerFired. rewrite Ht.
    apply Nat.leb_le in Hdue. rewrite Hdue.
    unfold reconnect. simpl. rewrite Hc.
    destruct c as [u []]; simpl in *; done.
  - intros due rest random now Ht Hdue Hclosed.
    destruct Hst as ((l & Hl & _) & _).
    unfold timerFired. rewrite Ht.
    apply Nat.leb_le in Hdue. rewrite Hdue.
    assert (Hrun : ∀ st0, dom st0 = dom st → timers st0 = rest →
      ∃ st', (addLog "尝试重新连接SSE..." "warning" ;; initSSE random (pretty now)) st0
             = Done () st' ∧ timers st' = rest ∧
             sseConnection st'
             = Some (mkEventSource
                       ("/sse/stream?client_id=" +:+ generateClientId random (pretty now))
                       CONNECTING)).
    { intros st0 Hdom Hrest. unfold initSSE, closeConnection.
      erewrite andThen_Done by (apply addLog_appended; by rewrite Hdom).
      destruct (sseConnection st0) eqn:Hconn.
      - erewrite andThen_Done by (simpl; by rewrite Hconn).
        erewrite andThen_Done by reflexivity.
        erewrite andThen_Done
          by (apply addLog_appended; simpl; apply lookup_insert_eq).
        by eexists.
      - erewrite andThen_Done by (simpl; by rewrite Hconn).
        erewrite andThen_Done by reflexivity.
        erewrite andThen_Done
          by (apply addLog_appended; simpl; apply lookup_insert_eq).
        by eexists. }
    unfold reconnect. simpl.
    destruct Hclosed as [->|(c & -> & Hc)].
    + by apply Hrun.
    + destruct c as [u []]; simpl in Hc; try done. by apply Hrun.
Qed.

End Channel.

(** ** Batch slots *)

Section Slots.
Context {rt : Runtime}.

Lemma apps_differ (p1 p2 s1 s2 : string) :
  String.prefix p1 p2 = false → String.prefix p2 p1 = false →
  p1 +:+ s1 ≠ p2 +:+ s2.
Proof.
  revert p2. induction p1 as [|a p1 IH]; intros [|b p2]; simpl; try done.
  destruct (ascii_dec a b) as [->|Hab].
  - destruct (ascii_dec b b); [|done]. intros H1 H2 [= Heq]. by eapply IH.
  - intros _ _ [= Heq _]. done.
Qed.

Lemma toStr_number (k : Z) :
  (Z.abs k < 10 ^ 21)%Z → toStr (number k) = pretty k.
Proof.
  intros Hk. unfold number, toStr, numToString. simpl.
  by rewrite decide_True.
Qed.

Lemma slotId_inj prefix (k k' : Z) :
  (Z.abs k < 10 ^ 21)%Z → (Z.abs k' < 10 ^ 21)%Z →
  slotId prefix (number k) = slotId prefix (number k') → k = k'.
Proof.
  intros Hk Hk'. unfold slotId. rewrite !toStr_number by done.
  intros Heq%(inj (String.app prefix)). by apply (inj pretty).
Qed.

(** The ids of two slots are apart. *)
Lemma slot_ids_apart (k k' : Z) id :
  k ≠ k' → (Z.abs k < 10 ^ 21)%Z → (Z.abs k' < 10 ^ 21)%Z →
  id ∈ slotIds (number k') ++ tabIds (number k') →
  id ∉ slotIds (number k) ++ tabIds (number k).
Proof.
  intros Hne Hk Hk' Hin Hin'.
  unfold slotIds, tabIds in *. simpl in Hin, Hin'.
  repeat (apply elem_of_cons in Hin as [->|Hin]);
    [..|by apply elem_of_nil in Hin].
  all: repeat (apply elem_of_cons in Hin' as [Heq|Hin']);
    [..|by apply elem_of_nil in Hin'].
  all: first [ by apply slotId_inj in Heq
             | by (revert Heq; apply apps_differ) ].
Qed.

Lemma handle_batch_result data :
  handleSSEMessage (event "batch_result" data) = showBatchSlot data.
Proof. reflexivity. Qed.

(** What [showBatchSlot] leaves alone: an element that is none of the
    slot's and that is not inside one of them. *)
Lemma showBatchSlot_frame eventData st id e :
  dom st !! id = Some e →
  id ∉ slotIds (getProp eventData "index") ++ tabIds (getProp eventData "index") →
  (∀ x, x ∈ slotIds (getProp eventData "index") → x ∉ inside e) →
  dom (finalState (showBatchSlot eventData st)) !! id = Some e.
Proof.
  intros He Hid Hout. revert st He. change (keeps (holds id e) (showBatchSlot eventData)).
  set (index := getProp eventData "index") in *.
  assert (Hids : ∀ x, x ∈ slotIds index ++ tabIds index → id ≠ x).
  { intros x Hx ->. done. }
  unfold showBatchSlot. apply keeps_member. fold index.
  repeat first
    [ apply keeps_member
    | apply keeps_andThen; [|intros ?]
    | apply keeps_parseMarkdown
    | apply keeps_update; apply Hids; unfold slotIds; listed
    | apply keeps_setText; [apply Hids; unfold slotIds; listed
                           |apply Hout; unfold slotIds; listed] ].
  apply keeps_setChildren.
  - apply Hids. unfold slotIds. listed.
  - apply Hout. unfold slotIds. listed.
  - intros Hin. apply Hid. apply elem_of_app. by right.
Qed.

(** A handler that never completes. *)
Lemma throws_member_nullish {B} v key (k : JSValue → Handler B) st :
  nullish v = true → completed (andThen (member v key) k st) = false.
Proof. intros Hv. unfold andThen, member. by rewrite Hv. Qed.

Lemma throws_member {B} v key (k : JSValue → Handler B) st :
  (∀ st', completed (k (getProp v key) st') = false) →
  completed (andThen (member v key) k st) = false.
Proof.
  intros Hk. unfold andThen, member. destruct (nullish v); simpl; [done|apply Hk].
Qed.

Lemma throws_andThen {A B} (m : Handler A) (k : A → Handler B) st :
  (∀ a st', completed (k a st') = false) →
  completed (andThen m k st) = false.
Proof. intros Hk. unfold andThen. destruct (m st); [apply Hk|done]. Qed.

(** X7. A batch report without a technical analysis: [showBatchSlot] throws on
    every page, before it writes the body of the slot. *)
Lemma batch_report_needs_technical eventData st :
  nullish (getProp (getProp eventData "report") "technical_analysis") = true →
  completed (showBatchSlot eventData st) = false.
Proof.
  intros Hmissing. unfold showBatchSlot.
  apply throws_member.
  repeat first
    [ intros ?; cbv beta; apply throws_member_nullish; exact Hmissing
    | intros ?; cbv beta; apply throws_member
    | intros ?; cbv beta; apply throws_andThen; intros ? ].
Qed.

(** C6. A [batch_result] event for slot [k] leaves every element of another
    slot [k'] exactly as it was, its classes (hidden or not) and its
    content: the slots' own elements and the tabs a former event put
    there.  The page has the slots apart: no element of slot [k'] is inside
    an element of slot [k]. *)
Theorem other_slots_untouched (st : State) (k k' : Z) (report : JSValue)
    (id : string) (e : Element) :
  k ≠ k' → (Z.abs k < 10 ^ 21)%Z → (Z.abs k' < 10 ^ 21)%Z →
  id ∈ slotIds (number k') ++ tabIds (number k') →
  dom st !! id = Some e →
  (∀ x, x ∈ slotIds (number k) → x ∉ inside e) →
  dom (onmessage (event "batch_result"
                    (VObj [("index", number k); ("report", report)])) st) !! id
  = Some e.
Proof.
  intros Hne Hk Hk' Hid He Hout.
  unfold onmessage. rewrite handle_batch_result.
  apply showBatchSlot_frame; [done| |done].
  by apply (slot_ids_apart k k').
Qed.

End Slots.

(** ** The ids of the slot containers *)

Section Batch.
Context {rt : Runtime}.



Lemma addClass_has c e : c ∈ classList (addClass c e).
Proof.
  unfold addClass. case_decide; [done|]. simpl. apply elem_of_app. right. listed.
Qed.


End Batch.

(** ** The narrative *)

Section Narrative.
Context {rt : Runtime}.

Lemma append_nil_r (s : string) : s +:+ "" = s.
Proof.
  induction s as [|a s IH]; [done|].
  change (String a s +:+ "") with (String a (s +:+ "")). by rewrite IH.
Qed.

Lemma append_assoc (s1 s2 s3 : string) : (s1 +:+ s2) +:+ s3 = s1 +:+ (s2 +:+ s3).
Proof.
  induction s1 as [|a s1 IH]; [done|].
  change (String a ((s1 +:+ s2) +:+ s3) = String a (s1 +:+ (s2 +:+ s3))).
  by rewrite IH.
Qed.

Lemma narrating_textContent text st e :
  dom st !! "aiStreamContent" = Some e →
  (content e = [TextNode text] ∨ (content e = [] ∧ text = "")) →
  textContent e = text.
Proof.
  intros _ [Hc|[Hc ->]]; unfold textContent; rewrite Hc; simpl; [|done].
  apply append_nil_r.
Qed.

Lemma handle_ai_stream data :
  handleSSEMessage (event "ai_stream" data) = handleAIStream data.
Proof. reflexivity. Qed.

Lemma handle_final_result data :
  handleSSEMessage (event "final_result" data) = displayResults data.
Proof. reflexivity. Qed.

Lemma stream_present text fragment st :
  narrating text st →
  narrating (text +:+ fragment) (onmessage (streamEvent fragment) st).
Proof.
  intros (e & He & Hc & Hout).
  unfold onmessage, streamEvent. rewrite handle_ai_stream.
  unfold handleAIStream. unfold andThen at 1, getElementById at 1.
  rewrite He. simpl.
  erewrite andThen_Done by reflexivity.
  erewrite andThen_Done by reflexivity.
  change (getProp (VObj [("content", VStr fragment)]) "content")
    with (VStr fragment).
  cbn [truthy toStr].
  destruct (String.eqb fragment "") eqn:Hf; cbn [negb when].
  - apply String.eqb_eq in Hf as ->. rewrite append_nil_r. by exists e.
  - rewrite (setChildren_Done _ _ _ e) by done. simpl.
    eexists. split; [apply lookup_insert_eq|]. simpl. split; [|done].
    left. by rewrite (narrating_textContent text st e).
Qed.

Lemma stream_step text fragment st :
  narrating text st ∨
  (text = "" ∧ dom st !! "aiStreamContent" = None ∧
   ∃ r, dom st !! "resultsContent" = Some r ∧ outsideFields r) →
  narrating (text +:+ fragment) (onmessage (streamEvent fragment) st).
Proof.
  intros [Hnarrating|(-> & Hnone & r & Hr & Hout)].
  { by apply stream_present. }
  unfold onmessage, streamEvent. rewrite handle_ai_stream.
  unfold handleAIStream. unfold andThen at 1, getElementById at 1.
  rewrite Hnone. simpl.
  unfold andThen at 1, insertAdjacentHTML. rewrite Hr. simpl.
  set (st1 := withDom _ st).
  assert (Hst1 : narrating "" st1).
  { unfold st1. eexists. split; [apply lookup_insert_eq|]. simpl.
    split; [by right|]. intros f Hf [->|Hin]%elem_of_cons.
    - unfold displayFields in Hf.
      repeat (apply elem_of_cons in Hf as [Hf|Hf]; [done|]).
      by apply elem_of_nil in Hf.
    - by apply (Hout f). }
  pose proof (stream_present "" fragment st1 Hst1) as Hstep.
  unfold onmessage, streamEvent in Hstep. rewrite handle_ai_stream in Hstep.
  unfold handleAIStream in Hstep. unfold andThen at 1, getElementById at 1 in Hstep.
  destruct Hst1 as (e1 & He1 & _). rewrite He1 in Hstep. exact Hstep.
Qed.

Lemma deliver_app events1 events2 st :
  deliver (events1 ++ events2) st = deliver events2 (deliver events1 st).
Proof. unfold deliver. apply foldl_app. Qed.

Lemma deliver_stream fragments text st :
  narrating text st →
  narrating (text +:+ joined fragments) (deliver (streamEvent <$> fragments) st).
Proof.
  revert text st. induction fragments as [|fragment fragments IH]; intros text st Hst.
  - simpl. by rewrite append_nil_r.
  - simpl. change (String.app fragment (joined fragments))
      with (fragment +:+ joined fragments).
    rewrite <- append_assoc. apply IH. apply stream_present. exact Hst.
Qed.

Lemma inside_finalized e : inside (finalized e) = inside e.
Proof.
  unfold finalized, addClass, retitleReport, retitle.
  case_decide; destruct (heading e); done.
Qed.

Lemma finalized_plain e text :
  content e = [TextNode text] → content (finalized e) = [Markup (render text)].
Proof.
  intros Hc. unfold finalized, addClass. case_decide; simpl.
  all: unfold textContent, retitleReport, retitle.
  all: destruct (heading e); simpl; rewrite Hc; simpl; by rewrite append_nil_r.
Qed.

Lemma finalized_markup e h :
  content e = [Markup h] →
  content (finalized e) = [Markup (render (textOf (retitled (heading e) h)))].
Proof.
  intros Hc. unfold finalized, addClass. case_decide; simpl.
  all: unfold textContent, retitleReport, retitle, retitled.
  all: destruct (heading e); simpl; rewrite Hc; simpl.
  all: repeat match goal with
       | |- context [setFirst ?tag ?inner ?h] =>
           destruct (setFirst tag inner h); simpl
       end.
  all: by rewrite append_nil_r.
Qed.

(** A report without [ai_content]: [updateNonAIContent] leaves the
    narrative container alone, whether it completes or throws. *)
Lemma updateNonAIContent_keeps_narrative report e :
  outsideFields e →
  truthy (getProp report "ai_content") = false →
  keeps (holds "aiStreamContent" e) (updateNonAIContent report).
Proof.
  intros Hout Hai. unfold updateNonAIContent.
  repeat first
    [ progress (cbv beta; rewrite Hai); apply keeps_pure
    | apply keeps_member
    | apply keeps_andThen; [|intros ?]
    | apply keeps_getElementById
    | apply keeps_toFixed
    | apply keeps_when
    | apply keeps_setText; [done | apply Hout; unfold displayFields; listed] ].
Qed.

(** One [final_result] event: a blank narrative is left as it is, another
    one is rendered from its text. *)
Lemma final_result_narrative st e report :
  dom st !! "aiStreamContent" = Some e →
  outsideFields e →
  truthy (getProp report "ai_content") = false →
  dom (onmessage (event "final_result" report) st) !! "aiStreamContent"
  = Some (if blank (textContent e) then e else finalized e).
Proof.
  intros He Hout Hai. unfold onmessage. rewrite handle_final_result.
  unfold displayResults. unfold andThen at 1, getElementById at 1.
  rewrite He. simpl.
  destruct (blank (textContent e)); [done|].
  erewrite andThen_Done by (by apply update_Done).
  erewrite andThen_Done by (apply update_Done; simpl; apply lookup_insert_eq).
  erewrite andThen_Done by (apply setChildren_Done; simpl; apply lookup_insert_eq).
  erewrite andThen_Done by (apply update_Done; simpl; apply lookup_insert_eq).
  erewrite andThen_Done by (apply update_Done; simpl; apply lookup_insert_eq).
  apply updateNonAIContent_keeps_narrative; [|done|].
  - intros f Hf. rewrite inside_finalized. by apply Hout.
  - unfold holds. simpl. apply lookup_insert_eq.
Qed.

(** X4. A [final_result] event on a narrative that is absent or blank: the
    handler completes and nothing is written, whatever the report. *)
Lemma final_without_stream_is_noop st report :
  (dom st !! "aiStreamContent" = None ∨
   ∃ e, dom st !! "aiStreamContent" = Some e ∧ blank (textContent e) = true) →
  displayResults report st = Done () st.
Proof.
  intros [Hnone|(e & He & Hblank)]; unfold displayResults, andThen, getElementById.
  - by rewrite Hnone.
  - by rewrite He, Hblank.
Qed.

(** C1, as the script has it.  A narrative starts in an empty container (or
    in the results container, where [handleAIStream] makes one); the
    fragments F1..Fn arrive in [ai_stream] events and a [final_result]
    follows.  When the fragments together are not blank and the report has
    no [ai_content], the container holds the rendering of the fragments put
    together in their order, and nothing else. *)
Theorem streamed_narrative_rendered (st : State) (fragments : list string)
    (report : JSValue) :
  freshNarrative st →
  blank (joined fragments) = false →
  truthy (getProp report "ai_content") = false →
  content <$> dom (deliver ((streamEvent <$> fragments) ++
                            [event "final_result" report]) st) !! "aiStreamContent"
  = Some [Markup (render (joined fragments))].
Proof.
  intros Hfresh Hblank Hai. rewrite deliver_app.
  assert (Hst : narrating (joined fragments) (deliver (streamEvent <$> fragments) st)).
  { destruct fragments as [|fragment fragments]; [done|].
    simpl. change (String.app fragment (joined fragments))
      with (fragment +:+ joined fragments).
    apply deliver_stream.
    destruct Hfresh as [Hst|Hnone].
    - by apply (stream_present "").
    - apply (stream_step ""). by right. }
  destruct Hst as (e & He & Hc & Hout).
  pose proof (narrating_textContent _ _ e He Hc) as Htext.
  simpl. rewrite (final_result_narrative _ e) by done.
  rewrite Htext, Hblank. simpl. f_equal.
  destruct Hc as [Hc|[_ Hempty]]; [|by rewrite Hempty in Hblank].
  by apply finalized_plain.
Qed.

(** C2, as the script has it.  After a [final_result] has rendered the
    narrative, a second [final_result] with the same report (one without
    [ai_content]) does not keep the rendering: it reads the text of the
    rendered narrative, after rewriting its titles, and renders that text
    again.  The narrative stays as it was only when that text is blank. *)
Theorem second_final_renders_again (st : State) (text : string)
    (report : JSValue) :
  narrating text st →
  blank text = false →
  truthy (getProp report "ai_content") = false →
  ∃ e1,
    dom (onmessage (event "final_result" report) st) !! "aiStreamContent" = Some e1 ∧
    content e1 = [Markup (render text)] ∧
    content <$> dom (deliver [event "final_result" report;
                              event "final_result" report] st) !! "aiStreamContent"
    = Some (if blank (textOf (render text)) then [Markup (render text)]
            else [Markup (render (textOf (retitled (heading e1) (render text))))]).
Proof.
  intros (e & He & Hc & Hout) Hblank Hai.
  pose proof (narrating_textContent _ _ e He Hc) as Htext.
  assert (Hfirst : content (finalized e) = [Markup (render text)]).
  { destruct Hc as [Hc|[_ Hempty]]; [|by rewrite Hempty in Hblank].
    by apply finalized_plain. }
  exists (finalized e). split; [|split; [done|]].
  { rewrite (final_result_narrative _ e) by done. by rewrite Htext, Hblank. }
  simpl. set (st1 := onmessage (event "final_result" report) st).
  assert (He1 : dom st1 !! "aiStreamContent" = Some (finalized e)).
  { unfold st1. rewrite (final_result_narrative _ e) by done.
    by rewrite Htext, Hblank. }
  rewrite (final_result_narrative _ (finalized e)); [|done| |done].
  2:{ intros f Hf. rewrite inside_finalized. by apply Hout. }
  assert (Htext1 : textContent (finalized e) = textOf (render text)).
  { unfold textContent. rewrite Hfirst. simpl. apply append_nil_r. }
  rewrite Htext1. destruct (blank (textOf (render text))).
  - cbn [fmap option_fmap option_map]. by rewrite Hfirst.
  - cbn [fmap option_fmap option_map]. f_equal.
    exact (finalized_markup (finalized e) (render text) Hfirst).
Qed.

End Narrative.

(** ** Trimmed texts and the codes of a batch *)

Section Codes.
Context {rt : Runtime}.




Lemma length_append (s t : string) :
  String.length (s +:+ t) = (String.length s + String.length t)%nat.
Proof.
  induction s as [|a s IH]; [done|].
  change (String a s +:+ t) with (String a (s +:+ t)). simpl. by rewrite IH.
Qed.

Lemma rev_app_app s t u :
  String.rev_app s (t +:+ u) = String.rev_app s t +:+ u.
Proof.
  revert t. induction s as [|a s IH]; intros t; simpl; [done|].
  by rewrite <- IH.
Qed.

Lemma rev_app_rev s t : String.rev_app s t = String.rev s +:+ t.
Proof. unfold String.rev. by rewrite <- rev_app_app. Qed.

Lemma rev_cons a s : String.rev (String a s) = String.rev s +:+ String a "".
Proof. unfold String.rev at 1. simpl. by rewrite rev_app_rev. Qed.

Lemma rev_app_distr s t : String.rev (s +:+ t) = String.rev t +:+ String.rev s.
Proof.
  induction s as [|a s IH].
  - simpl. by rewrite append_nil_r.
  - change (String a s +:+ t) with (String a (s +:+ t)).
    by rewrite !rev_cons, IH, append_assoc.
Qed.

Lemma rev_involutive s : String.rev (String.rev s) = s.
Proof.
  induction s as [|a s IH]; [done|].
  by rewrite rev_cons, rev_app_distr, IH.
Qed.

Lemma rev_length s : String.length (String.rev s) = String.length s.
Proof.
  induction s as [|a s IH]; [done|].
  rewrite rev_cons, length_append, IH. simpl. lia.
Qed.

Lemma dropPrefix_Some w s r : dropPrefix w s = Some r ↔ s = w +:+ r.
Proof.
  revert s. induction w as [|a w IH]; intros s; simpl.
  - split; [by intros [= ->]|by intros ->].
  - destruct s as [|b s]; [done|].
    change (String a w +:+ r) with (String a (w +:+ r)).
    destruct (Ascii.eqb a b) eqn:Hab.
    + apply Ascii.eqb_eq in Hab as ->. rewrite IH. split; [by intros ->|by intros [= ->]].
    + apply Ascii.eqb_neq in Hab. split; [done|]. intros [= <- _]. done.
Qed.

Lemma stripOne_Some codes s r :
  stripOne codes s = Some r → ∃ w, w ∈ codes ∧ s = w +:+ r.
Proof.
  induction codes as [|w codes IH]; simpl; [done|].
  destruct (dropPrefix w s) as [r'|] eqn:Hw.
  - intros [= ->]. exists w. split; [listed|]. by apply dropPrefix_Some.
  - intros (w' & Hin & Hs)%IH. exists w'. split; [|done].
    by apply list_elem_of_further.
Qed.

Lemma stripOne_starts codes w r :
  w ∈ codes → is_Some (stripOne codes (w +:+ r)).
Proof.
  induction codes as [|w' codes IH]; [by intros ?%elem_of_nil|]. simpl.
  intros Hin. destruct (dropPrefix w' (w +:+ r)) eqn:Hw'; [done|].
  apply elem_of_cons in Hin as [->|Hin]; [|by apply IH].
  assert (Hsome : dropPrefix w' (w' +:+ r) = Some r) by by apply dropPrefix_Some.
  congruence.
Qed.

Lemma dropPrefix_common w w' r r' :
  w +:+ r = w' +:+ r' → is_Some (dropPrefix w w') ∨ is_Some (dropPrefix w' w).
Proof.
  revert w'. induction w as [|a w IH]; intros w'; [by left|].
  destruct w' as [|b w']; [by right|].
  change (String a w +:+ r) with (String a (w +:+ r)).
  change (String b w' +:+ r') with (String b (w' +:+ r')). intros [= -> Hrest].
  simpl. rewrite Ascii.eqb_refl. by apply IH.
Qed.

Lemma stripOne_first codes w r :
  prefixFree codes → w ∈ codes → stripOne codes (w +:+ r) = Some r.
Proof.
  intros Hfree Hin.
  destruct (stripOne_starts codes w r Hin) as [r' Hr'].
  destruct (stripOne_Some _ _ _ Hr') as (w' & Hin' & Heq).
  assert (w = w') as <-.
  { destruct (dropPrefix_common _ _ _ _ Heq) as [Hp|Hp].
    - by apply (Hfree w w').
    - symmetry. by apply (Hfree w' w). }
  rewrite Hr'. f_equal. symmetry. by apply (inj (String.app w)).
Qed.

Lemma madeOf_app codes s t : madeOf codes s → madeOf codes t → madeOf codes (s +:+ t).
Proof.
  intros Hs Ht. induction Hs as [|w s Hw Hs IH]; [done|].
  rewrite append_assoc. by constructor.
Qed.

Lemma madeOf_one codes w : w ∈ codes → madeOf codes w.
Proof. intros Hw. rewrite <- (append_nil_r w). constructor; [done|constructor]. Qed.

Lemma madeOf_rev codes s :
  madeOf codes s → madeOf (String.rev <$> codes) (String.rev s).
Proof.
  intros Hs. induction Hs as [|w s Hw Hs IH]; [constructor|].
  rewrite rev_app_distr. apply madeOf_app; [done|].
  apply madeOf_one. apply list_elem_of_fmap. by exists w.
Qed.

Lemma madeOf_rev_inv codes s :
  madeOf (String.rev <$> codes) (String.rev s) → madeOf codes s.
Proof.
  intros Hs%madeOf_rev. rewrite rev_involutive in Hs.
  rewrite <- list_fmap_compose in Hs.
  assert (Hid : (String.rev ∘ String.rev) <$> codes = codes).
  { rewrite <- (list_fmap_id codes) at 2. apply list_fmap_ext.
    intros i w _. apply rev_involutive. }
  by rewrite Hid in Hs.
Qed.

(** What [stripAll] leaves: the text without a beginning made of codes, and
    no code at its beginning. *)
Lemma stripAll_spec codes fuel s :
  (∀ w, w ∈ codes → w ≠ "") → (String.length s ≤ fuel)%nat →
  ∃ p, madeOf codes p ∧ s = p +:+ stripAll fuel codes s ∧
       stripOne codes (stripAll fuel codes s) = None.
Proof.
  intros Hne. revert s. induction fuel as [|fuel IH]; intros s Hlen.
  - destruct s; [|simpl in Hlen; lia]. exists "". split; [constructor|].
    split; [done|]. simpl.
    destruct (stripOne codes "") as [r|] eqn:Hr; [|done].
    apply stripOne_Some in Hr as (w & Hw & Heq).
    destruct w; [by apply Hne in Hw|done].
  - simpl. destruct (stripOne codes s) as [r|] eqn:Hr.
    + destruct (stripOne_Some _ _ _ Hr) as (w & Hw & ->).
      destruct (IH r) as (p & Hp & Heq & Hnone).
      { rewrite length_append in Hlen. specialize (Hne w Hw).
        destruct w; [done|]. simpl in Hlen. lia. }
      exists (w +:+ p). split; [by constructor|]. split; [|done].
      rewrite append_assoc. by rewrite <- Heq.
    + exists "". split; [constructor|]. done.
Qed.

Lemma stripAll_fixed codes fuel s :
  stripOne codes s = None → stripAll fuel codes s = s.
Proof. intros Hs. destruct fuel; [done|]. simpl. by rewrite Hs. Qed.

Lemma stripAll_madeOf codes fuel s :
  prefixFree codes → madeOf codes s → (String.length s ≤ fuel)%nat →
  stripAll fuel codes s = "".
Proof.
  intros Hfree Hs. revert fuel. induction Hs as [|w s Hw Hs IH]; intros fuel Hlen.
  - destruct fuel; [done|]. simpl.
    destruct (stripOne codes "") as [r|] eqn:Hr; [|done].
    apply stripOne_Some in Hr as (w & Hw & Heq).
    destruct w; [|done]. by destruct (Hfree "" "" Hw Hw).
  - assert (Hne : w ≠ "") by (by destruct (Hfree w w Hw Hw)).
    rewrite length_append in Hlen.
    destruct fuel as [|fuel]; [destruct w; [done|simpl in Hlen; lia]|].
    simpl. rewrite stripOne_first by done. apply IH.
    destruct w; [done|]. simpl in Hlen. lia.
Qed.

Lemma whiteSpace_free : prefixFree whiteSpace.
Proof.
  intros w w' Hw Hw'.
  assert (Hall : Forall (λ w, Forall (λ w', w ≠ "" ∧ (is_Some (dropPrefix w w') → w = w'))
                                whiteSpace) whiteSpace).
  { apply (bool_decide_unpack _). vm_compute. exact I. }
  rewrite Forall_forall in Hall. specialize (Hall w Hw).
  rewrite Forall_forall in Hall. by apply Hall.
Qed.


Lemma reversed_free : prefixFree (String.rev <$> whiteSpace).
Proof.
  intros w w' Hw Hw'.
  assert (Hall : Forall (λ w, Forall (λ w', w ≠ "" ∧ (is_Some (dropPrefix w w') → w = w'))
                                (String.rev <$> whiteSpace))
                        (String.rev <$> whiteSpace)).
  { apply (bool_decide_unpack _). vm_compute. exact I. }
  rewrite Forall_forall in Hall. specialize (Hall w Hw).
  rewrite Forall_forall in Hall. by apply Hall.
Qed.

Lemma free_nonempty codes w : prefixFree codes → w ∈ codes → w ≠ "".
Proof. intros Hfree Hw. by destruct (Hfree w w Hw Hw). Qed.

Lemma trimStart_spec s :
  ∃ p, madeOf whiteSpace p ∧ s = p +:+ trimStart s ∧
       stripOne whiteSpace (trimStart s) = None.
Proof.
  apply stripAll_spec; [|done]. intros w. apply free_nonempty, whiteSpace_free.
Qed.

Lemma trimEnd_spec s :
  ∃ q, madeOf whiteSpace q ∧ s = trimEnd s +:+ q ∧
       stripOne (String.rev <$> whiteSpace) (String.rev (trimEnd s)) = None.
Proof.
  unfold trimEnd.
  destruct (stripAll_spec (String.rev <$> whiteSpace) (String.length s) (String.rev s))
    as (p & Hp & Heq & Hnone).
  { intros w. apply free_nonempty, reversed_free. }
  { by rewrite rev_length. }
  exists (String.rev p). split; [|split].
  - apply madeOf_rev_inv. by rewrite rev_involutive.
  - rewrite <- rev_app_distr, <- Heq. by rewrite rev_involutive.
  - by rewrite rev_involutive.
Qed.

Lemma trimStart_fixed s : stripOne whiteSpace s = None → trimStart s = s.
Proof. apply stripAll_fixed. Qed.

Lemma trimEnd_fixed s :
  stripOne (String.rev <$> whiteSpace) (String.rev s) = None → trimEnd s = s.
Proof.
  intros Hs. unfold trimEnd. rewrite stripAll_fixed by done. apply rev_involutive.
Qed.

Lemma stripOne_prefix codes s t :
  stripOne codes (s +:+ t) = None → stripOne codes s = None.
Proof.
  intros Hnone. destruct (stripOne codes s) as [r|] eqn:Hr; [|done].
  apply stripOne_Some in Hr as (w & Hw & ->).
  destruct (stripOne_starts codes w (r +:+ t) Hw) as [r' Hr'].
  rewrite append_assoc in Hnone. congruence.
Qed.

(** The trimmed text is a part of the text, with white space before and
    after it, and has none at either end. *)
Lemma trim_spec s :
  ∃ p q, madeOf whiteSpace p ∧ madeOf whiteSpace q ∧ s = p +:+ trim s +:+ q ∧
         stripOne whiteSpace (trim s) = None ∧
         stripOne (String.rev <$> whiteSpace) (String.rev (trim s)) = None.
Proof.
  destruct (trimStart_spec s) as (p & Hp & Hs & Hstart).
  destruct (trimEnd_spec (trimStart s)) as (q & Hq & Hr & Hend).
  exists p, q. split; [done|]. split; [done|]. unfold trim. split; [|split].
  - by rewrite <- Hr.
  - apply (stripOne_prefix _ _ q). by rewrite <- Hr.
  - done.
Qed.

Lemma trim_trim s : trim (trim s) = trim s.
Proof.
  destruct (trim_spec s) as (p & q & _ & _ & _ & Hstart & Hend).
  unfold trim at 1. rewrite trimStart_fixed by done. by apply trimEnd_fixed.
Qed.

Lemma trim_empty s : trim s = "" ↔ madeOf whiteSpace s.
Proof.
  split.
  - intros Hs. destruct (trim_spec s) as (p & q & Hp & Hq & Heq & _).
    rewrite Heq, Hs. simpl. by apply madeOf_app.
  - intros Hs. unfold trim, trimStart.
    rewrite (stripAll_madeOf _ _ _ whiteSpace_free Hs) by done. reflexivity.
Qed.

Lemma hasChar_app c s t : hasChar c (s +:+ t) = hasChar c s || hasChar c t.
Proof.
  induction s as [|a s IH]; [done|].
  change (String a s +:+ t) with (String a (s +:+ t)). simpl.
  by rewrite IH, orb_assoc.
Qed.

Lemma hasChar_trim c s : hasChar c s = false → hasChar c (trim s) = false.
Proof.
  destruct (trim_spec s) as (p & q & _ & _ & Heq & _). rewrite Heq at 1.
  rewrite !hasChar_app. intros [_ [Ht _]%orb_false_elim]%orb_false_elim. exact Ht.
Qed.

Lemma splitLines_cons s : ∃ line lines, splitLines s = line :: lines.
Proof.
  destruct s as [|a s]; [by eexists _, _|]. simpl.
  destruct (Nat.eqb _ _); [by eexists _, _|].
  destruct (splitLines s); by eexists _, _.
Qed.

Lemma splitLines_no_break s line :
  line ∈ splitLines s → hasChar lineBreak line = false.
Proof.
  revert line. induction s as [|a s IH]; intros line; simpl.
  - intros [->|[]%elem_of_nil]%elem_of_cons. done.
  - destruct (Nat.eqb (nat_of_ascii a) 10) eqn:Ha.
    + intros [->|Hin]%elem_of_cons; [done|by apply IH].
    + destruct (splitLines_cons s) as (l0 & ls & Hs). rewrite Hs in *.
      intros [->|Hin]%elem_of_cons.
      * simpl. rewrite (IH l0) by listed. rewrite orb_false_r.
        apply bool_decide_eq_false. intros ->. by vm_compute in Ha.
      * apply IH. by apply list_elem_of_further.
Qed.

Lemma joinLines_cons line next rest :
  joinLines (line :: next :: rest) =
  line +:+ String lineBreak (joinLines (next :: rest)).
Proof. reflexivity. Qed.

Lemma joinLines_split s : joinLines (splitLines s) = s.
Proof.
  induction s as [|a s IH]; [done|]. simpl.
  destruct (Nat.eqb (nat_of_ascii a) 10) eqn:Ha.
  - apply Nat.eqb_eq in Ha.
    assert (a = lineBreak) as ->.
    { rewrite <- (ascii_nat_embedding a), Ha. reflexivity. }
    destruct (splitLines_cons s) as (l0 & ls & Hs). rewrite Hs in *.
    rewrite joinLines_cons, IH. reflexivity.
  - destruct (splitLines_cons s) as (l0 & ls & Hs). rewrite Hs in *.
    destruct ls as [|l1 ls].
    + simpl in *. by rewrite IH.
    + rewrite joinLines_cons in *. rewrite <- IH. reflexivity.
Qed.

Lemma madeOf_joinLines lines :
  Forall (madeOf whiteSpace) lines → madeOf whiteSpace (joinLines lines).
Proof.
  induction 1 as [|line lines Hline Hlines IH]; [constructor|].
  destruct lines as [|l1 lines]; [done|].
  rewrite joinLines_cons. apply madeOf_app; [done|].
  apply (madeOf_cons _ (String lineBreak "")); [|done].
  unfold whiteSpace. vm_compute. listed.
Qed.

(** X17. A list text that is not blank holds at least one code: the third
    check of [analyzeBatchStocks] (an empty list of codes) cannot fail once
    the first one (a blank text) has passed. *)
Theorem nonblank_list_has_codes (text : string) :
  stockCodes text = [] ↔ trim text = "".
Proof.
  split.
  - intros Hnone. rewrite <- trim_trim. apply trim_empty.
    rewrite <- (joinLines_split (trim text)). apply madeOf_joinLines.
    apply Forall_forall. intros line Hline. apply trim_empty.
    destruct (decide (trim line = "")) as [|Hne]; [done|]. exfalso.
    assert (Hcode : trim line ∈ stockCodes text).
    { unfold stockCodes. apply list_elem_of_filter. split; [done|].
      apply list_elem_of_fmap. by exists line. }
    rewrite Hnone in Hcode. by apply elem_of_nil in Hcode.
  - intros Ht. unfold stockCodes. rewrite Ht. reflexivity.
Qed.

Lemma stripOne_None codes s w :
  stripOne codes s = None → w ∈ codes → dropPrefix w s = None.
Proof.
  induction codes as [|w' codes IH]; simpl; [by intros _ ?%elem_of_nil|].
  destruct (dropPrefix w' s) eqn:Hw'; [done|].
  intros Hnone [->|Hin]%elem_of_cons; [done|by apply IH].
Qed.

(** [s.trim()] is empty exactly when [s] is made of white space. *)
Lemma blank_madeOf (s : string) : blank s = true ↔ madeOf whiteSpace s.
Proof. unfold blank. rewrite String.eqb_eq. apply trim_empty. Qed.

(** X18. The codes of a batch: none is empty, none has a line break, and
    none has white space around it: [trim] leaves it as it is, and no
    character of [whiteSpace] starts or ends it. *)
Theorem stock_codes_are_trimmed (text code : string) :
  code ∈ stockCodes text →
  code ≠ "" ∧ trim code = code ∧ hasChar lineBreak code = false ∧
  ∀ w, w ∈ whiteSpace →
       dropPrefix w code = None ∧
       dropPrefix (String.rev w) (String.rev code) = None.
Proof.
  unfold stockCodes. intros [Hne Hin]%list_elem_of_filter.
  apply list_elem_of_fmap in Hin as (line & -> & Hline).
  split; [done|]. split; [apply trim_trim|]. split.
  { apply hasChar_trim. by apply (splitLines_no_break (trim text)). }
  destruct (trim_spec line) as (p & q & _ & _ & _ & Hstart & Hend).
  intros w Hw. split.
  - by apply (stripOne_None whiteSpace).
  - apply (stripOne_None (String.rev <$> whiteSpace)); [done|].
    apply list_elem_of_fmap. by exists w.
Qed.

End Codes.

(** ** What the handlers leave of the script's globals *)

Section Globals.
Context {rt : Runtime}.

Lemma withDom_same st : withDom (dom st) st = st.
Proof. by destruct st. Qed.

Lemma pageOnly_pure {A} (a : A) : pageOnly (pure a).
Proof. intros st. exists (dom st). simpl. by rewrite withDom_same. Qed.

Lemma pageOnly_throw {A} err : pageOnly (throw err : Handler A).
Proof. intros st. exists (dom st). simpl. by rewrite withDom_same. Qed.

Lemma pageOnly_andThen {A B} (m : Handler A) (k : A → Handler B) :
  pageOnly m → (∀ a, pageOnly (k a)) → pageOnly (andThen m k).
Proof.
  intros Hm Hk st. unfold andThen. destruct (Hm st) as [d Hd].
  destruct (m st) as [a st'|err st']; simpl in Hd; subst st'.
  - destruct (Hk a (withDom d st)) as [d' Hd']. exists d'. by rewrite Hd'.
  - by exists d.
Qed.

Lemma pageOnly_member v key : pageOnly (member v key).
Proof. unfold member. destruct (nullish v); [apply pageOnly_throw|apply pageOnly_pure]. Qed.

Lemma pageOnly_member_bind {B} v key (k : JSValue → Handler B) :
  pageOnly (k (getProp v key)) → pageOnly (andThen (member v key) k).
Proof.
  intros Hk st. unfold andThen, member. destruct (nullish v); simpl.
  - exists (dom st). by rewrite withDom_same.
  - apply Hk.
Qed.

Lemma pageOnly_toFixed digits v : pageOnly (toFixed digits v).
Proof. destruct v; first [apply pageOnly_throw|apply pageOnly_pure]. Qed.

Lemma pageOnly_parseMarkdown v : pageOnly (parseMarkdown v).
Proof.
  unfold parseMarkdown.
  destruct v; try destruct (renderOther _); first [apply pageOnly_throw|apply pageOnly_pure].
Qed.

Lemma pageOnly_when b m : pageOnly m → pageOnly (when b m).
Proof. intros Hm. destruct b; [done|apply pageOnly_pure]. Qed.

Lemma pageOnly_getElementById id : pageOnly (getElementById id).
Proof. intros st. exists (dom st). simpl. by rewrite withDom_same. Qed.

Lemma pageOnly_update id f : pageOnly (update id f).
Proof.
  intros st. unfold update. destruct (dom st !! id); simpl.
  - by eexists.
  - exists (dom st). by rewrite withDom_same.
Qed.

Lemma pageOnly_setChildren id children declared :
  pageOnly (setChildren id children declared).
Proof.
  intros st. unfold setChildren. destruct (dom st !! id); simpl.
  - by eexists.
  - exists (dom st). by rewrite withDom_same.
Qed.

Lemma pageOnly_insertAdjacentHTML id h declared :
  pageOnly (insertAdjacentHTML id h declared).
Proof.
  intros st. unfold insertAdjacentHTML. destruct (dom st !! id); simpl.
  - by eexists.
  - exists (dom st). by rewrite withDom_same.
Qed.

Lemma pageOnly_addLog message type : pageOnly (addLog message type).
Proof.
  intros st. unfold addLog. destruct (dom st !! "logDisplay"); simpl.
  - by eexists.
  - exists (dom st). by rewrite withDom_same.
Qed.

Lemma pageOnly_setFillWidth id w : pageOnly (setFillWidth id w).
Proof.
  intros st. unfold setFillWidth.
  destruct (dom st !! id) as [e|]; [destruct (fill e)|]; simpl.
  - by eexists.
  - exists (dom st). by rewrite withDom_same.
  - exists (dom st). by rewrite withDom_same.
Qed.

Lemma pageOnly_setText id text : pageOnly (setText id text).
Proof. apply pageOnly_setChildren. Qed.

Lemma pageOnly_setInnerHTML id h declared : pageOnly (setInnerHTML id h declared).
Proof. apply pageOnly_setChildren. Qed.

Ltac page_only :=
  repeat first
    [ apply pageOnly_pure
    | apply pageOnly_throw
    | apply pageOnly_member
    | apply pageOnly_toFixed
    | apply pageOnly_parseMarkdown
    | apply pageOnly_getElementById
    | apply pageOnly_update
    | apply pageOnly_setChildren
    | apply pageOnly_setText
    | apply pageOnly_setInnerHTML
    | apply pageOnly_insertAdjacentHTML
    | apply pageOnly_addLog
    | apply pageOnly_setFillWidth
    | apply pageOnly_when
    | apply pageOnly_andThen; [|intros ?]
    | case_match ].

Lemma pageOnly_showProgress id show : pageOnly (showProgress id show).
Proof. unfold showProgress. page_only. Qed.

Lemma pageOnly_updateDataQuality data : pageOnly (updateDataQuality data).
Proof.
  unfold updateDataQuality. page_only.
Qed.

Lemma pageOnly_handleAIStream data : pageOnly (handleAIStream data).
Proof. unfold handleAIStream. page_only. Qed.

Lemma pageOnly_updateNonAIContent report : pageOnly (updateNonAIContent report).
Proof. unfold updateNonAIContent. page_only. Qed.

Lemma pageOnly_displayResults report : pageOnly (displayResults report).
Proof.
  unfold displayResults. page_only.
Qed.

Lemma pageOnly_showBatchSlot eventData : pageOnly (showBatchSlot eventData).
Proof. unfold showBatchSlot. page_only. Qed.

Lemma pageOnly_setPromptContent elementId prompt :
  pageOnly (setPromptContent elementId prompt).
Proof. unfold setPromptContent. page_only. Qed.

Lemma pageOnly_displayPartialResults data : pageOnly (displayPartialResults data).
Proof.
  unfold displayPartialResults. page_only.
Qed.


Lemma pageOnly_globals {A} (m : Handler A) st :
  pageOnly m →
  isAnalyzing (finalState (m st)) = isAnalyzing st ∧
  outbox (finalState (m st)) = outbox st ∧
  sseConnection (finalState (m st)) = sseConnection st ∧
  currentClientId (finalState (m st)) = currentClientId st ∧
  timers (finalState (m st)) = timers st.
Proof. intros Hm. destruct (Hm st) as [d ->]. done. Qed.

Lemma pageOnly_router data :
  endsJob (kindOf (getProp data "event")) = false →
  pageOnly (handleSSEMessage data).
Proof.
  intros Hkind. unfold handleSSEMessage.
  apply pageOnly_member_bind, pageOnly_member_bind.
  destruct (kindOf (getProp data "event")); try discriminate Hkind.
  all: first [ apply pageOnly_updateDataQuality
             | apply pageOnly_displayPartialResults
             | apply pageOnly_displayResults
             | apply pageOnly_showBatchSlot
             | apply pageOnly_handleAIStream
             | page_only ].
  all: apply pageOnly_setPromptContent.
Qed.

Lemma viewOnly_ends_job {A} (m : Handler A) :
  pageOnly m →
  viewOnly (andThen (λ st, Done () (withAnalyzing false st)) (λ _, m)).
Proof.
  intros Hm st. unfold andThen. destruct (Hm (withAnalyzing false st)) as [d ->].
  by exists d, false.
Qed.

Lemma pageOnly_viewOnly {A} (m : Handler A) : pageOnly m → viewOnly m.
Proof.
  intros Hm st. destruct (Hm st) as [d ->]. exists d, (isAnalyzing st).
  by destruct st.
Qed.

Lemma viewOnly_member_bind {B} v key (k : JSValue → Handler B) :
  viewOnly (k (getProp v key)) → viewOnly (andThen (member v key) k).
Proof.
  intros Hk st. unfold andThen, member. destruct (nullish v); simpl.
  - exists (dom st), (isAnalyzing st). by destruct st.
  - apply Hk.
Qed.

Lemma pageOnly_complete_rest :
  pageOnly (update "analyzeBtn" (withDisabled false) ;;
            update "batchAnalyzeBtn" (withDisabled false) ;;
            update "systemStatus" (withClassList ["status-indicator"; "status-ready"]) ;;
            setText "systemStatus" "系统就绪" ;;
            showProgress "singleProgress" false ;;
            showProgress "batchProgress" false ;;
            update "currentStock" (withStyle "display" "none") ;;
            addLog "✅ 分析完成" "success").
Proof. page_only; apply pageOnly_showProgress. Qed.

Lemma pageOnly_error_rest data :
  pageOnly (update "analyzeBtn" (withDisabled false) ;;
            update "batchAnalyzeBtn" (withDisabled false) ;;
            update "systemStatus" (withClassList ["status-indicator"; "status-error"]) ;;
            setText "systemStatus" "分析失败" ;;
            showProgress "singleProgress" false ;;
            showProgress "batchProgress" false ;;
            update "currentStock" (withStyle "display" "none") ;;
            let! error := member data "error" in
            setInnerHTML "resultsContent"
                         (errorPanel (toStr (orElse error (VStr "未知错误")))) [] ;;
            addLog ("❌ 分析失败: " +:+ toStr error) "error").
Proof. page_only; apply pageOnly_showProgress. Qed.

Lemma ends_job_complete data st :
  isAnalyzing (finalState (onAnalysisComplete data st)) = false.
Proof.
  unfold onAnalysisComplete, andThen at 1.
  by rewrite (proj1 (pageOnly_globals _ _ pageOnly_complete_rest)).
Qed.

Lemma ends_job_error data st :
  isAnalyzing (finalState (onAnalysisError data st)) = false.
Proof.
  unfold onAnalysisError, andThen at 1.
  by rewrite (proj1 (pageOnly_globals _ _ (pageOnly_error_rest data))).
Qed.

Lemma viewOnly_router data : viewOnly (handleSSEMessage data).
Proof.
  destruct (endsJob (kindOf (getProp data "event"))) eqn:Hkind.
  2:{ by apply pageOnly_viewOnly, pageOnly_router. }
  unfold handleSSEMessage. apply viewOnly_member_bind, viewOnly_member_bind.
  destruct (kindOf (getProp data "event")); try discriminate Hkind.
  - apply (viewOnly_ends_job _ pageOnly_complete_rest).
  - apply (viewOnly_ends_job _ (pageOnly_error_rest _)).
Qed.

(** X11. Handling a pushed event never sends a request and never touches
    the channel, its client id or its timers, whatever the event and the
    page, and whether the handler completes or throws. *)
Theorem events_never_send (data : JSValue) (st : State) :
  outbox (onmessage data st) = outbox st ∧
  sseConnection (onmessage data st) = sseConnection st ∧
  currentClientId (onmessage data st) = currentClientId st ∧
  timers (onmessage data st) = timers st.
Proof.
  unfold onmessage. destruct (viewOnly_router data st) as (d & b & ->). done.
Qed.

(** X12. An [analysis_complete] and an [analysis_error] event always end the
    job: [isAnalyzing] is false afterwards, on every page and for every
    payload, even when the handler throws at a missing element. *)
Theorem lifecycle_events_free_the_flag (payload : JSValue) (st : State) :
  isAnalyzing (onmessage (event "analysis_complete" payload) st) = false ∧
  isAnalyzing (onmessage (event "analysis_error" payload) st) = false.
Proof.
  split.
  - apply ends_job_complete.
  - apply ends_job_error.
Qed.

(** X13. No other event ends the job: an event whose kind is neither
    [analysis_complete] nor [analysis_error] (a [final_result] among them)
    leaves [isAnalyzing] as it was. *)
Theorem other_events_keep_the_flag (data : JSValue) (st : State) :
  endsJob (kindOf (getProp data "event")) = false →
  isAnalyzing (onmessage data st) = isAnalyzing st.
Proof.
  intros Hkind. unfold onmessage.
  apply pageOnly_globals. by apply pageOnly_router.
Qed.

(** X15. When a submission request settles: an answer that acknowledges the
    job changes nothing; every other settlement (a network failure, an HTTP
    error status, an answer without [success], an answer that is [null])
    ends with [isAnalyzing] false. *)
Theorem failed_settlement_frees_the_flag (fallback : string) (s : Settlement)
    (st : State) :
  match s with
  | Answer result =>
      if negb (nullish result) && truthy (getProp result "success")
      then settled fallback s st = Done () st
      else isAnalyzing (finalState (settled fallback s st)) = false
  | _ => isAnalyzing (finalState (settled fallback s st)) = false
  end.
Proof.
  destruct s as [message|status statusText|result]; simpl.
  - apply ends_job_error.
  - apply ends_job_error.
  - unfold tryCatch, andThen, member.
    destruct (nullish result); simpl; [apply ends_job_error|].
    destruct (truthy (getProp result "success")); [done|].
    apply ends_job_error.
Qed.

End Globals.

(** ** Elements that stay apart *)

Section Apart.
Context {rt : Runtime}.

Lemma apart_insert W K (d : gmap string Element) id e e' :
  apart W K d → d !! id = Some e → inside e' = inside e →
  apart W K (<[id := e']> d).
Proof.
  intros Hap He Hin k Hk. destruct (Hap k Hk) as (ek & Hek & Hout).
  destruct (decide (k = id)) as [->|Hne].
  - exists e'. rewrite lookup_insert_eq. split; [done|].
    rewrite Hin. rewrite He in Hek. by injection Hek as ->.
  - exists ek. by rewrite lookup_insert_ne.
Qed.

Lemma update_apart W K id f st e :
  apart W K (dom st) → dom st !! id = Some e → inside (f e) = inside e →
  ∃ d, update id f st = Done () (withDom d st) ∧ apart W K d ∧
       d !! id = Some (f e) ∧ ∀ k, k ≠ id → d !! k = dom st !! k.
Proof.
  intros Hap He Hin. rewrite (update_Done _ _ e) by done.
  eexists. split; [done|]. split; [|split].
  - by apply (apart_insert _ _ _ _ e).
  - apply lookup_insert_eq.
  - intros k Hk. by rewrite lookup_insert_ne.
Qed.

Lemma addLog_apart W K message type st l :
  apart W K (dom st) → dom st !! "logDisplay" = Some l →
  ∃ d, addLog message type st = Done () (withDom d st) ∧ apart W K d ∧
       d !! "logDisplay" = Some (withContent (content l ++ [LogEntry type message]) l) ∧
       ∀ k, k ≠ "logDisplay" → d !! k = dom st !! k.
Proof.
  intros Hap Hl. rewrite (addLog_appended _ _ l) by done.
  eexists. split; [done|]. split; [|split].
  - by apply (apart_insert _ _ _ _ l).
  - apply lookup_insert_eq.
  - intros k Hk. by rewrite lookup_insert_ne.
Qed.

Lemma setFillWidth_apart W K id w st e w0 :
  apart W K (dom st) → dom st !! id = Some e → fill e = Some w0 →
  ∃ d, setFillWidth id w st = Done () (withDom d st) ∧ apart W K d ∧
       d !! id = Some (setWidth w e) ∧ ∀ k, k ≠ id → d !! k = dom st !! k.
Proof.
  intros Hap He Hw. rewrite (setFillWidth_Done _ _ e w0) by done.
  eexists. split; [done|]. split; [|split].
  - apply (apart_insert _ _ _ _ e); [done..|]. apply inside_setWidth.
  - apply lookup_insert_eq.
  - intros k Hk. by rewrite lookup_insert_ne.
Qed.

Lemma setChildren_apart W K id children declared st e :
  apart W K (dom st) → id ∈ W → dom st !! id = Some e →
  (∀ k, k ∈ id :: K → k ∉ declared.*1) →
  ∃ d, setChildren id children declared st = Done () (withDom d st) ∧
       apart W K d ∧
       d !! id = Some (withContent (children e) e) ∧
       ∀ k, k ∈ K → k ≠ id → d !! k = dom st !! k.
Proof.
  intros Hap Hid He Hdecl. rewrite (setChildren_Done _ _ _ e) by done.
  eexists. split; [done|].
  assert (Hkept : ∀ k, k ∈ K → k ≠ id →
    declare id e declared (<[id:=withContent (children e) e]> (detach id (dom st))) !! k
    = dom st !! k).
  { intros k Hk Hne. destruct (Hap k Hk) as (ek & Hek & Hout).
    rewrite lookup_declare_ne by (apply Hdecl; by apply list_elem_of_further).
    rewrite lookup_insert_ne by done. rewrite Hek.
    apply lookup_detach; [done|by apply Hout]. }
  assert (Hat : declare id e declared
      (<[id:=withContent (children e) e]> (detach id (dom st))) !! id
    = Some (withContent (children e) e)).
  { rewrite lookup_declare_ne by (apply Hdecl; listed). apply lookup_insert_eq. }
  split; [|split; [done|done]].
  intros k Hk. destruct (Hap k Hk) as (ek & Hek & Hout).
  destruct (decide (k = id)) as [->|Hne].
  - eexists. split; [exact Hat|]. simpl.
    rewrite He in Hek. by injection Hek as ->.
  - exists ek. by rewrite Hkept.
Qed.

Lemma setText_apart W K id text st e :
  apart W K (dom st) → id ∈ W → dom st !! id = Some e →
  ∃ d, setText id text st = Done () (withDom d st) ∧
       apart W K d ∧
       d !! id = Some (withContent [TextNode text] e) ∧
       ∀ k, k ∈ K → k ≠ id → d !! k = dom st !! k.
Proof.
  intros Hap Hid He.
  apply (setChildren_apart W K id (λ _, [TextNode text]) [] st e); [done..|].
  intros k _. apply not_elem_of_nil.
Qed.

Lemma showProgress_apart W K id show st e w0 :
  apart W K (dom st) → dom st !! id = Some e → fill e = Some w0 →
  ∃ d, showProgress id show st = Done () (withDom d st) ∧ apart W K d ∧
       d !! id = Some ((if show then λ e', e' else withFill (Some "0%"))
                         (withStyle "display" (if show then "block" else "none") e)) ∧
       ∀ k, k ≠ id → d !! k = dom st !! k.
Proof.
  intros Hap He Hw. unfold showProgress.
  destruct (update_apart W K id (withStyle "display" (if show then "block" else "none"))
              st e Hap He eq_refl) as (d1 & Hrun1 & Hap1 & Hat1 & Hsame1).
  rewrite (andThen_Done _ _ _ _ _ Hrun1). destruct show; simpl.
  - exists d1. split; [done|]. split; [done|]. split; [done|]. exact Hsame1.
  - destruct (setFillWidth_apart W K id "0%" (withDom d1 st) _ w0 Hap1 Hat1 Hw)
      as (d2 & Hrun2 & Hap2 & Hat2 & Hsame2).
    rewrite Hrun2. exists d2. split; [done|]. split; [done|].
    split; [by rewrite Hat2, setWidth_zero|].
    intros k Hk. rewrite Hsame2 by done. by apply Hsame1.
Qed.

Lemma keeps_addLog k e message type :
  k ≠ "logDisplay" → keeps (holds k e) (addLog message type).
Proof.
  intros Hne st Hk. unfold addLog, holds in *.
  destruct (dom st !! "logDisplay"); simpl; [|done]. by rewrite lookup_insert_ne.
Qed.

Lemma keeps_setFillWidth k e id w :
  k ≠ id → keeps (holds k e) (setFillWidth id w).
Proof.
  intros Hne st Hk. unfold setFillWidth, holds in *.
  destruct (dom st !! id) as [e'|]; [destruct (fill e')|]; simpl; [|done..].
  by rewrite lookup_insert_ne.
Qed.

Lemma keeps_showProgress k e id show :
  k ≠ id → keeps (holds k e) (showProgress id show).
Proof.
  intros Hne. unfold showProgress.
  apply keeps_andThen; [by apply keeps_update|intros _].
  apply keeps_when. by apply keeps_setFillWidth.
Qed.

Lemma keeps_flag k e b :
  keeps (holds k e) (λ st, Done () (withAnalyzing b st)).
Proof. by intros st Hk. Qed.

End Apart.

(** ** The reset of the batch view *)

Section Reset.
Context {rt : Runtime}.





End Reset.

(** ** The end of a job *)

Section Completion.
Context {rt : Runtime}.

Lemma controls_apart st :
  controlsPresent st →
  apart ["systemStatus"]
        ["analyzeBtn"; "batchAnalyzeBtn"; "singleProgress"; "batchProgress";
         "currentStock"; "logDisplay"] (dom st).
Proof.
  intros (Hpresent & _ & _) k Hk.
  destruct (Hpresent k) as (e & He & Hs & Hr).
  { repeat (apply elem_of_cons in Hk as [->|Hk]; [listed|]).
    by apply elem_of_nil in Hk. }
  exists e. split; [done|].
  intros w [->|Hw%elem_of_nil]%elem_of_cons; done.
Qed.

(** X14. An [analysis_complete] event on a page that has the controls: the
    handler completes, the job is over, both submit buttons are enabled and
    the status reads ready; the results container and every element inside
    it (the narrative, the display fields) are left as they are. *)
Theorem completion_keeps_results (st : State) (data : JSValue) :
  controlsPresent st →
  ∃ st' analyze batch status,
    onAnalysisComplete data st = Done () st' ∧
    isAnalyzing st' = false ∧
    dom st' !! "analyzeBtn" = Some analyze ∧ disabled analyze = false ∧
    dom st' !! "batchAnalyzeBtn" = Some batch ∧ disabled batch = false ∧
    dom st' !! "systemStatus" = Some status ∧
    content status = [TextNode "系统就绪"] ∧
    classList status = ["status-indicator"; "status-ready"] ∧
    dom st' !! "resultsContent" = dom st !! "resultsContent" ∧
    ∀ id e, dom st !! id = Some e → "resultsContent" ∈ inside e →
            id ≠ "systemStatus" → "systemStatus" ∉ inside e →
            dom st' !! id = Some e.
Proof.
  intros Hst. pose proof (controls_apart st Hst) as Hap.
  destruct Hst as (Hpresent & [s Hs] & Hfill).
  destruct (Hpresent "analyzeBtn") as (b1 & Hb1 & _ & Hb1r); [listed|].
  destruct (Hpresent "batchAnalyzeBtn") as (b2 & Hb2 & _ & Hb2r); [listed|].
  destruct (Hpresent "singleProgress") as (p1 & Hp1 & _ & Hp1r); [listed|].
  destruct (Hpresent "batchProgress") as (p2 & Hp2 & _ & Hp2r); [listed|].
  destruct (Hpresent "currentStock") as (cs & Hcs & _ & Hcsr); [listed|].
  destruct (Hpresent "resultsContent") as (r & Hr & Hrs & _); [listed|].
  destruct (Hpresent "logDisplay") as (l & Hl & _ & Hlr); [listed|].
  destruct (Hfill "singleProgress" p1) as [w1 Hw1]; [listed|done|].
  destruct (Hfill "batchProgress" p2) as [w2 Hw2]; [listed|done|].
  assert (Hframe : ∀ id e, dom st !! id = Some e →
    id ∉ ["analyzeBtn"; "batchAnalyzeBtn"; "singleProgress"; "batchProgress";
          "currentStock"; "logDisplay"; "systemStatus"] →
    "systemStatus" ∉ inside e →
    dom (finalState (onAnalysisComplete data st)) !! id = Some e).
  { intros id e He Hid Hout.
    enough (Hk : keeps (holds id e) (onAnalysisComplete data)) by exact (Hk st He).
    assert (Hne : ∀ c, c ∈ ["analyzeBtn"; "batchAnalyzeBtn"; "singleProgress";
                            "batchProgress"; "currentStock"; "logDisplay";
                            "systemStatus"] → id ≠ c).
    { intros c Hc ->. done. }
    unfold onAnalysisComplete.
    repeat first
      [ apply keeps_flag
      | apply keeps_showProgress; apply Hne; listed
      | apply keeps_andThen; [|intros ?]
      | apply keeps_update; apply Hne; listed
      | apply keeps_addLog; apply Hne; listed
      | apply keeps_setText; [apply Hne; listed|exact Hout] ]. }
  revert Hframe. unfold onAnalysisComplete.
  erewrite andThen_Done by reflexivity.
  set (st0 := withAnalyzing false st).
  destruct (update_apart _ _ "analyzeBtn" (withDisabled false) st0 b1 Hap Hb1 eq_refl)
    as (d1 & Hrun1 & Hap1 & Hat1 & Hsame1).
  rewrite (andThen_Done _ _ _ _ _ Hrun1).
  destruct (update_apart _ _ "batchAnalyzeBtn" (withDisabled false) (withDom d1 st0) b2 Hap1)
    as (d2 & Hrun2 & Hap2 & Hat2 & Hsame2); [by rewrite <- Hb2; apply Hsame1|done|].
  rewrite (andThen_Done _ _ _ _ _ Hrun2).
  destruct (update_apart _ _ "systemStatus"
              (withClassList ["status-indicator"; "status-ready"])
              (withDom d2 (withDom d1 st0)) s Hap2)
    as (d3 & Hrun3 & Hap3 & Hat3 & Hsame3).
  { simpl. rewrite Hsame2, Hsame1 by done. exact Hs. }
  { done. }
  rewrite (andThen_Done _ _ _ _ _ Hrun3).
  destruct (setText_apart _ _ "systemStatus" "系统就绪"
              (withDom d3 (withDom d2 (withDom d1 st0)))
              (withClassList ["status-indicator"; "status-ready"] s) Hap3)
    as (d4 & Hrun4 & Hap4 & Hat4 & Hsame4); [listed|exact Hat3|].
  rewrite (andThen_Done _ _ _ _ _ Hrun4).
  destruct (showProgress_apart _ _ "singleProgress" false
              (withDom d4 (withDom d3 (withDom d2 (withDom d1 st0)))) p1 w1 Hap4)
    as (d5 & Hrun5 & Hap5 & Hat5 & Hsame5).
  { simpl. rewrite Hsame4 by (listed || done).
    rewrite Hsame3, Hsame2, Hsame1 by done. exact Hp1. }
  { done. }
  rewrite (andThen_Done _ _ _ _ _ Hrun5).
  destruct (showProgress_apart _ _ "batchProgress" false
              (withDom d5 (withDom d4 (withDom d3 (withDom d2 (withDom d1 st0))))) p2 w2 Hap5)
    as (d6 & Hrun6 & Hap6 & Hat6 & Hsame6).
  { simpl. rewrite Hsame5 by done. rewrite Hsame4 by (listed || done).
    rewrite Hsame3, Hsame2, Hsame1 by done. exact Hp2. }
  { done. }
  rewrite (andThen_Done _ _ _ _ _ Hrun6).
  destruct (update_apart _ _ "currentStock" (withStyle "display" "none")
              (withDom d6 (withDom d5 (withDom d4 (withDom d3 (withDom d2 (withDom d1 st0))))))
              cs Hap6)
    as (d7 & Hrun7 & Hap7 & Hat7 & Hsame7).
  { simpl. rewrite Hsame6, Hsame5 by done. rewrite Hsame4 by (listed || done).
    rewrite Hsame3, Hsame2, Hsame1 by done. exact Hcs. }
  { done. }
  rewrite (andThen_Done _ _ _ _ _ Hrun7).
  destruct (addLog_apart _ _ "✅ 分析完成" "success"
              (withDom d7 (withDom d6 (withDom d5 (withDom d4 (withDom d3
                 (withDom d2 (withDom d1 st0))))))) l Hap7)
    as (d8 & Hrun8 & Hap8 & Hat8 & Hsame8).
  { simpl. rewrite Hsame7, Hsame6, Hsame5 by done. rewrite Hsame4 by (listed || done).
    rewrite Hsame3, Hsame2, Hsame1 by done. exact Hl. }
  rewrite Hrun8. intros Hframe. simpl in Hframe.
  exists (withDom d8 (withDom d7 (withDom d6 (withDom d5 (withDom d4 (withDom d3
                 (withDom d2 (withDom d1 st0)))))))),
    (withDisabled false b1), (withDisabled false b2),
    (withContent [TextNode "系统就绪"]
       (withClassList ["status-indicator"; "status-ready"] s)).
  split; [done|]. simpl. split; [done|]. split.
  { rewrite Hsame8, Hsame7, Hsame6, Hsame5 by done. rewrite Hsame4 by (listed || done).
    rewrite Hsame3, Hsame2 by done. exact Hat1. }
  split; [done|]. split.
  { rewrite Hsame8, Hsame7, Hsame6, Hsame5 by done. rewrite Hsame4 by (listed || done).
    rewrite Hsame3 by done. exact Hat2. }
  split; [done|]. split.
  { rewrite Hsame8, Hsame7, Hsame6, Hsame5 by done. exact Hat4. }
  split; [done|]. split; [done|]. split.
  { rewrite Hr. apply Hframe; [done| |done].
    intros Hin. repeat (apply elem_of_cons in Hin as [Hin|Hin]; [done|]).
    by apply elem_of_nil in Hin. }
  intros id e He Hin Hid Hout. apply Hframe; [done| |done].
  intros Hc.
  apply elem_of_cons in Hc as [->|Hc]; [rewrite Hb1 in He; by injection He as <-|].
  apply elem_of_cons in Hc as [->|Hc]; [rewrite Hb2 in He; by injection He as <-|].
  apply elem_of_cons in Hc as [->|Hc]; [rewrite Hp1 in He; by injection He as <-|].
  apply elem_of_cons in Hc as [->|Hc]; [rewrite Hp2 in He; by injection He as <-|].
  apply elem_of_cons in Hc as [->|Hc]; [rewrite Hcs in He; by injection He as <-|].
  apply elem_of_cons in Hc as [->|Hc]; [rewrite Hl in He; by injection He as <-|].
  apply elem_of_cons in Hc as [->|Hc]; [done|].
  by apply elem_of_nil in Hc.
Qed.

End Completion.

(** ** An accepted submission *)

Section Accepted.
Context {rt : Runtime}.

Lemma startSingle_submits st code percent price :
  submitControls st → isAnalyzing st = false →
  ∃ st' button streaming,
    startSingle code percent price st = Done () st' ∧
    isAnalyzing st' = true ∧
    dom st' !! "analyzeBtn" = Some button ∧ disabled button = true ∧
    dom st !! "enableStreaming" = Some streaming ∧
    outbox st' = outbox st ++
                 [GetAsset "/static/html/result_content.html";
                  PostSingle code percent price (checked streaming) (currentClientId st)].
Proof.
  intros (Hap & [s Hs]) Hidle.
  destruct (Hap "analyzeBtn") as (b & Hb & _); [listed|].
  destruct (Hap "logDisplay") as (l & Hl & _); [listed|].
  destruct (Hap "singleProgress") as (p & Hp & _); [listed|].
  destruct (Hap "enableStreaming") as (c & Hc & _); [listed|].
  unfold startSingle. rewrite Hidle.
  erewrite andThen_Done by reflexivity.
  set (st0 := withAnalyzing true st).
  destruct (update_apart _ _ "analyzeBtn" (withDisabled true) st0 b Hap Hb eq_refl)
    as (d1 & Hrun1 & Hap1 & Hat1 & Hsame1).
  rewrite (andThen_Done _ _ _ _ _ Hrun1).
  destruct (update_apart _ _ "systemStatus"
              (withClassList ["status-indicator"; "status-analyzing"])
              (withDom d1 st0) s Hap1)
    as (d2 & Hrun2 & Hap2 & Hat2 & Hsame2).
  { simpl. rewrite Hsame1 by done. exact Hs. }
  { done. }
  rewrite (andThen_Done _ _ _ _ _ Hrun2).
  destruct (setText_apart _ _ "systemStatus" "分析中"
              (withDom d2 (withDom d1 st0))
              (withClassList ["status-indicator"; "status-analyzing"] s) Hap2)
    as (d3 & Hrun3 & Hap3 & Hat3 & Hsame3); [listed|exact Hat2|].
  rewrite (andThen_Done _ _ _ _ _ Hrun3).
  destruct (addLog_apart _ _ ("🚀 开始流式分析股票: " +:+ code) "header"
              (withDom d3 (withDom d2 (withDom d1 st0))) l Hap3)
    as (d4 & Hrun4 & Hap4 & Hat4 & Hsame4).
  { simpl. rewrite Hsame3 by (listed || done). rewrite Hsame2, Hsame1 by done.
    exact Hl. }
  rewrite (andThen_Done _ _ _ _ _ Hrun4).
  unfold showLoading. erewrite andThen_Done by reflexivity.
  set (st5 := withOutbox _ _).
  assert (Hap5 : apart ["systemStatus"]
            ["analyzeBtn"; "logDisplay"; "singleProgress"; "enableStreaming"] (dom st5))
    by exact Hap4.
  destruct (update_apart _ _ "singleProgress" (withStyle "display" "block") st5 p Hap5)
    as (d6 & Hrun6 & Hap6 & Hat6 & Hsame6).
  { simpl. rewrite Hsame4 by done. rewrite Hsame3 by (listed || done).
    rewrite Hsame2, Hsame1 by done. exact Hp. }
  { done. }
  erewrite andThen_Done.
  2:{ unfold showProgress. rewrite (andThen_Done _ _ _ _ _ Hrun6). reflexivity. }
  unfold tryCatch, andThen, inputChecked. cbn [dom withDom].
  assert (Hc6 : d6 !! "enableStreaming" = Some c).
  { rewrite Hsame6 by done. simpl. rewrite Hsame4 by done.
    rewrite Hsame3 by (listed || done). rewrite Hsame2, Hsame1 by done. exact Hc. }
  rewrite Hc6. unfold fetch.
  eexists _, (withDisabled true b), c. split; [reflexivity|]. simpl.
  split; [done|]. split.
  { rewrite Hsame6 by done. simpl. rewrite Hsame4 by done.
    rewrite Hsame3 by (listed || done). rewrite Hsame2 by done. exact Hat1. }
  split; [done|]. split; [done|]. by rewrite <- app_assoc.
Qed.

(** X16. A submission of one job that passes the checks while no analysis is
    in flight, on a page that has the controls: the handler completes, the
    job is in flight, the submit button is disabled, and two requests have
    left, the one for the results skeleton and one POST.  The POST carries
    the trimmed stock code and, when the position input is empty, zero or
    not a number, the position 0 and the average price -1 in the place of
    the inputs. *)
Theorem accepted_submission_posts_once (st : State) (c p a : Element) :
  submitControls st →
  isAnalyzing st = false →
  dom st !! "stockCode" = Some c →
  dom st !! "positionPercent" = Some p →
  dom st !! "avgPrice" = Some a →
  passesChecks (value c) (value p) (value a) = true →
  ∃ st' button streaming,
    analyzeSingleStock st = Done () st' ∧
    isAnalyzing st' = true ∧
    dom st' !! "analyzeBtn" = Some button ∧ disabled button = true ∧
    dom st !! "enableStreaming" = Some streaming ∧
    outbox st' = outbox st ++
                 [GetAsset "/static/html/result_content.html";
                  singleRequest (value c) (value p) (value a) (checked streaming)
                                (currentClientId st)].
Proof.
  intros Hst Hidle Hc Hp Ha Hpass.
  unfold analyzeSingleStock, andThen at 1 2 3, inputValue. rewrite Hc, Hp, Ha.
  unfold passesChecks in Hpass. unfold singleRequest.
  apply andb_true_iff in Hpass as [Hcode Hrest].
  apply negb_true_iff in Hcode. rewrite Hcode.
  destruct (numTruthy (parseFloat (value p))) eqn:Hpercent; cbn [negb].
  - simpl in Hrest.
    assert (positiveNum (parseFloat (value p))
            && negb (numTruthy (parseFloat (value a))) = false) as ->.
    { destruct (positiveNum _); [|done]. simpl in Hrest. by rewrite Hrest. }
    by apply startSingle_submits.
  - destruct Hst as (Hap & Hs).
    destruct (Hap "logDisplay") as (l & Hl & _); [listed|].
    destruct (addLog_apart _ _ "默认未买入" "info" st l Hap Hl)
      as (d1 & Hrun1 & Hap1 & Hat1 & Hsame1).
    rewrite (andThen_Done _ _ _ _ _ Hrun1).
    destruct (startSingle_submits (withDom d1 st) (trim (value c))
                (number 0) (number (-1)))
      as (st' & button & streaming & Hrun & Hbusy & Hb & Hdis & Hstream & Hout).
    { split; [exact Hap1|]. simpl. rewrite Hsame1 by done. exact Hs. }
    { done. }
    exists st', button, streaming. split; [done|]. split; [done|].
    split; [done|]. split; [done|]. split; [|done].
    rewrite <- Hstream. simpl. symmetry. by apply Hsame1.
Qed.

End Accepted.

(** ** The fields of a report *)

Section Report.
Context {rt : Runtime}.






End Report.

(** ** A batch slot that is shown *)

Section Shown.
Context {rt : Runtime}.

Lemma lookup_declare_in id host declared (d : gmap string Element) k :
  k ∈ declared.*1 →
  declare id host declared d !! k = declare id host declared ∅ !! k.
Proof.
  induction declared as [|[k' e'] declared IH]; simpl.
  - by intros ?%elem_of_nil.
  - intros Hk. destruct (decide (k = k')) as [->|Hne].
    + by rewrite !lookup_insert_eq.
    + rewrite !lookup_insert_ne by done. apply IH.
      apply elem_of_cons in Hk as [?|?]; done.
Qed.

Lemma lookup_detach_keep id (d : gmap string Element) k :
  detach id d !! k = keep id (d !! k).
Proof.
  unfold detach, keep. destruct (d !! k) as [e|] eqn:He.
  - case_decide as Hin.
    + by apply map_lookup_filter_Some.
    + apply map_lookup_filter_None. right. intros e' He'.
      rewrite He in He'. injection He' as <-. intros Hnot. by apply Hnot.
  - apply map_lookup_filter_None. by left.
Qed.





Lemma parseMarkdown_rendering v h st :
  rendering v = Some h → parseMarkdown v st = Done h st.
Proof.
  unfold rendering, parseMarkdown.
  destruct v; try (by intros ->); by intros [= <-].
Qed.







End Shown.

(** ** Events the router passes on or drops *)

Section Router.
Context {rt : Runtime}.

Lemma handle_progress data :
  handleSSEMessage (event "progress" data)
  = (let! elementId := member data "element_id" in
     let! percent := member data "percent" in
     updateProgress elementId percent ;;
     let! message := member data "message" in
     when (truthy message) (addLog (toStr message) "progress") ;;
     let! current := member data "current_stock" in
     when (truthy current)
          (setText "currentStock" ("正在分析: " +:+ toStr current) ;;
           update "currentStock" (withStyle "display" "block"))).
Proof. reflexivity. Qed.

Lemma kindOf_unknown kind : kind ∉ kinds.*1 → kindOf (VStr kind) = KUnknown.
Proof.
  intros Hkind. unfold kindOf.
  destruct (list_find _ kinds) as [[i [name k]]|] eqn:Hfind; [|done].
  apply list_find_Some in Hfind as (Hi & Hname & _). simpl in Hname. subst name.
  exfalso. apply Hkind. apply list_elem_of_fmap. exists (kind, k).
  split; [done|]. by apply list_elem_of_lookup_2 in Hi.
Qed.

(** X10. A heartbeat, and an event whose kind is none of the twelve names the
    router knows, is ignored: the handler completes and nothing changes, not
    even the log. *)
Theorem unknown_kinds_ignored (kind : string) (payload : JSValue) (st : State) :
  kind = "heartbeat" ∨ kind ∉ kinds.*1 →
  handleSSEMessage (event kind payload) st = Done () st.
Proof.
  intros [->|Hkind]; [reflexivity|].
  unfold handleSSEMessage, event.
  erewrite andThen_Done by reflexivity.
  erewrite andThen_Done by reflexivity.
  change (getProp (VObj [("event", VStr kind); ("data", payload)]) "event")
    with (VStr kind).
  by rewrite kindOf_unknown.
Qed.

(** X20. A [progress] event for a bar that is not on the page: the handler
    throws at the bar, before it logs the message of the event: the state is
    what it was and the message is lost. *)
Theorem progress_without_bar_drops_message (payload : JSValue) (st : State) :
  dom st !! toStr (getProp payload "element_id") = None →
  onmessage (event "progress" payload) st = st.
Proof.
  intros Hbar. unfold onmessage. rewrite handle_progress.
  unfold andThen, member. destruct (nullish payload); [done|]. simpl.
  unfold updateProgress, setFillWidth. by rewrite Hbar.
Qed.



(** X22. A [partial_result] event whose type is not [basic_info] is ignored:
    the handler completes and nothing changes. *)
Theorem other_partial_results_ignored (data : JSValue) (st : State) :
  nullish data = false →
  getProp data "type" ≠ VStr "basic_info" →
  displayPartialResults data st = Done () st.
Proof.
  intros Hdata. unfold displayPartialResults.
  rewrite (andThen_Done _ _ _ _ _ (member_Done _ _ _ Hdata)).
  generalize (getProp data "type"). intros type Htype.
  destruct type as [| | | |s|]; try reflexivity.
  repeat (destruct s as [|[[] [] [] [] [] [] [] []] s]; try reflexivity).
  done.
Qed.

Lemma handle_ai_prompt data :
  handleSSEMessage (event "ai_prompt" data)
  = (let! elementId := member data "element_id" in
     let! prompt := member data "content" in
     setPromptContent elementId prompt).
Proof. reflexivity. Qed.

(** X28. An [ai_prompt] event for an element of the page, with a prompt the
    renderer accepts: the children of the element are replaced by the
    rendered prompt, the element is marked as rendered content, every
    element that was inside it is gone and every other element is as it
    was. *)
Theorem prompt_event_renders (st : State) (payload : JSValue) (e : Element)
    (h : string) :
  nullish payload = false →
  dom st !! toStr (getProp payload "element_id") = Some e →
  rendering (getProp payload "content") = Some h →
  dom (onmessage (event "ai_prompt" payload) st) !! toStr (getProp payload "element_id")
  = Some (addClass "ai-analysis-content" (withContent [Markup h] e)) ∧
  ∀ k e', k ≠ toStr (getProp payload "element_id") → dom st !! k = Some e' →
          dom (onmessage (event "ai_prompt" payload) st) !! k
          = if decide (toStr (getProp payload "element_id") ∈ inside e')
            then None else Some e'.
Proof.
  intros Hpayload He Hh.
  assert (Hrun : ∃ d,
    handleSSEMessage (event "ai_prompt" payload) st = Done () (withDom d st) ∧
    d = <[toStr (getProp payload "element_id") :=
            addClass "ai-analysis-content" (withContent [Markup h] e)]>
          (detach (toStr (getProp payload "element_id")) (dom st))).
  { rewrite handle_ai_prompt.
    rewrite (andThen_Done _ _ _ _ _ (member_Done _ _ _ Hpayload)).
    rewrite (andThen_Done _ _ _ _ _ (member_Done _ _ _ Hpayload)).
    unfold setPromptContent. unfold andThen at 1, getElementById at 1.
    rewrite He. cbv beta iota.
    rewrite (andThen_Done _ _ _ _ _ (parseMarkdown_rendering _ _ _ Hh)).
    unfold setInnerHTML.
    erewrite andThen_Done by (by apply setChildren_Done).
    erewrite update_Done by (simpl; apply lookup_insert_eq).
    eexists. split; [reflexivity|]. simpl. by rewrite insert_insert_eq. }
  destruct Hrun as (d & Hrun & ->). unfold onmessage. rewrite Hrun. simpl. split.
  - apply lookup_insert_eq.
  - intros k e' Hne Hk. rewrite lookup_insert_ne by done.
    rewrite lookup_detach_keep, Hk. simpl.
    case_decide; case_decide; done.
Qed.

End Router.

(** ** The narrative before the final event *)

Section Streaming.
Context {rt : Runtime}.

(** X1. The narrative before the final event: after the fragments F1..Fn
    (at least one) have arrived on a fresh narrative, the container is on
    the page and its text is the fragments put together in their order,
    white space and empty fragments included. *)
Theorem stream_accumulates (st : State) (fragment : string)
    (fragments : list string) :
  freshNarrative st →
  ∃ e, dom (deliver (streamEvent <$> fragment :: fragments) st) !! "aiStreamContent"
       = Some e ∧
       textContent e = joined (fragment :: fragments).
Proof.
  intros Hfresh.
  assert (Hst : narrating (joined (fragment :: fragments))
                  (deliver (streamEvent <$> fragment :: fragments) st)).
  { simpl. change (String.app fragment (joined fragments))
      with (fragment +:+ joined fragments).
    apply deliver_stream.
    destruct Hfresh as [Hst|Hnone].
    - by apply (stream_present "").
    - apply (stream_step ""). by right. }
  destruct Hst as (e & He & Hc & _). exists e. split; [done|].
  by apply (narrating_textContent _ _ e He).
Qed.

(** X3. A fragment when there is neither a narrative container nor a
    results container to put one in: [handleAIStream] throws and the state
    is what it was. *)
Theorem stream_without_container_throws (data : JSValue) (st : State) :
  dom st !! "aiStreamContent" = None →
  dom st !! "resultsContent" = None →
  handleAIStream data st = Threw TypeError st.
Proof.
  intros Hnone Hresults. unfold handleAIStream, andThen, getElementById.
  rewrite Hnone. unfold insertAdjacentHTML. by rewrite Hresults.
Qed.

(** X2. An [ai_stream] event without content (no [content] property, an
    empty text, [null]) on a page that has the narrative container: nothing
    is appended and the state is what it was. *)
Theorem empty_fragment_ignored (data : JSValue) (st : State) (e : Element) :
  dom st !! "aiStreamContent" = Some e →
  nullish data = false →
  truthy (getProp data "content") = false →
  handleAIStream data st = Done () st.
Proof.
  intros He Hdata Hfalsy. unfold handleAIStream, andThen, getElementById.
  rewrite He. simpl. unfold member. rewrite Hdata. simpl. by rewrite Hfalsy.
Qed.

(** X23. When the results skeleton arrives, what was inside the results
    container leaves the page: an element the skeleton does not declare is
    gone, and an element it declares is the skeleton's own.  So a narrative
    that [handleAIStream] began in the results container before the
    skeleton arrived is lost. *)
Theorem skeleton_discards_inside (st : State) (r : Element) (html : string)
    (declared : list (string * Element)) :
  dom st !! "resultsContent" = Some r →
  "resultsContent" ∉ declared.*1 →
  ∃ st', resultContentLoaded html declared st = Done () st' ∧
         content <$> dom st' !! "resultsContent" = Some [Markup html] ∧
         (∀ id, id ∈ declared.*1 →
                dom st' !! id = declare "resultsContent" r declared ∅ !! id) ∧
         (∀ id e, dom st !! id = Some e → "resultsContent" ∈ inside e →
                  id ≠ "resultsContent" → id ∉ declared.*1 →
                  dom st' !! id = None).
Proof.
  intros Hr Hnot. unfold resultContentLoaded, setInnerHTML.
  rewrite (setChildren_Done _ _ _ r) by done.
  eexists. split; [reflexivity|]. cbn [dom withDom]. split; [|split].
  - rewrite lookup_declare_ne by done. by rewrite lookup_insert_eq.
  - intros id Hid. by apply lookup_declare_in.
  - intros id e He Hin Hne Hid.
    rewrite lookup_declare_ne by done. rewrite lookup_insert_ne by done.
    apply map_lookup_filter_None. right. intros e' He'. simpl.
    rewrite He in He'. injection He' as <-. tauto.
Qed.

End Streaming.

(** ** The channel and its client id *)

Section ClientId.
Context {rt : Runtime}.

Lemma sameChannel_andThen {A B} (m : Handler A) (k : A → Handler B) :
  sameChannel m → (∀ a, sameChannel (k a)) → sameChannel (andThen m k).
Proof.
  intros Hm Hk st. unfold andThen. specialize (Hm st).
  destruct (m st) as [a st'|err st']; simpl in *; [|done].
  destruct (Hk a st') as [Hu Hc]. by rewrite Hu, Hc.
Qed.

Lemma sameChannel_pageOnly {A} (m : Handler A) : pageOnly m → sameChannel m.
Proof. intros Hm st. by destruct (Hm st) as [d ->]. Qed.

Lemma sameChannel_setReadyState r : sameChannel (setReadyState r).
Proof. intros st. unfold setReadyState. by destruct (sseConnection st) eqn:Hc; simpl; rewrite ?Hc. Qed.

Lemma sameChannel_closeConnection : sameChannel closeConnection.
Proof. intros st. unfold closeConnection. by destruct (sseConnection st) eqn:Hc; simpl; rewrite ?Hc. Qed.

Lemma pageOnly_updateSSEStatus connected : pageOnly (updateSSEStatus connected).
Proof.
  unfold updateSSEStatus. destruct connected.
  all: apply pageOnly_andThen; [apply pageOnly_update|intros _; apply pageOnly_setChildren].
Qed.

Lemma channelMatches_same {A} (m : Handler A) st :
  sameChannel m → channelMatches st → channelMatches (finalState (m st)).
Proof.
  intros Hm Hst c Hc. destruct (Hm st) as [Hu Hid]. rewrite Hid.
  destruct (sseConnection st) as [c0|] eqn:Hc0; rewrite Hc in Hu; [|done].
  injection Hu as Hu. rewrite Hu. by apply Hst.
Qed.

Lemma initSSE_matches random now st :
  is_Some (dom st !! "logDisplay") →
  channelMatches (finalState (initSSE random now st)).
Proof.
  intros [l Hl]. unfold initSSE.
  assert (Hclose : ∃ st1, closeConnection st = Done () st1 ∧ dom st1 = dom st).
  { unfold closeConnection. destruct (sseConnection st); by eexists. }
  destruct Hclose as (st1 & Hrun1 & Hdom1).
  rewrite (andThen_Done _ _ _ _ _ Hrun1).
  erewrite andThen_Done by reflexivity.
  erewrite andThen_Done by (apply addLog_appended; simpl; rewrite Hdom1; exact Hl).
  simpl. intros c [= <-]. eexists. split; [reflexivity|]. done.
Qed.

(** X24. The client id the script sends with its submissions stays the one
    of the channel: the handlers of the channel (opened, error, a reconnect
    timer that fires), the teardown of the page and every pushed event keep
    the address of the channel and [currentClientId] in step, on every page;
    [initSSE] itself does so when the log is on the page. *)
Theorem client_id_follows_channel (st : State) :
  channelMatches st →
  channelMatches (finalState (channelOpened st)) ∧
  (∀ r now, channelMatches (finalState (channelError r now st))) ∧
  (∀ random now, channelMatches (finalState (timerFired random now st))) ∧
  channelMatches (finalState (beforeunload st)) ∧
  (∀ data, channelMatches (onmessage data st)) ∧
  (∀ random now, is_Some (dom st !! "logDisplay") →
                 channelMatches (finalState (initSSE random now st))).
Proof.
  intros Hst. split; [|split; [|split; [|split; [|split]]]].
  - apply channelMatches_same; [|done]. unfold channelOpened, onopen.
    apply sameChannel_andThen; [apply sameChannel_setReadyState|intros _].
    apply sameChannel_pageOnly.
    apply pageOnly_andThen; [apply pageOnly_addLog|intros _].
    apply pageOnly_updateSSEStatus.
  - intros r now. apply channelMatches_same; [|done]. unfold channelError, onerror.
    apply sameChannel_andThen; [apply sameChannel_setReadyState|intros _].
    apply sameChannel_andThen; [apply sameChannel_pageOnly, pageOnly_addLog|intros _].
    apply sameChannel_andThen;
      [apply sameChannel_pageOnly, pageOnly_updateSSEStatus|intros _].
    by intros st'.
  - intros random now. unfold timerFired.
    destruct (timers st) as [|due rest]; [done|].
    destruct (due <=? now)%nat; [|done].
    assert (Hst' : channelMatches (withTimers rest st)) by done.
    revert Hst'. generalize (withTimers rest st). intros st' Hst'.
    unfold reconnect.
    assert (Hrun : channelMatches
      (finalState ((addLog "尝试重新连接SSE..." "warning" ;;
                    initSSE random (pretty now)) st'))).
    { unfold andThen at 1. unfold addLog at 1.
      destruct (dom st' !! "logDisplay") as [l|] eqn:Hl; [|done].
      apply initSSE_matches. simpl. rewrite lookup_insert_eq. by eexists. }
    destruct (sseConnection st') as [[u []]|] eqn:Hc; done.
  - apply channelMatches_same; [apply sameChannel_closeConnection|done].
  - intros data. unfold onmessage. apply channelMatches_same; [|done].
    intros st'. by destruct (viewOnly_router data st') as (d & b & ->).
  - intros random now. apply initSSE_matches.
Qed.

End ClientId.

(** ** The header of a slot *)

Section Toggle.
Context {rt : Runtime}.

Lemma toggleClass_flips c e :
  c ∈ classList (toggleClass c e) ↔ c ∉ classList e.
Proof.
  unfold toggleClass. case_decide as Hin; simpl.
  - split; [|done]. intros [Hne _]%list_elem_of_filter. done.
  - split; [done|]. intros _. apply elem_of_app. right. listed.
Qed.

Lemma toggleClass_other c c' e :
  c' ≠ c → c' ∈ classList (toggleClass c e) ↔ c' ∈ classList e.
Proof.
  intros Hne. unfold toggleClass. case_decide as Hin; simpl.
  - rewrite list_elem_of_filter. tauto.
  - rewrite elem_of_app, list_elem_of_singleton. tauto.
Qed.

(** X26. A click on the header of a slot flips the [hidden] class of the
    slot's body, whatever other classes it has, and a second click brings
    back the classes it had; nothing but the classes of that body is
    changed. *)
Theorem toggle_twice_restores (st : State) (index : JSValue) (body : Element) :
  dom st !! slotId "slotBody" index = Some body →
  ∃ once twice,
    dom (finalState (toggleSlot index st)) !! slotId "slotBody" index = Some once ∧
    ("hidden" ∈ classList once ↔ "hidden" ∉ classList body) ∧
    (toggleSlot index ;; toggleSlot index) st
    = Done () (withDom (<[slotId "slotBody" index := twice]> (dom st)) st) ∧
    (∀ c, c ∈ classList twice ↔ c ∈ classList body) ∧
    withClassList (classList body) twice = body.
Proof.
  intros Hbody. unfold toggleSlot.
  exists (toggleClass "hidden" body), (toggleClass "hidden" (toggleClass "hidden" body)).
  rewrite (update_Done _ _ body) by done. simpl.
  split; [apply lookup_insert_eq|]. split; [apply toggleClass_flips|].
  split.
  { erewrite andThen_Done by (by apply update_Done).
    rewrite (update_Done _ _ (toggleClass "hidden" body))
      by (simpl; apply lookup_insert_eq).
    simpl. by rewrite insert_insert_eq. }
  split.
  - intros c. destruct (decide (c = "hidden")) as [->|Hne].
    + rewrite toggleClass_flips, toggleClass_flips.
      destruct (decide ("hidden" ∈ classList body)); tauto.
    + by rewrite !toggleClass_other.
  - unfold toggleClass. repeat case_decide; by destruct body.
Qed.

End Toggle.

(** ** The counts of the data quality *)

Section Quality.
Context {rt : Runtime}.


End Quality.

(** ** The connection indicator *)

Section Indicator.
Context {rt : Runtime}.

(** X25. The connection indicator follows the channel: when the channel has
    opened the indicator has the class [connected], the status text says
    so and the connection is OPEN; after a channel error the class is gone
    and the text says disconnected. *)
Theorem indicator_follows_channel (st : State) (r : ReadyState) (now : nat) :
  statusPresent st →
  (∃ st' i s,
     channelOpened st = Done () st' ∧
     dom st' !! "sseIndicator" = Some i ∧ "connected" ∈ classList i ∧
     dom st' !! "sseStatus" = Some s ∧ content s = [TextNode "SSE已连接"] ∧
     readyState <$> sseConnection st' = (λ _, OPEN) <$> sseConnection st) ∧
  (∃ st' i s,
     channelError r now st = Done () st' ∧
     dom st' !! "sseIndicator" = Some i ∧ ("connected" ∉ classList i) ∧
     dom st' !! "sseStatus" = Some s ∧ content s = [TextNode "SSE断开"] ∧
     readyState <$> sseConnection st' = (λ _, r) <$> sseConnection st).
Proof.
  intros ((l & Hl & Hlout) & (i & Hi & Hiout) & [s Hs]).
  assert (Hap : ∀ st0, dom st0 = dom st →
    apart ["sseStatus"] ["logDisplay"; "sseIndicator"] (dom st0)).
  { intros st0 -> k Hk.
    apply elem_of_cons in Hk as [->|Hk].
    { exists l. split; [done|]. by intros w [->|[]%elem_of_nil]%elem_of_cons. }
    apply elem_of_cons in Hk as [->|Hk].
    { exists i. split; [done|]. by intros w [->|[]%elem_of_nil]%elem_of_cons. }
    by apply elem_of_nil in Hk. }
  assert (Hready : ∀ r', ∃ st0,
    setReadyState r' st = Done () st0 ∧ dom st0 = dom st ∧
    readyState <$> sseConnection st0 = (λ _, r') <$> sseConnection st ∧
    timers st0 = timers st).
  { intros r'. unfold setReadyState. destruct (sseConnection st) eqn:Hc.
    - eexists. split; [reflexivity|]. simpl. split; [done|]. split; done.
    - eexists. split; [reflexivity|]. simpl. split; [done|]. split; [|done].
      by rewrite Hc. }
  split.
  - destruct (Hready OPEN) as (st0 & Hrun0 & Hdom & Hstate & _).
    unfold channelOpened. rewrite (andThen_Done _ _ _ _ _ Hrun0).
    unfold onopen.
    destruct (addLog_apart _ _ "SSE连接已建立" "success" st0 l (Hap st0 Hdom))
      as (d1 & Hrun1 & Hap1 & Hat1 & Hsame1); [by rewrite Hdom|].
    rewrite (andThen_Done _ _ _ _ _ Hrun1). unfold updateSSEStatus.
    destruct (update_apart _ _ "sseIndicator" (addClass "connected")
                (withDom d1 st0) i Hap1)
      as (d2 & Hrun2 & Hap2 & Hat2 & Hsame2).
    { simpl. rewrite Hsame1 by done. by rewrite Hdom. }
    { unfold addClass. by case_decide. }
    rewrite (andThen_Done _ _ _ _ _ Hrun2).
    destruct (setText_apart _ _ "sseStatus" "SSE已连接"
                (withDom d2 (withDom d1 st0)) s Hap2)
      as (d3 & Hrun3 & Hap3 & Hat3 & Hsame3); [listed| |].
    { simpl. rewrite Hsame2, Hsame1 by done. by rewrite Hdom. }
    rewrite Hrun3. cbn [dom withDom] in *.
    eexists _, (addClass "connected" i), _. split; [reflexivity|]. cbn [dom withDom].
    split. { rewrite Hsame3 by (listed || done). exact Hat2. }
    split; [apply addClass_has|]. split; [exact Hat3|]. split; [done|].
    exact Hstate.
  - destruct (Hready r) as (st0 & Hrun0 & Hdom & Hstate & _).
    unfold channelError. rewrite (andThen_Done _ _ _ _ _ Hrun0).
    unfold onerror.
    destruct (addLog_apart _ _ "SSE连接错误" "error" st0 l (Hap st0 Hdom))
      as (d1 & Hrun1 & Hap1 & Hat1 & Hsame1); [by rewrite Hdom|].
    rewrite (andThen_Done _ _ _ _ _ Hrun1). unfold updateSSEStatus.
    destruct (update_apart _ _ "sseIndicator" (removeClass "connected")
                (withDom d1 st0) i Hap1)
      as (d2 & Hrun2 & Hap2 & Hat2 & Hsame2).
    { simpl. rewrite Hsame1 by done. by rewrite Hdom. }
    { done. }
    destruct (setText_apart _ _ "sseStatus" "SSE断开"
                (withDom d2 (withDom d1 st0)) s Hap2)
      as (d3 & Hrun3 & Hap3 & Hat3 & Hsame3); [listed| |].
    { simpl. rewrite Hsame2, Hsame1 by done. by rewrite Hdom. }
    erewrite andThen_Done.
    2:{ rewrite (andThen_Done _ _ _ _ _ Hrun2). exact Hrun3. }
    cbn [dom withDom] in *.
    eexists _, (removeClass "connected" i), _. split; [reflexivity|].
    cbn [dom withDom withTimers].
    split. { rewrite Hsame3 by (listed || done). exact Hat2. }
    split. { simpl. intros [Hne _]%list_elem_of_filter. done. }
    split; [exact Hat3|]. split; [done|]. exact Hstate.
Qed.

End Indicator.

(** ** The skeleton of the older script *)

Section LegacyLoading.
Context {rt : Runtime}.

(** X27. [showLoading] of the older script writes the skeleton of a result
    at once: whatever was inside the results container is replaced, the
    nine display fields, the recommendation and the prompt show their place
    holders, and the narrative container is there and empty, so a narrative
    that follows starts from nothing. *)
Theorem legacy_loading_resets_results (st : State) (r : Element) :
  dom st !! "resultsContent" = Some r →
  outsideFields r →
  ∃ st',
    Legacy.showLoading st = Done () st' ∧
    narrating "" st' ∧
    (∀ id text,
       (id, text) ∈ [("stockCodeDisplay", "股票代码: --");
                     ("currentPriceDisplay", "当前价格: --");
                     ("priceChangeDisplay", "涨跌幅: --");
                     ("rsiDisplay", "RSI: --");
                     ("trendDisplay", "趋势: --");
                     ("macdDisplay", "MACD: --");
                     ("sentimentTrendDisplay", "情绪趋势: --");
                     ("newsCountDisplay", "新闻数量: --");
                     ("confidenceDisplay", "置信度: --");
                     ("recommendationDisplay", "暂无数据");
                     ("promptDisplay", "Prompt 将在分析完成后显示")] →
       content <$> dom st' !! id = Some [TextNode text]) ∧
    ∀ id e, dom st !! id = Some e → "resultsContent" ∈ inside e →
            id ≠ "resultsContent" → id ∉ Legacy.skeleton.*1 →
            dom st' !! id = None.
Proof.
  intros Hr Hout. unfold Legacy.showLoading, setInnerHTML.
  rewrite (setChildren_Done _ _ _ r) by done.
  eexists. split; [reflexivity|]. cbn [dom withDom].
  assert (Hin : ∀ k, k ∈ Legacy.skeleton.*1 →
    declare "resultsContent" r Legacy.skeleton
      (<["resultsContent" := withContent [Markup "<div id='basicInfoContainer'>...</div>"] r]>
         (detach "resultsContent" (dom st))) !! k
    = declare "resultsContent" r Legacy.skeleton ∅ !! k).
  { intros k Hk. by apply lookup_declare_in. }
  split; [|split].
  - eexists. split.
    { rewrite Hin by (unfold Legacy.skeleton; simpl; listed).
      unfold Legacy.skeleton. cbn [declare foldr fst snd].
      rewrite !lookup_insert_ne by done. apply lookup_insert_eq. }
    split; [by right|].
    intros f Hf. simpl. intros Hin'.
    apply elem_of_cons in Hin' as [->|Hin'].
    { unfold displayFields in Hf.
      repeat (apply elem_of_cons in Hf as [Hf|Hf]; [discriminate Hf|]).
      by apply elem_of_nil in Hf. }
    apply elem_of_cons in Hin' as [->|Hin'].
    { unfold displayFields in Hf.
      repeat (apply elem_of_cons in Hf as [Hf|Hf]; [discriminate Hf|]).
      by apply elem_of_nil in Hf. }
    apply elem_of_cons in Hin' as [->|Hin'].
    { unfold displayFields in Hf.
      repeat (apply elem_of_cons in Hf as [Hf|Hf]; [discriminate Hf|]).
      by apply elem_of_nil in Hf. }
    by apply (Hout f).
  - intros id text Hfield.
    repeat (apply elem_of_cons in Hfield as [[= -> ->]|Hfield];
            [rewrite Hin by (unfold Legacy.skeleton; simpl; listed);
             unfold Legacy.skeleton; cbn [declare foldr fst snd];
             rewrite ?lookup_insert_ne by done; by rewrite lookup_insert_eq|]).
    by apply elem_of_nil in Hfield.
  - intros id e He Hinside Hne Hid.
    rewrite lookup_declare_ne by done. rewrite lookup_insert_ne by done.
    apply map_lookup_filter_None. right. intros e' He'. simpl.
    rewrite He in He'. injection He' as <-. tauto.
Qed.

End LegacyLoading.

(** ** The script on the example page *)

Module Examples.
Import Example.
#[local] Existing Instance runtime.

(** C1, refuted as stated: a narrative of one line break, then the final
    event.  The container keeps the raw line break; the rendering of the
    fragment, [<br>], is never written, and the container is not marked as
    rendered content. *)
Lemma blank_narrative_not_rendered :
  (content <$> dom (deliver [streamEvent newline; final] loaded) !! "aiStreamContent")
  = Some [TextNode newline] ∧
  render (joined [newline]) = "<br>" ∧
  (classList <$> dom (deliver [streamEvent newline; final] loaded) !! "aiStreamContent")
  = Some [].
Proof. repeat split; vm_compute; reflexivity. Qed.

(** The report's own [ai_content] replaces the rendering by its raw text. *)
Lemma report_text_replaces_rendering :
  (content <$> dom (deliver [streamEvent "A"; streamEvent "B";
                             event "final_result"
                               (VObj [("stock_code", VStr "000001");
                                      ("ai_content", VStr "AB")])] loaded)
               !! "aiStreamContent")
  = Some [TextNode "AB"].
Proof. vm_compute. reflexivity. Qed.

(** C2, refuted as stated: a narrative of two lines, and the final event
    twice.  The first event renders the line break as [<br>]; the second
    reads the text of that rendering, in which the break is lost, and
    renders it again. *)
Lemma second_final_changes_narrative :
  (content <$> dom (deliver [streamEvent ("A" +:+ newline +:+ "B"); final] loaded)
               !! "aiStreamContent")
  = Some [Markup "A<br>B"] ∧
  (content <$> dom (deliver [streamEvent ("A" +:+ newline +:+ "B"); final; final] loaded)
               !! "aiStreamContent")
  = Some [Markup "AB"].
Proof. split; vm_compute; reflexivity. Qed.

(** C3: a final event when nothing has been streamed.  The handler
    completes and the page is what it was: the display fields keep their
    place holders. *)
Lemma final_without_stream_updates_nothing :
  displayResults report loaded = Done () loaded ∧
  (content <$> dom loaded !! "stockCodeDisplay") = Some [TextNode "股票代码: --"] ∧
  (content <$> dom loaded !! "trendDisplay") = Some [TextNode "趋势: --"].
Proof. repeat split; vm_compute; reflexivity. Qed.

(** The same report after a streamed narrative: the fields are written,
    the technical ones with their fallbacks. *)
Lemma final_after_stream_updates_fields :
  let st := deliver [streamEvent "A"; final] loaded in
  (content <$> dom st !! "stockCodeDisplay") = Some [TextNode "股票代码: 600000"] ∧
  (content <$> dom st !! "currentPriceDisplay") = Some [TextNode "当前价格: ¥10.50"] ∧
  (content <$> dom st !! "priceChangeDisplay") = Some [TextNode "涨跌幅: -1.23%"] ∧
  (content <$> dom st !! "rsiDisplay") = Some [TextNode "RSI: 0.0"] ∧
  (content <$> dom st !! "trendDisplay") = Some [TextNode "趋势: 未知"] ∧
  (content <$> dom st !! "macdDisplay") = Some [TextNode "MACD: 未知"] ∧
  (content <$> dom st !! "newsCountDisplay") = Some [TextNode "新闻数量: 0 条"].
Proof. repeat split; vm_compute; reflexivity. Qed.

(** C7: a batch report with a price and without a technical analysis.
    [showBatchSlot] throws when it reads the RSI: the slot has been given
    its title and made visible, and its body is not written. *)
Lemma batch_report_without_technical_throws :
  completed (showBatchSlot (batchEvent 0) idle) = false ∧
  (content <$> dom (finalState (showBatchSlot (batchEvent 0) idle)) !! "slotTitle0")
  = Some [TextNode "1. 浦发银行"] ∧
  (classList <$> dom (finalState (showBatchSlot (batchEvent 0) idle)) !! "batchSlot0")
  = Some ["batch-slot"] ∧
  (content <$> dom (finalState (showBatchSlot (batchEvent 0) idle)) !! "batchResultsContent0")
  = Some [TextNode ""].
Proof. repeat split; vm_compute; reflexivity. Qed.

(** C4, refuted as stated: a submission while an analysis is in flight,
    with an empty stock code.  The only line logged is the warning of the
    empty code; the busy warning is not logged. *)
Lemma busy_submission_logs_other_warning :
  (content <$> dom (finalState (analyzeSingleStock busyNoCode)) !! "logDisplay")
  = Some [LogEntry "warning" "请输入股票代码"].
Proof. vm_compute. reflexivity. Qed.



(** C5, refuted as stated: two channel errors one second apart.  Two
    timers are pending, both within the window of the first. *)
Lemma two_errors_two_timers :
  timers (finalState (channelError CONNECTING 1000
            (finalState (channelError CONNECTING 0 connected))))
  = [3000; 4000].
Proof. vm_compute. reflexivity. Qed.

Lemma outside_of_results e :
  inside e = ["resultsContent"] → outsideFields e.
Proof.
  intros Hin f Hf. rewrite Hin. intros [->|Hnil]%elem_of_cons.
  - unfold displayFields in Hf.
    repeat (apply elem_of_cons in Hf as [Hf|Hf]; [done|]).
    by apply elem_of_nil in Hf.
  - by apply elem_of_nil in Hnil.
Qed.

Lemma loaded_fresh : freshNarrative loaded.
Proof.
  left. eexists. split; [computed|]. split; [by right|].
  by apply outside_of_results.
Qed.

(** C1 on the example page: the fragments A and B, then the final event. *)
Lemma streamed_narrative_rendered_witness :
  (content <$> dom (deliver ((streamEvent <$> ["A"; "B"]) ++
                             [event "final_result" report]) loaded)
               !! "aiStreamContent")
  = Some [Markup (render (joined ["A"; "B"]))].
Proof.
  apply (streamed_narrative_rendered loaded ["A"; "B"] report).
  - exact loaded_fresh.
  - computed.
  - computed.
Defined.

(** C2 on the example page: a narrative of two lines and two final events. *)
Lemma second_final_renders_again_witness :
  ∃ e1,
    dom (onmessage final (deliver [streamEvent ("A" +:+ newline +:+ "B")] loaded))
        !! "aiStreamContent" = Some e1 ∧
    content e1 = [Markup (render ("A" +:+ newline +:+ "B"))] ∧
    (content <$> dom (deliver [final; final]
                        (deliver [streamEvent ("A" +:+ newline +:+ "B")] loaded))
                 !! "aiStreamContent")
    = Some (if blank (textOf (render ("A" +:+ newline +:+ "B")))
            then [Markup (render ("A" +:+ newline +:+ "B"))]
            else [Markup (render (textOf (retitled (heading e1)
                                            (render ("A" +:+ newline +:+ "B")))))]).
Proof.
  apply (second_final_renders_again
           (deliver [streamEvent ("A" +:+ newline +:+ "B")] loaded)
           ("A" +:+ newline +:+ "B") report).
  - eexists. split; [computed|]. split; [left; computed|].
    by apply outside_of_results.
  - computed.
  - computed.
Defined.

(** C4 on the example page while an analysis is in flight: a code without
    a position, and a list of two codes. *)
Lemma busy_submission_only_logs_witness :
  (∃ entries,
     onlyLogged entries busyList (analyzeSingleStock busyList) ∧
     (passesChecks "000001" "" "" = true →
      entries = [LogEntry "info" "默认未买入"; busyWarning]) ∧
     (trim "000001" = "" → entries = [LogEntry "warning" "请输入股票代码"]) ∧
     (trim "000001" ≠ "" → passesChecks "000001" "" "" = false →
      entries = [LogEntry "warning" "请输入持仓均价"])) ∧
  (∃ entries,
     onlyLogged entries busyList (analyzeBatchStocks busyList) ∧
     (trim ("600000" +:+ newline +:+ "000001") ≠ "" → entries = [busyWarning]) ∧
     (trim ("600000" +:+ newline +:+ "000001") = "" →
      entries = [LogEntry "warning" "请输入股票代码列表"])).
Proof.
  exact (busy_submission_only_logs busyList (input "000001") (input "") (input "")
           (input ("600000" +:+ newline +:+ "000001")) blankElement
           eq_refl eq_refl eq_refl eq_refl eq_refl eq_refl).
Defined.

(** On that page the checks pass and the list is not blank: the busy
    warning is logged by both submissions. *)
Lemma busy_list_is_warned :
  passesChecks "000001" "" "" = true ∧
  trim ("600000" +:+ newline +:+ "000001") ≠ "" ∧
  analyzeSingleStock busyList
  = Done () (appended [LogEntry "info" "默认未买入"; busyWarning] blankElement busyList) ∧
  analyzeBatchStocks busyList
  = Done () (appended [busyWarning] blankElement busyList).
Proof. repeat split; try (vm_compute; reflexivity). vm_compute. discriminate. Qed.

Lemma status_present_connected : statusPresent connected.
Proof.
  split; [|split].
  - eexists. split; [computed|]. apply not_elem_of_nil.
  - eexists. split; [computed|]. apply not_elem_of_nil.
  - eexists. computed.
Qed.

(** C5 on the example page: two errors one second apart. *)
Lemma every_error_schedules_a_timer_witness :
  ∃ st1 st2,
    channelError CONNECTING 0 connected = Done () st1 ∧
    channelError CONNECTING 1000 st1 = Done () st2 ∧
    timers st2 = timers connected ++ [0 + 3000; 1000 + 3000].
Proof.
  exact (proj1 (every_error_schedules_a_timer connected CONNECTING CONNECTING
                  0 1000 status_present_connected)).
Defined.

(** C6 on the example page: a result for slot 0 leaves the container of
    slot 1 hidden and empty. *)
Lemma other_slots_untouched_witness :
  dom (onmessage (event "batch_result"
                    (VObj [("index", number 0); ("report", batchReport)])) idle)
      !! slotId "batchSlot" (number 1)
  = Some (mkElement [] None ["batch-slot"; "hidden"] ∅ None false "" false []).
Proof.
  apply (other_slots_untouched idle 0 1 batchReport).
  - done.
  - computed.
  - computed.
  - unfold slotIds. listed.
  - computed.
  - intros x _. apply not_elem_of_nil.
Defined.

(** C8 on the example page: a position of 30 percent, no average price. *)
Lemma empty_price_rejected_witness :
  (∃ message,
     onlyLogged [LogEntry "warning" message] holding (analyzeSingleStock holding) ∧
     isAnalyzing (finalState (analyzeSingleStock holding)) = false ∧
     dom (finalState (analyzeSingleStock holding)) !! "analyzeBtn"
     = dom holding !! "analyzeBtn") ∧
  (∃ message,
     onlyLogged [LogEntry "warning" message] holding
                (Legacy.analyzeSingleStock holding) ∧
     isAnalyzing (finalState (Legacy.analyzeSingleStock holding)) = false ∧
     dom (finalState (Legacy.analyzeSingleStock holding)) !! "analyzeBtn"
     = dom holding !! "analyzeBtn").
Proof.
  destruct (empty_price_rejected holding (input "000001") (input "30") (input "")
              blankElement) as [Hnew Hold]; try computed.
  split.
  - apply Hnew. computed.
  - apply Hold; [simpl; discriminate|computed].
Defined.

Lemma controls_present_streaming : controlsPresent streaming.
Proof.
  split; [|split].
  - intros id Hid.
    repeat (apply elem_of_cons in Hid as [->|Hid];
            [eexists; split; [computed|split; apply not_elem_of_nil]|]).
    apply elem_of_nil in Hid. destruct Hid.
  - eexists. computed.
  - intros id e Hid.
    apply elem_of_cons in Hid as [->|Hid].
    { intros He. vm_compute in He. injection He as <-. eexists. reflexivity. }
    apply elem_of_cons in Hid as [->|Hid].
    { intros He. vm_compute in He. injection He as <-. eexists. reflexivity. }
    apply elem_of_nil in Hid. destruct Hid.
Qed.







(** What the reset does on that page: slot 0 was on display and is hidden,
    and the request leaves with the two codes.  On the page without the
    submit button the handler throws: slot 0 is hidden all the same, and
    nothing has been sent.  A result for index 10 has no slot there. *)
Lemma reset_hides_shown_slot :
  (classList <$> dom shownTwoCodes !! "batchSlot0") = Some ["batch-slot"] ∧
  completed (analyzeBatchStocks shownTwoCodes) = true ∧
  (classList <$> dom (finalState (analyzeBatchStocks shownTwoCodes)) !! "batchSlot0")
  = Some ["batch-slot"; "hidden"] ∧
  outbox (finalState (analyzeBatchStocks shownTwoCodes))
  = [GetAsset "/static/html/result_content.html";
     PostBatch ["600000"; "000001"] None] ∧
  completed (analyzeBatchStocks shownNoButton) = false ∧
  (classList <$> dom (finalState (analyzeBatchStocks shownNoButton)) !! "batchSlot0")
  = Some ["batch-slot"; "hidden"] ∧
  outbox (finalState (analyzeBatchStocks shownNoButton)) = [] ∧
  showBatchSlot eleventhEvent shownTwoCodes = Threw TypeError shownTwoCodes.
Proof. repeat split; vm_compute; reflexivity. Qed.

End Examples.

(** ** The further properties on the example page *)

Module Cases.
Import Example.
#[local] Existing Instance runtime.

(** A list of two lines, the second with an ideographic space before
    the code and a no-break space after it. *)
Lemma stock_codes_are_trimmed_witness :
  "000001" ≠ "" ∧ trim "000001" = "000001" ∧ hasChar lineBreak "000001" = false ∧
  ∀ w, w ∈ whiteSpace →
       dropPrefix w "000001" = None ∧
       dropPrefix (String.rev w) (String.rev "000001") = None.
Proof.
  apply (stock_codes_are_trimmed
           ("600000" +:+ newline +:+ wideSpace +:+ "000001" +:+ nbsp) "000001").
  assert (stockCodes ("600000" +:+ newline +:+ wideSpace +:+ "000001" +:+ nbsp)
          = ["600000"; "000001"])
    as -> by computed.
  listed.
Defined.

Lemma stream_accumulates_witness :
  ∃ e, dom (deliver (streamEvent <$> ["A"; " "; "B"]) loaded) !! "aiStreamContent"
       = Some e ∧
       textContent e = joined ["A"; " "; "B"].
Proof. exact (stream_accumulates loaded "A" [" "; "B"] Examples.loaded_fresh). Defined.

Lemma stream_without_container_throws_witness :
  handleAIStream (VObj [("content", VStr "A")]) bare = Threw TypeError bare.
Proof.
  apply (stream_without_container_throws (VObj [("content", VStr "A")]) bare);
    reflexivity.
Defined.

Lemma empty_fragment_ignored_witness :
  handleAIStream (VObj [("content", VStr "")]) streaming = Done () streaming.
Proof.
  eapply (empty_fragment_ignored (VObj [("content", VStr "")]) streaming).
  - computed.
  - reflexivity.
  - reflexivity.
Defined.

Lemma final_without_stream_is_noop_witness :
  displayResults report loaded = Done () loaded.
Proof.
  apply (final_without_stream_is_noop loaded report).
  right. eexists. split; computed.
Defined.

Lemma batch_report_needs_technical_witness :
  completed (showBatchSlot (batchEvent 0) idle) = false.
Proof. apply (batch_report_needs_technical (batchEvent 0) idle). reflexivity. Defined.










Lemma unknown_kinds_ignored_witness :
  handleSSEMessage (event "ping" VNull) idle = Done () idle.
Proof.
  apply (unknown_kinds_ignored "ping" VNull idle). right.
  apply (bool_decide_unpack _). vm_compute. exact I.
Defined.

Lemma other_events_keep_the_flag_witness :
  isAnalyzing (onmessage final busy) = isAnalyzing busy.
Proof. apply (other_events_keep_the_flag final busy). reflexivity. Defined.

Lemma progress_without_bar_drops_message_witness :
  onmessage (event "progress" (VObj [("element_id", VStr "nope");
                                     ("percent", number 50);
                                     ("message", VStr "正在获取数据")])) idle
  = idle.
Proof.
  apply (progress_without_bar_drops_message
           (VObj [("element_id", VStr "nope"); ("percent", number 50);
                  ("message", VStr "正在获取数据")]) idle).
  computed.
Defined.



(** A percentage that is no width: the bar stays at the width the event
    before gave it. *)
Lemma negative_percent_keeps_width :
  fill <$> dom (deliver [event "progress" halfWay;
                         event "progress"
                           (VObj [("element_id", VStr "singleProgress");
                                  ("percent", number (-5))]);
                         event "progress"
                           (VObj [("element_id", VStr "singleProgress")])] idle)
             !! "singleProgress"
  = Some (Some "50%").
Proof. vm_compute. reflexivity. Qed.

Lemma other_type : getProp (VObj [("type", VStr "technical")]) "type" ≠ VStr "basic_info".
Proof. vm_compute. discriminate. Qed.

Lemma other_partial_results_ignored_witness :
  displayPartialResults (VObj [("type", VStr "technical")]) loaded = Done () loaded.
Proof.
  exact (other_partial_results_ignored (VObj [("type", VStr "technical")]) loaded
           eq_refl other_type).
Defined.

Lemma skeleton_discards_inside_witness :
  ∃ st', resultContentLoaded "<div>...</div>" skeleton early = Done () st' ∧
         content <$> dom st' !! "resultsContent" = Some [Markup "<div>...</div>"] ∧
         (∀ id, id ∈ skeleton.*1 →
                dom st' !! id
                = declare "resultsContent" (withContent [Markup streamArea] blankElement)
                          skeleton ∅ !! id) ∧
         (∀ id e, dom early !! id = Some e → "resultsContent" ∈ inside e →
                  id ≠ "resultsContent" → id ∉ skeleton.*1 →
                  dom st' !! id = None).
Proof.
  apply (skeleton_discards_inside early (withContent [Markup streamArea] blankElement)
           "<div>...</div>" skeleton).
  - computed.
  - apply (bool_decide_unpack _). vm_compute. exact I.
Defined.

Lemma channel_matches_connected : channelMatches connected.
Proof.
  intros c Hc. vm_compute in Hc. injection Hc as <-.
  eexists. split; [computed|]. computed.
Qed.

Lemma client_id_follows_channel_witness :
  channelMatches (finalState (channelOpened connected)) ∧
  (∀ r now, channelMatches (finalState (channelError r now connected))) ∧
  (∀ random now, channelMatches (finalState (timerFired random now connected))) ∧
  channelMatches (finalState (beforeunload connected)) ∧
  (∀ data, channelMatches (onmessage data connected)) ∧
  (∀ random now, is_Some (dom connected !! "logDisplay") →
                 channelMatches (finalState (initSSE random now connected))).
Proof. exact (client_id_follows_channel connected channel_matches_connected). Defined.

Lemma completion_keeps_results_witness :
  ∃ st' analyze batch status,
    onAnalysisComplete VNull streaming = Done () st' ∧
    isAnalyzing st' = false ∧
    dom st' !! "analyzeBtn" = Some analyze ∧ disabled analyze = false ∧
    dom st' !! "batchAnalyzeBtn" = Some batch ∧ disabled batch = false ∧
    dom st' !! "systemStatus" = Some status ∧
    content status = [TextNode "系统就绪"] ∧
    classList status = ["status-indicator"; "status-ready"] ∧
    dom st' !! "resultsContent" = dom streaming !! "resultsContent" ∧
    ∀ id e, dom streaming !! id = Some e → "resultsContent" ∈ inside e →
            id ≠ "systemStatus" → "systemStatus" ∉ inside e →
            dom st' !! id = Some e.
Proof.
  exact (completion_keeps_results streaming VNull Examples.controls_present_streaming).
Defined.

Lemma submit_controls_idle : submitControls idle.
Proof.
  split.
  - intros k Hk.
    repeat (apply elem_of_cons in Hk as [->|Hk];
            [eexists; split; [computed|intros w _; apply not_elem_of_nil]|]).
    apply elem_of_nil in Hk. destruct Hk.
  - eexists. computed.
Qed.

Lemma accepted_submission_posts_once_witness :
  ∃ st' button streaming,
    analyzeSingleStock idle = Done () st' ∧
    isAnalyzing st' = true ∧
    dom st' !! "analyzeBtn" = Some button ∧ disabled button = true ∧
    dom idle !! "enableStreaming" = Some streaming ∧
    outbox st' = [GetAsset "/static/html/result_content.html";
                  PostSingle "000001" (number 0) (number (-1)) (checked streaming) None].
Proof.
  assert (Hc : dom idle !! "stockCode" = Some (input "000001")) by computed.
  assert (Hp : dom idle !! "positionPercent" = Some (input "")) by computed.
  assert (Ha : dom idle !! "avgPrice" = Some (input "")) by computed.
  exact (accepted_submission_posts_once idle (input "000001") (input "") (input "")
           submit_controls_idle eq_refl Hc Hp Ha eq_refl).
Defined.

Lemma toggle_twice_restores_witness :
  ∃ once twice,
    dom (finalState (toggleSlot (number 0) folded)) !! "slotBody0" = Some once ∧
    ("hidden" ∈ classList once ↔ "hidden" ∉ ["slot-body"; "hidden"]) ∧
    (toggleSlot (number 0) ;; toggleSlot (number 0)) folded
    = Done () (withDom (<["slotBody0" := twice]> (dom folded)) folded) ∧
    (∀ c, c ∈ classList twice ↔ c ∈ ["slot-body"; "hidden"]) ∧
    withClassList ["slot-body"; "hidden"] twice
    = mkElement [] None ["slot-body"; "hidden"] ∅ None false "" false ["batchSlot0"].
Proof.
  assert (Hbody : dom folded !! slotId "slotBody" (number 0)
                  = Some (mkElement [] None ["slot-body"; "hidden"] ∅ None false ""
                                    false ["batchSlot0"])) by computed.
  exact (toggle_twice_restores folded (number 0) _ Hbody).
Defined.



Lemma legacy_loading_resets_results_witness :
  ∃ st',
    Legacy.showLoading streaming = Done () st' ∧
    narrating "" st' ∧
    (∀ id text,
       (id, text) ∈ [("stockCodeDisplay", "股票代码: --");
                     ("currentPriceDisplay", "当前价格: --");
                     ("priceChangeDisplay", "涨跌幅: --");
                     ("rsiDisplay", "RSI: --");
                     ("trendDisplay", "趋势: --");
                     ("macdDisplay", "MACD: --");
                     ("sentimentTrendDisplay", "情绪趋势: --");
                     ("newsCountDisplay", "新闻数量: --");
                     ("confidenceDisplay", "置信度: --");
                     ("recommendationDisplay", "暂无数据");
                     ("promptDisplay", "Prompt 将在分析完成后显示")] →
       content <$> dom st' !! id = Some [TextNode text]) ∧
    ∀ id e, dom streaming !! id = Some e → "resultsContent" ∈ inside e →
            id ≠ "resultsContent" → id ∉ Legacy.skeleton.*1 →
            dom st' !! id = None.
Proof.
  eapply (legacy_loading_resets_results streaming).
  - computed.
  - intros f _. apply not_elem_of_nil.
Defined.

Lemma indicator_follows_channel_witness :
  (∃ st' i s,
     channelOpened connected = Done () st' ∧
     dom st' !! "sseIndicator" = Some i ∧ "connected" ∈ classList i ∧
     dom st' !! "sseStatus" = Some s ∧ content s = [TextNode "SSE已连接"] ∧
     readyState <$> sseConnection st' = (λ _, OPEN) <$> sseConnection connected) ∧
  (∃ st' i s,
     channelError CLOSED 0 connected = Done () st' ∧
     dom st' !! "sseIndicator" = Some i ∧ ("connected" ∉ classList i) ∧
     dom st' !! "sseStatus" = Some s ∧ content s = [TextNode "SSE断开"] ∧
     readyState <$> sseConnection st' = (λ _, CLOSED) <$> sseConnection connected).
Proof.
  exact (indicator_follows_channel connected CLOSED 0 Examples.status_present_connected).
Defined.

Lemma prompt_event_renders_witness :
  ∃ e,
    dom slotShown !! "llm-prompt-0" = Some e ∧
    dom (onmessage (event "ai_prompt" promptEvent) slotShown) !! "llm-prompt-0"
    = Some (addClass "ai-analysis-content" (withContent [Markup (render "P2")] e)) ∧
    ∀ k e', k ≠ "llm-prompt-0" → dom slotShown !! k = Some e' →
            dom (onmessage (event "ai_prompt" promptEvent) slotShown) !! k
            = if decide ("llm-prompt-0" ∈ inside e') then None else Some e'.
Proof.
  eexists. split; [computed|].
  apply (prompt_event_renders slotShown promptEvent _ (render "P2")).
  - reflexivity.
  - computed.
  - reflexivity.
Defined.

(** White space that is no ASCII is white space to [trim]: a narrative of
    a no-break space is not rendered by the final event, a stock code of an
    ideographic space is an empty code, and a list of one is an empty
    list. *)
Lemma unicode_white_space_is_blank :
  blank nbsp = true ∧ blank wideSpace = true ∧
  trim (wideSpace +:+ "600000" +:+ nbsp) = "600000" ∧
  (content <$> dom (deliver [streamEvent nbsp; final] loaded) !! "aiStreamContent")
  = Some [TextNode nbsp] ∧
  analyzeSingleStock (withDom (<["stockCode" := input wideSpace]> page) idle)
  = Done () (appended [LogEntry "warning" "请输入股票代码"] blankElement
               (withDom (<["stockCode" := input wideSpace]> page) idle)) ∧
  analyzeBatchStocks (withDom (<["stockList" := input wideSpace]> page) idle)
  = Done () (appended [LogEntry "warning" "请输入股票代码列表"] blankElement
               (withDom (<["stockList" := input wideSpace]> page) idle)).
Proof. repeat split; vm_compute; reflexivity. Qed.

(** The label of the data quality is cut to two characters, not to two
    bytes. *)
Lemma quality_label_is_cut :
  (content <$> dom (onmessage (event "data_quality_update"
                                 (VObj [("analysis_completeness", VStr "基本完整")]))
                              counted) !! "completeness")
  = Some [TextNode "基本"] ∧
  firstUnits 2 0 "OK" = "OK" ∧ firstUnits 2 0 "a😀" = "a" +:+ bytes [237; 160; 189].
Proof. repeat split; vm_compute; reflexivity. Qed.

(** A product is the nearest double: 0.0045 times 100 is
    0.44999999999999996, and three times 100 is 300. *)
Lemma product_is_rounded :
  timesHundred (Fin (Qmake 5188146770730811 1152921504606846976))
  = Fin (Qmake 2026619832316723 4503599627370496) ∧
  timesHundred (Fin (Qmake 3 1)) = Fin (Qmake 300 1) ∧
  plusOne (number 9007199254740992) = number 9007199254740992.
Proof. repeat split; vm_compute; reflexivity. Qed.

End Cases.
